(** * Smart TabGuard: a shallow embedding of the extension's logic

    The extension is event-handler code around three host APIs:
    [chrome.storage], [chrome.runtime] messaging and the on-device
    [Summarizer].  Each handler is embedded as a function on an explicit
    state; host APIs whose behaviour the repository does not define are
    taken as oracles.

    - [JS]          the JavaScript primitives the handlers use
    - [Content]     basic-version/content.ts
    - [Storage]     basic-version/services/storage.ts
    - [Summarizer]  basic-version/services/summarizer.ts
    - [Background]  basic-version/background.ts
    - [Popup]       popup.ts *)

From Stdlib Require Import ZArith Ascii String List Bool Lia.
From Stdlib Require Import Floats.PrimFloat Floats.SpecFloat Floats.FloatOps.
From Stdlib Require Import Numbers.Cyclic.Int63.Uint63.
From stdpp Require Import base decidable option list strings pretty gmap fin_maps.

Local Open Scope Z_scope.
Local Open Scope string_scope.
Local Open Scope list_scope.

(* ===================================================================== *)
(** ** JavaScript primitives *)
(* ===================================================================== *)

Module JS.

(** [Array.prototype.includes] on an array of strings. *)
Definition includes (l : list string) (x : string) : bool :=
  existsb (String.eqb x) l.

(** [String.prototype.startsWith]. *)
Definition startsWith (s p : string) : bool := String.prefix p s.

(** [String.prototype.includes]: [sub] occurs somewhere in [s]. *)
Fixpoint str_includes (s sub : string) : bool :=
  String.prefix sub s ||
  match s with
  | EmptyString => false
  | String _ s' => str_includes s' sub
  end.

(** [toLowerCase] and [toUpperCase] on the ASCII letters; every other
    code unit is left as it is. *)
Definition lower_char (c : ascii) : ascii :=
  let n := nat_of_ascii c in
  if (Nat.leb 65 n && Nat.leb n 90)%bool then ascii_of_nat (n + 32) else c.

Definition upper_char (c : ascii) : ascii :=
  let n := nat_of_ascii c in
  if (Nat.leb 97 n && Nat.leb n 122)%bool then ascii_of_nat (n - 32) else c.

Fixpoint map_string (f : ascii -> ascii) (s : string) : string :=
  match s with
  | EmptyString => EmptyString
  | String c s' => String (f c) (map_string f s')
  end.

Definition toLowerCase : string -> string := map_string lower_char.
Definition toUpperCase : string -> string := map_string upper_char.

(** White space and line terminators that [trim] strips, among the code
    units below 256: TAB, LF, VT, FF, CR, SP and NBSP. *)
Definition is_white (c : ascii) : bool :=
  let n := nat_of_ascii c in
  (Nat.eqb n 9 || Nat.eqb n 10 || Nat.eqb n 11 || Nat.eqb n 12
   || Nat.eqb n 13 || Nat.eqb n 32 || Nat.eqb n 160)%bool.

Fixpoint trimStart (s : string) : string :=
  match s with
  | EmptyString => EmptyString
  | String c s' => if is_white c then trimStart s' else s
  end.

(** [trimEnd] keeps a character when it is not white space or when
    something remains after it. *)
Fixpoint trimEnd (s : string) : string :=
  match s with
  | EmptyString => EmptyString
  | String c s' =>
      match trimEnd s' with
      | EmptyString => if is_white c then EmptyString else String c EmptyString
      | t => String c t
      end
  end.

Definition trim (s : string) : string := trimEnd (trimStart s).

(** [a || b] on strings: the empty string is falsy. *)
Definition or_string (a : option string) (b : string) : string :=
  match a with
  | Some (String c s) => String c s
  | _ => b
  end.

(** *** Numbers

    A JavaScript number is an IEEE 754 double. *)
Definition number := float.

Definition of_nat (n : nat) : number :=
  PrimFloat.of_uint63 (Uint63.of_Z (Z.of_nat n)).

Definition of_Z_abs (n : Z) : number :=
  PrimFloat.of_uint63 (Uint63.of_Z (Z.abs n)).

(** [Math.round]: the integral number closest to [x], ties towards
    positive infinity; NaN, the infinities, the zeros and integral values
    are returned as they are.  A result that is zero keeps the sign of
    [x]. *)
Definition Math_round (x : number) : number :=
  match Prim2SF x with
  | S754_finite s m e =>
      if (0 <=? e)%Z then x
      else
        let d := Z.pow 2 (- e) in
        let v := if s then Z.opp (Z.pos m) else Z.pos m in
        let n := Z.div (2 * v + d) (2 * d) in
        if s then PrimFloat.opp (of_Z_abs n) else of_Z_abs n
  | _ => x
  end.

End JS.

(* ===================================================================== *)
(** ** content.ts: the content script *)
(* ===================================================================== *)

Module Content.

(** *** Data (interfaces [FormField], [FormDataInfo], [ContentAnalysis]) *)

Record FormField := mkFormField {
  name : string;
  type : string;
  value : string;
  required : bool;
  isModified : bool
}.

Record FormDataInfo := mkFormDataInfo {
  formId : string;
  fields : list FormField;
  completionPercentage : JS.number;
  lastModified : Z;
  hasUnsavedChanges : bool
}.

Inductive ContentType := CTForm | CTArticle | CTDocument | CTGeneral.
Inductive Level := Low | Medium | High.

Record ContentAnalysis := mkContentAnalysis {
  contentType : ContentType;
  complexity : Level;
  estimatedTime : Z;
  keyFields : list string;
  riskLevel : Level
}.

(** The script's module-level variables.  [currentFormData] is the
    [formData] object of the first form of the page: the listeners
    of that form's fields mutate this very object. *)
Record PageState := mkPageState {
  pageUnsaved : bool;                        (* hasUnsavedChanges *)
  isSiteProtected : bool;
  currentFormData : option FormDataInfo;
  contentAnalysis : option ContentAnalysis;
  warningShown : bool
}.

Definition initialPage : PageState :=
  mkPageState false false None None false.

(** Messages the content script sends to the background script. *)
Inductive Action :=
| UNSAVED_CHANGES_DETECTED
| CHANGES_SAVED.

(** *** checkProtectionStatus

    [response] is what [chrome.runtime.sendMessage] resolved to:
    [inl None] for an undefined response, [inl (Some b)] for
    [{isProtected: b}], [inr e] when the call rejected (the error is
    caught and logged). *)
Definition checkProtectionStatus
    (response : option bool + string) (st : PageState) : PageState :=
  match response with
  | inl (Some true) =>
      mkPageState (pageUnsaved st) true (currentFormData st)
                  (contentAnalysis st) (warningShown st)
  | _ => st
  end.

(** *** The beforeunload listener of setupEnhancedWarning *)

(** The three message templates of the listener, with the values they
    interpolate. *)
Inductive WarningMessage :=
| UnsavedChangesWarning
| FormProgressWarning (percentage : JS.number)
| UnsavedWorkWarning (ct : ContentType) (minutes : Z).

Record BeforeUnloadResult := mkBeforeUnload {
  defaultPrevented : bool;
  returnValue : option WarningMessage;   (* event.returnValue *)
  returned : option WarningMessage       (* the listener's result *)
}.

Definition formUnsaved (st : PageState) : bool :=
  match currentFormData st with
  | Some f => hasUnsavedChanges f
  | None => false
  end.

Definition beforeunload (st : PageState) : BeforeUnloadResult :=
  if isSiteProtected st && (pageUnsaved st || formUnsaved st) then
    let warningMessage :=
      match currentFormData st with
      | Some f =>
          if PrimFloat.ltb PrimFloat.zero (completionPercentage f)
          then FormProgressWarning (completionPercentage f)
          else match contentAnalysis st with
               | Some a => UnsavedWorkWarning (contentType a) (estimatedTime a)
               | None => UnsavedChangesWarning
               end
      | None => UnsavedChangesWarning
      end in
    mkBeforeUnload true (Some warningMessage) (Some warningMessage)
  else mkBeforeUnload false None None.

(** The listener warns: it prevents the default and hands a message
    back. *)
Definition warns (r : BeforeUnloadResult) : bool :=
  defaultPrevented r && bool_decide (is_Some (returned r)).

(** *** handleFieldChange

    [fieldData] is an element of [formData.fields] (the very object
    pushed there by setupEnhancedFormDetection), so it is given by its
    index [i]; [fieldValue] is the value the DOM field holds.  No listener
    is registered for an index outside [formData.fields]. *)
Inductive Effect :=
| SendMessage (a : Action)
| ShowCompletionFeedback (percentage : JS.number).

Definition setValue (f : FormField) (v : string) : FormField :=
  mkFormField (name f) (type f) v (required f) true.

Definition isCompleted (f : FormField) : bool :=
  negb (String.eqb (JS.trim (value f)) "").

Definition completion (fs : list FormField) : JS.number :=
  let requiredFields := List.filter required fs in
  let completedFields := List.filter isCompleted requiredFields in
  JS.Math_round
    (PrimFloat.mul
       (PrimFloat.div (JS.of_nat (length completedFields))
                      (JS.of_nat (length requiredFields)))
       (JS.of_nat 100)).

Definition handleFieldChange (shown : bool) (now : Z)
    (formData : FormDataInfo) (i : nat) (fieldValue : string)
    : FormDataInfo * list Effect :=
  match fields formData !! i with
  | None => (formData, [])
  | Some fieldData =>
      let newValue := fieldValue in
      let hasChanged := negb (String.eqb (value fieldData) newValue) in
      if hasChanged then
        let fields' := <[i := setValue fieldData newValue]> (fields formData) in
        let pct := completion fields' in
        let formData' := mkFormDataInfo (formId formData) fields' pct now true in
        (formData',
         SendMessage UNSAVED_CHANGES_DETECTED ::
         (if PrimFloat.leb (JS.of_nat 80) pct && negb shown
          then [ShowCompletionFeedback pct] else []))
      else (formData, [])
  end.

(** handleFormSubmit *)
Definition handleFormSubmit (formData : FormDataInfo)
    : FormDataInfo * list Effect :=
  (mkFormDataInfo (formId formData) (fields formData) (JS.of_nat 100)
                  (lastModified formData) false,
   [SendMessage CHANGES_SAVED]).

(** *** The part of the DOM that performContentAnalysis reads

    An element is known by its tag, its attributes, its class list and
    (for form controls) its [type] property; a document by its elements
    in document order and the length of [document.body.textContent]. *)
Record Element := mkElement {
  localName : string;                   (* the tag, in lower case *)
  attributes : list (string * string);
  classList : list string;
  typeProp : string
}.

Record Document := mkDocument {
  elements : list Element;
  bodyTextLength : nat
}.

Definition tagName (e : Element) : string := JS.toUpperCase (localName e).

Definition getAttribute (e : Element) (a : string) : option string :=
  snd <$> List.find (fun p => String.eqb (fst p) a) (attributes e).

Definition hasAttribute (e : Element) (a : string) : bool :=
  match getAttribute e a with Some _ => true | None => false end.

(** The selectors the script uses: a tag, a class, [[attr]] and
    [[attr="v"]]; a selector list is a comma-separated group. *)
Inductive Simple :=
| Tag (t : string)
| Class (c : string)
| HasAttr (a : string)
| AttrEq (a v : string).

Definition matches1 (e : Element) (s : Simple) : bool :=
  match s with
  | Tag t => String.eqb (localName e) t
  | Class c => JS.includes (classList e) c
  | HasAttr a => hasAttribute e a
  | AttrEq a v =>
      match getAttribute e a with
      | Some w => String.eqb w v
      | None => false
      end
  end.

Definition matches (sel : list Simple) (e : Element) : bool :=
  existsb (matches1 e) sel.

Definition querySelectorAll (d : Document) (sel : list Simple) : list Element :=
  List.filter (matches sel) (elements d).

Definition querySelector (d : Document) (sel : list Simple) : option Element :=
  head (querySelectorAll d sel).

Definition truthy {A} (o : option A) : bool :=
  match o with Some _ => true | None => false end.

(** *** performContentAnalysis *)

Definition isRequired (input : Element) : bool :=
  hasAttribute input "required" ||
  match getAttribute input "aria-required" with
  | Some v => String.eqb v "true"
  | None => false
  end.

Definition isTextField (input : Element) : bool :=
  String.eqb (tagName input) "TEXTAREA" ||
  (String.eqb (typeProp input) "text" || String.eqb (typeProp input) "email"
   || String.eqb (typeProp input) "url").

Definition fieldLabel (input : Element) : string :=
  JS.or_string (getAttribute input "name")
               (JS.or_string (getAttribute input "id") "unnamed").

Definition performContentAnalysis (d : Document) : ContentAnalysis :=
  let forms := querySelectorAll d [Tag "form"] in
  let inputs := querySelectorAll d [Tag "input"; Tag "textarea"; Tag "select"] in
  let articles := querySelectorAll d [Tag "article"; AttrEq "role" "main"; Tag "main"] in
  if (0 <? length forms)%nat then
    let complexity :=
      if (2 <? length forms)%nat then High
      else if (1 <? length forms)%nat then Medium else Low in
    let requiredFields := List.filter isRequired inputs in
    let textFields := List.filter isTextField inputs in
    (* Math.max(1, Math.ceil((2r + 3t) / 2)) *)
    let estimatedTime :=
      Z.max 1 ((Z.of_nat (length requiredFields) * 2
                + Z.of_nat (length textFields) * 3 + 1) / 2) in
    let keyFields :=
      take 5 (List.map fieldLabel
                (List.filter
                   (fun input => hasAttribute input "required"
                                 || String.eqb (tagName input) "TEXTAREA")
                   inputs)) in
    let riskLevel :=
      if (5 <? length requiredFields)%nat then High
      else if (2 <? length requiredFields)%nat then Medium else Low in
    mkContentAnalysis CTForm complexity estimatedTime keyFields riskLevel
  else if (0 <? length articles)%nat
          || truthy (querySelector d [Tag "article"; Class "post"; Class "entry"]) then
    (* Math.ceil(length || 0 / 1000): the division binds tighter than ||,
       so the result is the length itself *)
    mkContentAnalysis CTArticle Medium (Z.of_nat (bodyTextLength d)) [] Low
  else if truthy (querySelector d [Class "document"; Class "editor";
                                   HasAttr "contenteditable"]) then
    mkContentAnalysis CTDocument High 10 [] Medium
  else
    mkContentAnalysis CTGeneral Low 0 [] Low.

End Content.

(* ===================================================================== *)
(** ** Exceptions and state *)
(* ===================================================================== *)

Module Eff.

(** The outcome of a call: a value, or a thrown [Error] (its message). *)
Inductive result (A : Type) :=
| Ok (a : A)
| Throw (e : string).
Arguments Ok {A} a.
Arguments Throw {A} e.

(** A computation over a state [S] that may throw.  An [async] function
    is run to completion: awaiting a rejected promise is [Throw]. *)
Definition M (S A : Type) : Type := S -> result A * S.

Definition ret {S A} (a : A) : M S A := fun s => (Ok a, s).
Definition throw {S A} (e : string) : M S A := fun s => (Throw e, s).

Definition bind {S A B} (m : M S A) (k : A -> M S B) : M S B :=
  fun s =>
    match m s with
    | (Ok a, s') => k a s'
    | (Throw e, s') => (Throw e, s')
    end.

(** [try { m } catch (error) { h error }] *)
Definition try_catch {S A} (m : M S A) (h : string -> M S A) : M S A :=
  fun s =>
    match m s with
    | (Ok a, s') => (Ok a, s')
    | (Throw e, s') => h e s'
    end.

Definition get {S} : M S S := fun s => (Ok s, s).
Definition modify {S} (f : S -> S) : M S unit := fun s => (Ok tt, f s).

(** Awaiting a host promise whose outcome is known. *)
Definition await {S A} (r : result A) : M S A := fun s => (r, s).

Definition isOk {A} (r : result A) : bool :=
  match r with Ok _ => true | Throw _ => false end.

End Eff.

Notation "x <- m ;; k" := (Eff.bind m (fun x => k))
  (at level 100, m at next level, right associativity).
Notation "m ;;; k" := (Eff.bind m (fun _ => k))
  (at level 100, right associativity).

(* ===================================================================== *)
(** ** services/summarizer.ts: data *)
(* ===================================================================== *)

Module Summarizer.

Inductive SummaryType := KeyPoints | Tldr | Teaser | Headline.
Inductive SummaryFormat := Markdown | PlainText.
Inductive SummaryLength := Short | MediumLength | Long.

Record TabSummary := mkTabSummary {
  tabId : Z;
  url : string;
  title : string;
  summary : string;
  type : SummaryType;
  length : SummaryLength;
  timestamp : Z
}.

Record SummarizerConfig := mkConfig {
  cfgType : option SummaryType;
  cfgFormat : option SummaryFormat;
  cfgLength : option SummaryLength;
  sharedContext : option string
}.

Definition emptyConfig : SummarizerConfig := mkConfig None None None None.

(** The options [Summarizer.create] is called with. *)
Record CreateOptions := mkCreateOptions {
  optType : SummaryType;
  optFormat : SummaryFormat;
  optLength : SummaryLength;
  optSharedContext : option string
}.

(** A host [Summarizer] object: whether its [ready] promise fulfils, and
    what [summarize(text, {context})] settles to. *)
Record Handle := mkHandle {
  ready : Eff.result unit;
  summarizeWith : string -> option string -> Eff.result string
}.

(** The host's Summarizer API. *)
Record Api := mkApi {
  present : bool;                                   (* 'Summarizer' in self *)
  availability : Eff.result string;                 (* Summarizer.availability() *)
  create : CreateOptions -> Eff.result Handle       (* Summarizer.create(options) *)
}.

(** The private fields of the [SummarizerService] singleton.  A promise
    is kept with its outcome. *)
Record Service := mkService {
  summarizer : option Handle;
  isInitialized : bool;
  initializationPromise : option (Eff.result unit)
}.

Definition newService : Service := mkService None false None.

End Summarizer.

(* ===================================================================== *)
(** ** services/storage.ts *)
(* ===================================================================== *)

Module StorageService.

Inductive ProtectionLevel := ProtNone | ProtBasic | ProtEnhanced.

Record TabData := mkTabData {
  tabId : Z;
  url : string;
  title : string;
  hasUnsavedChanges : bool;
  summary : option Summarizer.TabSummary;
  lastUpdated : Z;
  protectionLevel : ProtectionLevel
}.

Record SummaryTypes := mkSummaryTypes {
  forms : Summarizer.SummaryType;
  articles : Summarizer.SummaryType;
  documents : Summarizer.SummaryType;
  general : Summarizer.SummaryType
}.

Record ExtensionSettings := mkSettings {
  protectedSites : list string;
  aiFeaturesEnabled : bool;
  autoSummarize : bool;
  summaryTypes : SummaryTypes;
  maxSummariesPerTab : Z;
  summaryRetentionDays : Z
}.

(** [Partial<ExtensionSettings>] *)
Record PartialSettings := mkPartial {
  protectedSites' : option (list string);
  aiFeaturesEnabled' : option bool;
  autoSummarize' : option bool;
  summaryTypes' : option SummaryTypes;
  maxSummariesPerTab' : option Z;
  summaryRetentionDays' : option Z
}.

Definition noChange : PartialSettings :=
  mkPartial None None None None None None.

(** [chrome.storage]: the [local] area holds objects under string keys
    (the repository stores only [TabData] there); of the [sync] area
    the two keys in use, [settings] and [protectedSites]. *)
Record ChromeStorage := mkStorage {
  local : gmap string TabData;
  syncSettings : option ExtensionSettings;
  syncProtectedSites : option (list string)
}.

Definition emptyStorage : ChromeStorage := mkStorage ∅ None None.

Definition setLocal (f : gmap string TabData -> gmap string TabData)
    (st : ChromeStorage) : ChromeStorage :=
  mkStorage (f (local st)) (syncSettings st) (syncProtectedSites st).

(** [`tab_${tabId}`] *)
Definition tabKey (tabId : Z) : string := "tab_" +:+ pretty tabId.

(** *** Tab data *)

Definition saveTabData (tabData : TabData) (st : ChromeStorage) : ChromeStorage :=
  setLocal (insert (tabKey (tabId tabData)) tabData) st.

Definition getTabData (tabId : Z) (st : ChromeStorage) : option TabData :=
  local st !! tabKey tabId.

(** Every stored value is an object, so of the loop's test
    [key.startsWith('tab_') && typeof value === 'object'] the first half
    decides.  The records come in the order the store lists them. *)
Definition getAllTabData (st : ChromeStorage) : list TabData :=
  List.map snd
    (List.filter (fun kv => JS.startsWith (fst kv) "tab_")
                 (map_to_list (local st))).

Definition removeTabData (tabId : Z) (st : ChromeStorage) : ChromeStorage :=
  setLocal (delete (tabKey tabId)) st.

Definition withSummary (t : TabData) (s : Summarizer.TabSummary) (now : Z) : TabData :=
  mkTabData (tabId t) (url t) (title t) (hasUnsavedChanges t) (Some s) now
            (protectionLevel t).

Definition updateTabSummary (tabId : Z) (summary : Summarizer.TabSummary)
    (now : Z) (st : ChromeStorage) : ChromeStorage :=
  match getTabData tabId st with
  | Some tabData => saveTabData (withSummary tabData summary now) st
  | None => st
  end.

(** *** Settings *)

Definition getDefaultSettings : ExtensionSettings :=
  mkSettings []
             true
             true
             (mkSummaryTypes Summarizer.KeyPoints Summarizer.Teaser
                             Summarizer.Tldr Summarizer.KeyPoints)
             5
             7.

Definition getSettings (st : ChromeStorage) : ExtensionSettings :=
  match syncSettings st with
  | Some settings => settings
  | None => getDefaultSettings
  end.

(** [{ ...currentSettings, ...settings }] *)
Definition spread (current : ExtensionSettings) (p : PartialSettings)
    : ExtensionSettings :=
  mkSettings (default (protectedSites current) (protectedSites' p))
             (default (aiFeaturesEnabled current) (aiFeaturesEnabled' p))
             (default (autoSummarize current) (autoSummarize' p))
             (default (summaryTypes current) (summaryTypes' p))
             (default (maxSummariesPerTab current) (maxSummariesPerTab' p))
             (default (summaryRetentionDays current) (summaryRetentionDays' p)).

Definition saveSettings (settings : PartialSettings) (st : ChromeStorage)
    : ChromeStorage :=
  let currentSettings := getSettings st in
  let updatedSettings := spread currentSettings settings in
  mkStorage (local st) (Some updatedSettings) (syncProtectedSites st).

Definition getProtectedSites (st : ChromeStorage) : list string :=
  protectedSites (getSettings st).

Definition onlySites (sites : list string) : PartialSettings :=
  mkPartial (Some sites) None None None None None.

Definition addProtectedSite (site : string) (st : ChromeStorage) : ChromeStorage :=
  let sites := getProtectedSites st in
  if negb (JS.includes sites site)
  then saveSettings (onlySites (sites ++ [site])) st
  else st.

Definition removeProtectedSite (site : string) (st : ChromeStorage) : ChromeStorage :=
  let sites := getProtectedSites st in
  let filteredSites := List.filter (fun s => negb (String.eqb s site)) sites in
  saveSettings (onlySites filteredSites) st.

(** *** AI features *)

Definition isAIFeaturesEnabled (st : ChromeStorage) : bool :=
  aiFeaturesEnabled (getSettings st).

Definition setAIFeaturesEnabled (enabled : bool) (st : ChromeStorage) : ChromeStorage :=
  saveSettings (mkPartial None (Some enabled) None None None None) st.

Definition isAutoSummarizeEnabled (st : ChromeStorage) : bool :=
  autoSummarize (getSettings st).

(** *** Cleanup *)

Definition isStale (cutoffTime : Z) (tab : TabData) : bool :=
  (lastUpdated tab <? cutoffTime)%Z && negb (hasUnsavedChanges tab).

Definition cleanupOldSummaries (now : Z) (st : ChromeStorage) : ChromeStorage :=
  let settings := getSettings st in
  let retentionMs := summaryRetentionDays settings * 24 * 60 * 60 * 1000 in
  let cutoffTime := now - retentionMs in
  let allTabData := getAllTabData st in
  let tabsToClean := List.filter (isStale cutoffTime) allTabData in
  fold_left (fun s tab => removeTabData (tabId tab) s) tabsToClean st.

End StorageService.

(* ===================================================================== *)
(** ** The service worker's state and its host *)
(* ===================================================================== *)

Module Runtime.

Inductive LogEntry :=
| Log (text : string)                       (* console.log(text) *)
| LogError (text : string) (error : string). (* console.error(text, error) *)

(** An entry of the [summarizationStatus] map. *)
Record Status := mkStatus {
  isProcessing : bool;
  lastAttempt : Z;
  errorCount : Z
}.

Inductive Icon := IconDefault | IconWarning.

(** What [chrome.tabs.get] reports of a tab. *)
Record TabInfo := mkTabInfo {
  tabUrl : option string;
  tabTitle : option string
}.

Record World := mkWorld {
  storage : StorageService.ChromeStorage;
  service : Summarizer.Service;
  console : list LogEntry;                  (* oldest first *)
  tabState : gmap Z bool;                   (* tabId -> hasUnsavedChanges *)
  summarizationStatus : gmap Z Status;
  icons : gmap Z Icon
}.

(** What the browser answers; the repository does not define it. *)
Record Host := mkHost {
  api : Summarizer.Api;
  hostnameOf : string -> option string;  (* new URL(u).hostname; None: TypeError *)
  now : Z;                               (* Date.now() *)
  tabs : gmap Z TabInfo;                 (* chrome.tabs.get *)
  pageText : Z -> Eff.result string      (* chrome.scripting.executeScript *)
}.

Definition newWorld : World :=
  mkWorld StorageService.emptyStorage Summarizer.newService [] ∅ ∅ ∅.

Definition setStorage (f : StorageService.ChromeStorage -> StorageService.ChromeStorage)
    (w : World) : World :=
  mkWorld (f (storage w)) (service w) (console w) (tabState w)
          (summarizationStatus w) (icons w).

Definition setService (f : Summarizer.Service -> Summarizer.Service)
    (w : World) : World :=
  mkWorld (storage w) (f (service w)) (console w) (tabState w)
          (summarizationStatus w) (icons w).

Definition addLog (l : LogEntry) (w : World) : World :=
  mkWorld (storage w) (service w) (console w ++ [l]) (tabState w)
          (summarizationStatus w) (icons w).

Definition setTabState (f : gmap Z bool -> gmap Z bool) (w : World) : World :=
  mkWorld (storage w) (service w) (console w) (f (tabState w))
          (summarizationStatus w) (icons w).

Definition setStatus (f : gmap Z Status -> gmap Z Status) (w : World) : World :=
  mkWorld (storage w) (service w) (console w) (tabState w)
          (f (summarizationStatus w)) (icons w).

Definition setIcons (f : gmap Z Icon -> gmap Z Icon) (w : World) : World :=
  mkWorld (storage w) (service w) (console w) (tabState w)
          (summarizationStatus w) (f (icons w)).

Definition JSM (A : Type) : Type := Eff.M World A.

Definition consoleLog (text : string) : JSM unit :=
  Eff.modify (addLog (Log text)).

Definition consoleError (text error : string) : JSM unit :=
  Eff.modify (addLog (LogError text error)).

(** A call whose promise nobody awaits: its effects happen, its
    rejection reaches no caller. *)
Definition detached {A} (m : JSM A) : JSM unit :=
  fun w => (Eff.Ok tt, snd (m w)).

End Runtime.

(* ===================================================================== *)
(** ** services/summarizer.ts: the SummarizerService class *)
(* ===================================================================== *)

Module SummarizerService.
Import Eff Runtime.

Section Methods.
Variable host : Host.

Definition isSupported : JSM bool :=
  ret (Summarizer.present (api host)).

Definition performInitialization (config : Summarizer.SummarizerConfig)
    : JSM unit :=
  try_catch
    ((if negb (Summarizer.present (api host))
      then throw "Summarizer API is not supported in this browser"
      else ret tt) ;;;
     availability <- await (Summarizer.availability (api host)) ;;
     (if String.eqb availability "unavailable"
      then throw "Summarizer API is not available"
      else ret tt) ;;;
     created <- await (Summarizer.create (api host)
                  (Summarizer.mkCreateOptions
                     (default Summarizer.KeyPoints (Summarizer.cfgType config))
                     (default Summarizer.Markdown (Summarizer.cfgFormat config))
                     (default Summarizer.MediumLength (Summarizer.cfgLength config))
                     (Summarizer.sharedContext config))) ;;
     modify (setService (fun s =>
               Summarizer.mkService (Some created) (Summarizer.isInitialized s)
                                    (Summarizer.initializationPromise s))) ;;;
     await (Summarizer.ready created) ;;;
     modify (setService (fun s =>
               Summarizer.mkService (Summarizer.summarizer s) true
                                    (Summarizer.initializationPromise s))) ;;;
     consoleLog "Summarizer initialized successfully")
    (fun error =>
       consoleError "Failed to initialize summarizer:" error ;;;
       throw error).

Definition initialize (config : Summarizer.SummarizerConfig) : JSM unit :=
  fun w =>
    if Summarizer.isInitialized (service w) then (Ok tt, w)
    else
      match Summarizer.initializationPromise (service w) with
      | Some promise => (promise, w)
      | None =>
          let '(outcome, w') := performInitialization config w in
          (outcome,
           setService (fun s =>
             Summarizer.mkService (Summarizer.summarizer s)
                                  (Summarizer.isInitialized s)
                                  (Some outcome)) w')
      end.

Definition summarize (text : string) (context : option string) : JSM string :=
  w <- get ;;
  match Summarizer.isInitialized (service w), Summarizer.summarizer (service w) with
  | true, Some summarizer =>
      try_catch
        (summary <- await (Summarizer.summarizeWith summarizer text context) ;;
         ret summary)
        (fun error =>
           consoleError "Failed to generate summary:" error ;;;
           throw error)
  | _, _ => throw "Summarizer not initialized"
  end.

Definition determineSummaryType (content url : string) : Summarizer.SummaryType :=
  let urlLower := JS.toLowerCase url in
  if JS.str_includes content "<form" || JS.str_includes content "input"
     || JS.str_includes content "textarea"
  then Summarizer.KeyPoints
  else if JS.str_includes urlLower "blog" || JS.str_includes urlLower "article"
          || JS.str_includes urlLower "news"
  then Summarizer.Teaser
  else if JS.str_includes urlLower "docs" || JS.str_includes urlLower "drive"
          || JS.str_includes urlLower "office"
  then Summarizer.Tldr
  else Summarizer.KeyPoints.

Definition generateTabSummary (tabId : Z) (url title content : string)
    : JSM Summarizer.TabSummary :=
  let summaryType := determineSummaryType content url in
  w <- get ;;
  (match Summarizer.summarizer (service w) with
   | Some _ =>
       initialize (Summarizer.mkConfig (Some summaryType) None
                                       (Some Summarizer.Short) None)
   | None => ret tt
   end) ;;;
  summary <- summarize content (Some ("This is content from: " +:+ title)) ;;
  ret (Summarizer.mkTabSummary tabId url title summary summaryType
                               Summarizer.Short (now host)).

Definition dispose : JSM unit :=
  modify (setService (fun _ => Summarizer.mkService None false None)).

End Methods.

End SummarizerService.

(* ===================================================================== *)
(** ** background.ts: the service worker *)
(* ===================================================================== *)

Module Background.
Import Eff Runtime.

(** The messages of [chrome.runtime.onMessage], by their [action]. *)
Inductive Message :=
| UNSAVED_CHANGES_DETECTED
| CHANGES_SAVED
| GET_PROTECTION_STATUS (hostname : string)
| GENERATE_SUMMARY
| GET_TAB_SUMMARY
| CHECK_AI_STATUS
| CONTENT_ANALYSIS_COMPLETE (analysis : option Content.ContentAnalysis)
| OtherAction (action : string).

(** What [sendResponse] is called with. *)
Inductive Response :=
| ProtectionStatus (isProtected : bool)
| SummaryRequested (success : bool) (error : option string)
| StoredSummary (summary : option Summarizer.TabSummary)
| AIStatus (supported : bool).

Section Worker.
Variable host : Host.

(** [result.protectedSites || []] of [chrome.storage.sync.get] *)
Definition storedProtectedSites (w : World) : list string :=
  default [] (StorageService.syncProtectedSites (storage w)).

Definition updateIcon (tabId : Z) : JSM unit :=
  w <- get ;;
  match tabState w !! tabId with
  | Some true =>
      match tabs host !! tabId with
      | None => throw "No tab with id"
      | Some tab =>
          match tabUrl tab with
          | None | Some EmptyString => ret tt
          | Some url =>
              match hostnameOf host url with
              | None => throw "Invalid URL"
              | Some hostname =>
                  if JS.includes (storedProtectedSites w) hostname
                  then modify (setIcons (insert tabId IconWarning))
                  else ret tt
              end
          end
      end
  | _ => modify (setIcons (insert tabId IconDefault))
  end.

(** The injected script's result, or [''] when the injection fails. *)
Definition extractTabContent (tabId : Z) : JSM string :=
  try_catch
    (text <- await (pageText host tabId) ;; ret text)
    (fun error =>
       consoleError "Failed to extract content from tab:" error ;;;
       ret "").

Definition shouldSummarizeTab (tabId : Z) (url content : string) : JSM bool :=
  w <- get ;;
  let aiEnabled := StorageService.isAIFeaturesEnabled (storage w) in
  if negb aiEnabled then ret false else
  isSupported <- SummarizerService.isSupported host ;;
  if negb isSupported then ret false else
  let status := summarizationStatus w !! tabId in
  if match status with Some s => isProcessing s | None => false end
  then ret false else
  if (String.length content <? 200)%nat then ret false else
  let protectedSites := StorageService.getProtectedSites (storage w) in
  match hostnameOf host url with
  | None => throw "Invalid URL"
  | Some hostname =>
      if JS.includes protectedSites hostname then ret true else
      let autoSummarize := StorageService.isAutoSummarizeEnabled (storage w) in
      if negb autoSummarize then ret false else
      let urlLower := JS.toLowerCase url in
      if JS.str_includes urlLower "blog" || JS.str_includes urlLower "article"
         || JS.str_includes urlLower "news" || JS.str_includes urlLower "docs"
      then ret true
      else ret false
  end.

Definition generateTabSummary (tabId : Z) (url title content : string)
    : JSM unit :=
  try_catch
    (modify (setStatus (insert tabId (mkStatus true (now host) 0))) ;;;
     SummarizerService.initialize host Summarizer.emptyConfig ;;;
     summary <- SummarizerService.generateTabSummary host tabId url title content ;;
     modify (setStorage (StorageService.updateTabSummary tabId summary (now host))) ;;;
     consoleLog ("Generated summary for tab " +:+ pretty tabId +:+ ": " +:+ title) ;;;
     modify (setStatus (insert tabId (mkStatus false (now host) 0))))
    (fun error =>
       consoleError ("Failed to generate summary for tab: " +:+ pretty tabId) error ;;;
       modify (setStatus
                 (alter (fun s => mkStatus false (lastAttempt s) (errorCount s + 1))
                        tabId))).

(** The [onMessage] listener.  [senderTab] is [sender.tab?.id]; the
    result is the response sent, if any. *)
Definition onMessage (message : Message) (senderTab : option Z)
    : JSM (option Response) :=
  match senderTab with
  | None | Some 0 => ret None
  | Some tabId =>
      match message with
      | UNSAVED_CHANGES_DETECTED =>
          modify (setTabState (insert tabId true)) ;;;
          detached (updateIcon tabId) ;;;
          ret None
      | CHANGES_SAVED =>
          modify (setTabState (insert tabId false)) ;;;
          detached (updateIcon tabId) ;;;
          ret None
      | GET_PROTECTION_STATUS hostname =>
          w <- get ;;
          let isProtected := JS.includes (storedProtectedSites w) hostname in
          ret (Some (ProtectionStatus isProtected))
      | GENERATE_SUMMARY =>
          match tabs host !! tabId with
          | Some (mkTabInfo (Some (String c u)) (Some (String d t))) =>
              content <- extractTabContent tabId ;;
              match content with
              | EmptyString =>
                  ret (Some (SummaryRequested false (Some "No content found")))
              | _ =>
                  detached (generateTabSummary tabId (String c u) (String d t) content) ;;;
                  ret (Some (SummaryRequested true None))
              end
          | _ => ret None
          end
      | GET_TAB_SUMMARY =>
          w <- get ;;
          let tabData := StorageService.getTabData tabId (storage w) in
          ret (Some (StoredSummary (tabData ≫= StorageService.summary)))
      | CHECK_AI_STATUS =>
          supported <- SummarizerService.isSupported host ;;
          ret (Some (AIStatus supported))
      | CONTENT_ANALYSIS_COMPLETE (Some analysis) =>
          consoleLog "Content analysis received:" ;;;
          (match Content.contentType analysis, Content.riskLevel analysis with
           | Content.CTForm, Content.High =>
               consoleLog "High-risk form detected, prioritizing protection"
           | _, _ => ret tt
           end) ;;;
          ret None
      | CONTENT_ANALYSIS_COMPLETE None => ret None
      | OtherAction _ => ret None
      end
  end.

End Worker.

End Background.

(* ===================================================================== *)
(** ** popup.ts: the popup *)
(* ===================================================================== *)

Module Popup.

(** The [data-action] of a rendered recommendation button. *)
Inductive RecAction := ProtectSite | EnableAI.

Definition RecAction_eqb (a b : RecAction) : bool :=
  match a, b with
  | ProtectSite, ProtectSite | EnableAI, EnableAI => true
  | _, _ => false
  end.

(** The listener's variables and the part of the popup's DOM they
    drive. *)
Record Popup := mkPopup {
  currentHostname : string;
  protectedSites : list string;
  settings : option StorageService.ExtensionSettings;
  toggleShowsUnprotect : bool;       (* 'Unprotect this Site' / 'Protect this Site' *)
  recommendations : list RecAction;  (* the buttons inside #recommendations *)
  aiToggleChecked : bool;            (* aiToggle.checked *)
  autoSummarizeToggleChecked : bool  (* autoSummarizeToggle.checked *)
}.

(** What runs after an awaited [chrome.storage.sync.set] resolves. *)
Inductive Continuation :=
| AfterToggleWrite        (* updateButtonStatus(); generateRecommendations() *)
| AfterProtectWrite       (* updateButtonStatus(); generateRecommendations() *)
| AfterEnableAIWrite      (* generateRecommendations() *)
| AfterSettingWrite.      (* nothing: updateSetting returns, the change
                             listener ends *)

Record State := mkState {
  popup : Popup;
  storage : StorageService.ChromeStorage;
  pending : list Continuation                 (* oldest first *)
}.

Definition updateButtonStatus (p : Popup) : Popup :=
  mkPopup (currentHostname p) (protectedSites p) (settings p)
          (JS.includes (protectedSites p) (currentHostname p))
          (recommendations p) (aiToggleChecked p) (autoSummarizeToggleChecked p).

Definition generateRecommendations (p : Popup) : Popup :=
  let recommendationsList :=
    (if negb (JS.includes (protectedSites p) (currentHostname p))
     then [ProtectSite] else [])
    ++ (match settings p with
        | Some s => if negb (StorageService.aiFeaturesEnabled s) then [EnableAI] else []
        | None => []
        end) in
  mkPopup (currentHostname p) (protectedSites p) (settings p)
          (toggleShowsUnprotect p) recommendationsList (aiToggleChecked p)
          (autoSummarizeToggleChecked p).

Definition setSites (sites : list string) (p : Popup) : Popup :=
  mkPopup (currentHostname p) sites (settings p)
          (toggleShowsUnprotect p) (recommendations p) (aiToggleChecked p)
          (autoSummarizeToggleChecked p).

(** [chrome.storage.sync.set({ protectedSites })] *)
Definition writeSites (sites : list string) (st : StorageService.ChromeStorage)
    : StorageService.ChromeStorage :=
  StorageService.mkStorage (StorageService.local st)
                           (StorageService.syncSettings st) (Some sites).

(** [chrome.storage.sync.set({ settings })] *)
Definition writeSettings (s : StorageService.ExtensionSettings)
    (st : StorageService.ChromeStorage) : StorageService.ChromeStorage :=
  StorageService.mkStorage (StorageService.local st) (Some s)
                           (StorageService.syncProtectedSites st).

(** initializePopup on a tab of [hostname]: loadSettings,
    loadProtectedSites, generateRecommendations. *)
Definition openPopup (hostname : string) (st : StorageService.ChromeStorage) : State :=
  let settings := StorageService.getSettings st in
  let p := mkPopup hostname
                   (default [] (StorageService.syncProtectedSites st))
                   (Some settings) false []
                   (StorageService.aiFeaturesEnabled settings)
                   (StorageService.autoSummarize settings) in
  mkState (generateRecommendations (updateButtonStatus p)) st [].

(** The toggle button's click listener, up to its [await]. *)
Definition toggleClick (s : State) : State :=
  let p := popup s in
  let isProtected := JS.includes (protectedSites p) (currentHostname p) in
  let sites :=
    if isProtected
    then List.filter (fun site => negb (String.eqb site (currentHostname p)))
                     (protectedSites p)
    else protectedSites p ++ [currentHostname p] in
  mkState (setSites sites p) (writeSites sites (storage s))
          (pending s ++ [AfterToggleWrite]).

(** The click listener of #recommendations for a button with the given
    [data-action], up to its [await]. *)
Definition recommendationClick (action : RecAction) (s : State) : State :=
  let p := popup s in
  match action with
  | ProtectSite =>
      let sites := protectedSites p ++ [currentHostname p] in
      mkState (setSites sites p) (writeSites sites (storage s))
              (pending s ++ [AfterProtectWrite])
  | EnableAI =>
      (* aiToggle.checked = true; updateSetting('aiFeaturesEnabled', true) *)
      match settings p with
      | None =>
          mkState (generateRecommendations
                     (mkPopup (currentHostname p) (protectedSites p) None
                              (toggleShowsUnprotect p) (recommendations p) true
                              (autoSummarizeToggleChecked p)))
                  (storage s) (pending s)
      | Some old =>
          let new := StorageService.mkSettings
                       (StorageService.protectedSites old) true
                       (StorageService.autoSummarize old)
                       (StorageService.summaryTypes old)
                       (StorageService.maxSummariesPerTab old)
                       (StorageService.summaryRetentionDays old) in
          mkState (mkPopup (currentHostname p) (protectedSites p) (Some new)
                           (toggleShowsUnprotect p) (recommendations p) true
                           (autoSummarizeToggleChecked p))
                  (writeSettings new (storage s))
                  (pending s ++ [AfterEnableAIWrite])
      end
  end.

(** The change listener of #aiToggle, up to the [await] in updateSetting.
    The user's click has flipped the checkbox before the listener runs;
    the listener stores [aiToggle.checked] in the settings and renders
    nothing.  (Without settings updateSetting returns at once.) *)
Definition aiToggleChange (s : State) : State :=
  let p := popup s in
  let checked := negb (aiToggleChecked p) in
  match settings p with
  | None =>
      mkState (mkPopup (currentHostname p) (protectedSites p) None
                       (toggleShowsUnprotect p) (recommendations p) checked
                       (autoSummarizeToggleChecked p))
              (storage s) (pending s)
  | Some old =>
      let new := StorageService.mkSettings
                   (StorageService.protectedSites old) checked
                   (StorageService.autoSummarize old)
                   (StorageService.summaryTypes old)
                   (StorageService.maxSummariesPerTab old)
                   (StorageService.summaryRetentionDays old) in
      mkState (mkPopup (currentHostname p) (protectedSites p) (Some new)
                       (toggleShowsUnprotect p) (recommendations p) checked
                       (autoSummarizeToggleChecked p))
              (writeSettings new (storage s))
              (pending s ++ [AfterSettingWrite])
  end.

(** The change listener of #autoSummarizeToggle, likewise. *)
Definition autoSummarizeToggleChange (s : State) : State :=
  let p := popup s in
  let checked := negb (autoSummarizeToggleChecked p) in
  match settings p with
  | None =>
      mkState (mkPopup (currentHostname p) (protectedSites p) None
                       (toggleShowsUnprotect p) (recommendations p)
                       (aiToggleChecked p) checked)
              (storage s) (pending s)
  | Some old =>
      let new := StorageService.mkSettings
                   (StorageService.protectedSites old)
                   (StorageService.aiFeaturesEnabled old) checked
                   (StorageService.summaryTypes old)
                   (StorageService.maxSummariesPerTab old)
                   (StorageService.summaryRetentionDays old) in
      mkState (mkPopup (currentHostname p) (protectedSites p) (Some new)
                       (toggleShowsUnprotect p) (recommendations p)
                       (aiToggleChecked p) checked)
              (writeSettings new (storage s))
              (pending s ++ [AfterSettingWrite])
  end.

Definition resume (t : Continuation) (p : Popup) : Popup :=
  match t with
  | AfterToggleWrite | AfterProtectWrite =>
      generateRecommendations (updateButtonStatus p)
  | AfterEnableAIWrite => generateRecommendations p
  | AfterSettingWrite => p
  end.

(** What can happen to an open popup: a click on the toggle button, a
    click on a recommendation button that is on display, the oldest
    pending storage write resolving, or a click on one of the two
    settings checkboxes.  (The listeners of #generateSummaryBtn and
    #openOptionsBtn read and write none of the variables and none of the
    parts of the page recorded in [Popup], and no key of
    [chrome.storage.sync].) *)
Inductive Event :=
| ClickToggle
| ClickRecommendation (action : RecAction)
| WriteResolved
| ChangeAIToggle
| ChangeAutoSummarizeToggle.

Definition step (e : Event) (s : State) : option State :=
  match e with
  | ClickToggle => Some (toggleClick s)
  | ClickRecommendation a =>
      if existsb (RecAction_eqb a) (recommendations (popup s))
      then Some (recommendationClick a s)
      else None
  | WriteResolved =>
      match pending s with
      | t :: rest => Some (mkState (resume t (popup s)) (storage s) rest)
      | [] => None
      end
  | ChangeAIToggle => Some (aiToggleChange s)
  | ChangeAutoSummarizeToggle => Some (autoSummarizeToggleChange s)
  end.

Fixpoint run (es : list Event) (s : State) : option State :=
  match es with
  | [] => Some s
  | e :: es' =>
      match step e s with
      | Some s' => run es' s'
      | None => None
      end
  end.

(** A click whose listener finishes before anything else happens. *)
Definition undisturbed (e : Event) (s : State) : option State :=
  match step e s with
  | Some s' =>
      match pending s' with
      | [] => Some s'
      | _ :: _ => step WriteResolved s'
      end
  | None => None
  end.

End Popup.

(* ===================================================================== *)
(** ** content.ts: what the analysis is expected to compute *)
(* ===================================================================== *)

Module ContentSpec.
Import Content.

(** A form whose only field is optional. *)
Definition commentForm : FormDataInfo :=
  mkFormDataInfo "form_0" [mkFormField "comment" "text" "" false false]
                 (JS.of_nat 0) 0 false.

(** Some element of the page matches the selector. *)
Definition hasElement (d : Document) (sel : list Simple) : bool :=
  existsb (matches sel) (elements d).

Definition formElement : list Simple := [Tag "form"].

Definition articleLike : list Simple :=
  [Tag "article"; AttrEq "role" "main"; Tag "main"; Class "post"; Class "entry"].

Definition editorLike : list Simple :=
  [Class "document"; Class "editor"; HasAttr "contenteditable"].

(** The precedence of content types: form, article, document, general. *)
Definition classifySpec (d : Document) : ContentType :=
  if hasElement d formElement then CTForm
  else if hasElement d articleLike then CTArticle
  else if hasElement d editorLike then CTDocument
  else CTGeneral.

(** ['high'] above [hi], ['medium'] above [med], else ['low']. *)
Definition graded (n hi med : nat) : Level :=
  if (hi <? n)%nat then High else if (med <? n)%nat then Medium else Low.

Definition formCount (d : Document) : nat :=
  length (List.filter (matches formElement) (elements d)).

(** The form controls of the page that are marked required. *)
Definition requiredFieldCount (d : Document) : nat :=
  length (List.filter
            (fun e => matches [Tag "input"; Tag "textarea"; Tag "select"] e
                      && isRequired e)
            (elements d)).

(** A sign-up page: one form, three required controls, one optional. *)
Definition signupPage : Document :=
  mkDocument
    [mkElement "main" [] [] "";
     mkElement "form" [("id", "signup")] [] "";
     mkElement "input" [("name", "email"); ("required", "")] [] "email";
     mkElement "input" [("name", "password"); ("required", "")] [] "password";
     mkElement "textarea" [("id", "bio"); ("aria-required", "true")] [] "textarea";
     mkElement "select" [("name", "plan")] [] "select-one"]
    120.

(** A blog post marked up with a class only. *)
Definition blogPage : Document :=
  mkDocument
    [mkElement "div" [("class", "post")] ["post"] "";
     mkElement "div" [("contenteditable", "true")] ["editor"] ""]
    5000.

End ContentSpec.

(* ===================================================================== *)
(** ** services/storage.ts: the shape of the stored tab records *)
(* ===================================================================== *)

Module StorageSpec.
Import StorageService.

(** Every record of the [local] area under a [tab_] key sits under the
    key of its own tab.  saveTabData is the only writer of that area and
    files each record under [tabKey] of its [tabId], so every storage it
    builds has this shape. *)
Definition keyedByTabId (st : ChromeStorage) : Prop :=
  forall (k : string) (t : TabData),
    local st !! k = Some t -> JS.startsWith k "tab_" = true -> k = tabKey (tabId t).

(** The storages the extension can bring about, starting from an empty
    one: by the operations of [StorageService] and by the popup's writes
    to the [sync] area. *)
Inductive built : ChromeStorage -> Prop :=
| built_empty : built emptyStorage
| built_saveTabData t st : built st -> built (saveTabData t st)
| built_removeTabData id st : built st -> built (removeTabData id st)
| built_updateTabSummary id s now st :
    built st -> built (updateTabSummary id s now st)
| built_saveSettings p st : built st -> built (saveSettings p st)
| built_addProtectedSite site st : built st -> built (addProtectedSite site st)
| built_removeProtectedSite site st :
    built st -> built (removeProtectedSite site st)
| built_setAIFeaturesEnabled b st : built st -> built (setAIFeaturesEnabled b st)
| built_cleanupOldSummaries now st : built st -> built (cleanupOldSummaries now st)
| built_writeSites sites st : built st -> built (Popup.writeSites sites st)
| built_writeSettings s st : built st -> built (Popup.writeSettings s st).

(** The cut-off of cleanupOldSummaries: now minus the retention period in
    milliseconds. *)
Definition cutoff (now : Z) (st : ChromeStorage) : Z :=
  now - summaryRetentionDays (getSettings st) * 24 * 60 * 60 * 1000.

(** The loop of cleanupOldSummaries over the records to clean. *)
Definition removeAll (l : list TabData) (st : ChromeStorage) : ChromeStorage :=
  fold_left (fun s tab => removeTabData (tabId tab) s) l st.

Definition exampleTab (id : Z) (updated : Z) (unsaved : bool) : TabData :=
  mkTabData id "https://example.com/form" "Example" unsaved None updated ProtNone.

(** Three stored tabs: an old one, an old one with unsaved changes and a
    recent one. *)
Definition threeTabs : ChromeStorage :=
  saveTabData (exampleTab 3 500000000 false)
    (saveTabData (exampleTab 2 1000 true)
       (saveTabData (exampleTab 1 1000 false) emptyStorage)).

Definition exampleSummary : Summarizer.TabSummary :=
  Summarizer.mkTabSummary 7 "https://example.com/form" "Example" "A form."
                          Summarizer.KeyPoints Summarizer.Short 5000.

End StorageSpec.

(* ===================================================================== *)
(** ** The service worker: hosts and worlds to run it in *)
(* ===================================================================== *)

Module BackgroundSpec.
Import Eff Runtime.

(** A browser without the Summarizer API. *)
Definition noApi : Summarizer.Api :=
  Summarizer.mkApi false (Throw "Summarizer is not defined")
                   (fun _ => Throw "Summarizer is not defined").

(** A summarizer that is ready and answers with the first words it is
    given, and one that is ready but fails every request. *)
Definition echoHandle : Summarizer.Handle :=
  Summarizer.mkHandle (Ok tt) (fun text _ => Ok (substring 0 12 text)).

Definition failingHandle : Summarizer.Handle :=
  Summarizer.mkHandle (Ok tt) (fun _ _ => Throw "QuotaExceededError").

Definition workingApi : Summarizer.Api :=
  Summarizer.mkApi true (Ok "available") (fun _ => Ok echoHandle).

Definition failingApi : Summarizer.Api :=
  Summarizer.mkApi true (Ok "available") (fun _ => Ok failingHandle).

(** Hostnames of two URLs; every other string is not a URL. *)
Definition twoSites (u : string) : option string :=
  if String.eqb u "https://blog.example.com/post/1" then Some "blog.example.com"
  else if String.eqb u "https://bank.example.com/transfer" then Some "bank.example.com"
  else None.

Definition hostWith (a : Summarizer.Api) : Host :=
  mkHost a twoSites 5000
         {[ 7 := mkTabInfo (Some "https://bank.example.com/transfer") (Some "Transfer") ]}
         (fun _ => Ok "Transfer money to another account").

(** A world whose storage holds the given [protectedSites] key. *)
Definition worldWithSites (sites : option (list string)) : World :=
  mkWorld (StorageService.mkStorage ∅ None sites) Summarizer.newService [] ∅ ∅ ∅.


(** The tab is being summarized right now. *)
Definition busy (w : World) (tabId : Z) : bool :=
  match summarizationStatus w !! tabId with
  | Some s => isProcessing s
  | None => false
  end.

(** The lower-cased URL names a blog, an article, news or docs. *)
Definition readingUrl (url : string) : bool :=
  let urlLower := JS.toLowerCase url in
  JS.str_includes urlLower "blog" || JS.str_includes urlLower "article"
  || JS.str_includes urlLower "news" || JS.str_includes urlLower "docs".

End BackgroundSpec.

(* ===================================================================== *)
(** ** popup.ts: the list the popup keeps and writes *)
(* ===================================================================== *)

Module PopupSpec.
Import Popup.

(** The [protectedSites] key as the popup last wrote it. *)
Definition storedSites (s : State) : option (list string) :=
  StorageService.syncProtectedSites (storage s).

(** No listener is waiting for a write, the list in memory has no
    duplicates, and a 'Protect Site' button is on display only while the
    current hostname is not in the list. *)
Definition settled (s : State) : Prop :=
  pending s = []
  /\ NoDup (protectedSites (popup s))
  /\ (existsb (RecAction_eqb ProtectSite) (recommendations (popup s)) = true ->
      currentHostname (popup s) ∉ protectedSites (popup s)).

(** Clicks that each find the previous listener finished. *)
Fixpoint runUndisturbed (es : list Event) (s : State) : option State :=
  match es with
  | [] => Some s
  | e :: es' =>
      match undisturbed e s with
      | Some s' => runUndisturbed es' s'
      | None => None
      end
  end.

End PopupSpec.

(* ===================================================================== *)
(** ** services/storage.ts: statistics *)
(* ===================================================================== *)

Module StorageStats.

Record Stats := mkStats {
  totalTabs : nat;
  tabsWithSummaries : nat;
  tabsWithUnsavedChanges : nat;
  protectedSites : nat;
  storageUsed : nat
}.

Section Stats.
(** [JSON.stringify(allTabData).length] *)
Variable stringifiedLength : list StorageService.TabData -> nat.

Definition getStorageStats (st : StorageService.ChromeStorage) : Stats :=
  let allTabData := StorageService.getAllTabData st in
  let settings := StorageService.getSettings st in
  mkStats (length allTabData)
          (length (List.filter
                     (fun tab => Content.truthy (StorageService.summary tab))
                     allTabData))
          (length (List.filter StorageService.hasUnsavedChanges allTabData))
          (length (StorageService.protectedSites settings))
          (stringifiedLength allTabData).

End Stats.

End StorageStats.

(* ===================================================================== *)
(** ** background.ts: the tab and lifecycle listeners *)
(* ===================================================================== *)

Module BackgroundEvents.
Import Eff Runtime.

(** A call of generateTabSummary that [setTimeout] has scheduled. *)
Record Scheduled := mkScheduled {
  forTab : Z;
  forUrl : string;
  forTitle : string;
  forContent : string
}.

Section Listeners.
Variable host : Host.
(** [new URL(u).protocol]; [None] when the constructor throws. *)
Variable protocolOf : string -> option string.

(** chrome.tabs.onRemoved *)
Definition onRemoved (tabId : Z) : JSM unit :=
  modify (setTabState (delete tabId)) ;;;
  modify (setStatus (delete tabId)) ;;;
  modify (setStorage (StorageService.removeTabData tabId)).

(** handleTabUpdate, the chrome.tabs.onUpdated listener.  [status] is
    [changeInfo.status]; the result is the summary it has scheduled for
    two seconds later, if any. *)
Definition handleTabUpdate (tabId : Z) (status : option string) (tab : TabInfo)
    : JSM (option Scheduled) :=
  match tabUrl tab, tabTitle tab, status with
  | Some (String c u), Some (String d t), Some status' =>
      let url := String c u in
      let title := String d t in
      if negb (String.eqb status' "complete") then ret None else
      match protocolOf url with
      | None => throw "Invalid URL"
      | Some protocol =>
          if String.eqb protocol "chrome:" || String.eqb protocol "chrome-extension:"
          then ret None else
          content <- Background.extractTabContent host tabId ;;
          match content with
          | EmptyString => ret None
          | _ =>
              should <- Background.shouldSummarizeTab host tabId url content ;;
              w <- get ;;
              let tabData :=
                StorageService.mkTabData tabId url title
                  (default false (tabState w !! tabId)) None (now host)
                  StorageService.ProtNone in
              modify (setStorage (StorageService.saveTabData tabData)) ;;;
              ret (if should
                   then Some (mkScheduled tabId url title content)
                   else None)
          end
      end
  | _, _, _ => ret None
  end.

(** The scheduled call, when its timer fires. *)
Definition timerFires (s : Scheduled) : JSM unit :=
  Background.generateTabSummary host (forTab s) (forUrl s) (forTitle s)
                                (forContent s).


(** chrome.runtime.onInstalled; [reason] is [details.reason]. *)
Definition onInstalled (reason : string) : JSM unit :=
  if String.eqb reason "install" then
    let defaultSettings :=
      StorageService.mkPartial
        (Some [])
        (Some true)
        (Some true)
        (Some (StorageService.mkSummaryTypes
                 Summarizer.KeyPoints Summarizer.Teaser
                 Summarizer.Tldr Summarizer.KeyPoints))
        (Some 5)
        (Some 7) in
    modify (setStorage (StorageService.saveSettings defaultSettings)) ;;;
    consoleLog "Smart TabGuard installed with default settings"
  else ret tt.

End Listeners.

End BackgroundEvents.

(* ===================================================================== *)
(** ** content.ts: the listeners at work on a page *)
(* ===================================================================== *)

Module ContentEvents.
Import Content.

(** The script's variables together with the [formData] objects that
    setupEnhancedFormDetection made for the forms after the first (the
    first form's object is [currentFormData]).  The page keeps the forms
    it was loaded with: a form added later makes the MutationObserver run
    setupEnhancedFormDetection again, which is not followed here. *)
Record Page := mkPage {
  vars : PageState;
  laterForms : list FormDataInfo
}.

(** The target of an [input] event: the tracked field it is, if any (form
    index, field index), its [tagName], the number of elements with
    [contenteditable="true"] the event passes through (the target and the
    elements that contain it: each has a listener of its own, and the
    event bubbles), and the value the target holds. *)
Record InputTarget := mkInputTarget {
  tracked : option (nat * nat);
  targetTag : string;
  editables : nat;
  targetValue : string
}.

Inductive PageEvent :=
| InputEvent (t : InputTarget)                   (* 'input' *)
| ChangeEvent (form field : nat) (v : string)    (* 'change' on a tracked field *)
| SubmitEvent (form : nat)                       (* 'submit' on a tracked form *)
| FeedbackClosed.                                (* click on .feedback-close *)

Definition getForm (p : Page) (k : nat) : option FormDataInfo :=
  match k with
  | O => currentFormData (vars p)
  | S k' => laterForms p !! k'
  end.

Definition setForm (p : Page) (k : nat) (f : FormDataInfo) : Page :=
  match k with
  | O => mkPage (mkPageState (pageUnsaved (vars p)) (isSiteProtected (vars p))
                             (Some f) (contentAnalysis (vars p))
                             (warningShown (vars p)))
                (laterForms p)
  | S k' => mkPage (vars p) (<[k' := f]> (laterForms p))
  end.

(** [hasUnsavedChanges = true] *)
Definition markUnsaved (p : Page) : Page :=
  mkPage (mkPageState true (isSiteProtected (vars p)) (currentFormData (vars p))
                      (contentAnalysis (vars p)) (warningShown (vars p)))
         (laterForms p).

(** The field's own listener, registered by setupEnhancedFormDetection. *)
Definition fieldListener (now : Z) (k i : nat) (v : string) (p : Page)
    : Page * list Effect :=
  match getForm p k with
  | Some formData =>
      let '(formData', effects) :=
        handleFieldChange (warningShown (vars p)) now formData i v in
      (setForm p k formData', effects)
  | None => (p, [])
  end.

(** The listeners of setupSmartChangeTracking: the one on
    [contenteditable="true"] elements, then the one on the document. *)
Definition trackingListeners (t : InputTarget) (p : Page) : Page * list Effect :=
  let '(p1, e1) :=
    match editables t with
    | O => (p, [])
    | S _ => (markUnsaved p,
              repeat (SendMessage UNSAVED_CHANGES_DETECTED) (editables t))
    end in
  let '(p2, e2) :=
    if String.eqb (targetTag t) "INPUT" || String.eqb (targetTag t) "TEXTAREA"
    then (markUnsaved p1, [SendMessage UNSAVED_CHANGES_DETECTED])
    else (p1, []) in
  (p2, e1 ++ e2).

Definition pageStep (now : Z) (e : PageEvent) (p : Page) : Page * list Effect :=
  match e with
  | InputEvent t =>
      let '(p1, e1) :=
        match tracked t with
        | Some (k, i) => fieldListener now k i (targetValue t) p
        | None => (p, [])
        end in
      let '(p2, e2) := trackingListeners t p1 in
      (p2, e1 ++ e2)
  | ChangeEvent k i v => fieldListener now k i v p
  | SubmitEvent k =>
      match getForm p k with
      | Some formData =>
          let '(formData', effects) := handleFormSubmit formData in
          (setForm p k formData', effects)
      | None => (p, [])
      end
  | FeedbackClosed =>
      (mkPage (mkPageState (pageUnsaved (vars p)) (isSiteProtected (vars p))
                           (currentFormData (vars p)) (contentAnalysis (vars p))
                           true)
              (laterForms p), [])
  end.

(** A sequence of events, each with the time it happens at. *)
Fixpoint pageRun (es : list (Z * PageEvent)) (p : Page) : Page * list Effect :=
  match es with
  | [] => (p, [])
  | (now, e) :: es' =>
      let '(p1, e1) := pageStep now e p in
      let '(p2, e2) := pageRun es' p1 in
      (p2, e1 ++ e2)
  end.

(** The input event types a character into an input, a textarea or an
    editable element. *)
Definition typesText (t : InputTarget) : bool :=
  (0 <? editables t)%nat
  || String.eqb (targetTag t) "INPUT" || String.eqb (targetTag t) "TEXTAREA".

(** showAutoSaveSuggestion: whether the suggestion is put on display. *)
Definition showAutoSaveSuggestion (st : PageState) : bool :=
  if warningShown st || negb (formUnsaved st) then false else true.

(** setupAutoSaveSuggestions: whether the 30 second timer is started. *)
Definition setupAutoSaveSuggestions (d : Document) (st : PageState) : bool :=
  let hasAutoSave :=
    querySelector d [HasAttr "data-autosave"; Class "autosave";
                     HasAttr "data-save-interval"] in
  negb (truthy hasAutoSave) && truthy (currentFormData st)
  && match contentAnalysis st with
     | Some a => match contentType a with CTForm => true | _ => false end
     | None => false
     end.

(** A protected page with a two-field form, nothing typed yet. *)
Definition contactPage : Page :=
  mkPage
    (mkPageState false true
       (Some (mkFormDataInfo "contact"
                [mkFormField "email" "email" "" true false;
                 mkFormField "topic" "select" "general" false false]
                (JS.of_nat 0) 0 false))
       None false)
    [].

Definition typeEmail : InputTarget :=
  mkInputTarget (Some (0%nat, 0%nat)) "INPUT" 0%nat "a@b.c".

Definition pickTopic : InputTarget :=
  mkInputTarget (Some (0%nat, 1%nat)) "SELECT" 0%nat "billing".

End ContentEvents.

(* ===================================================================== *)
(** ** options.ts: the options page *)
(* ===================================================================== *)

Module Options.

(** A list item: the link's text and address and the [data-site] of its
    remove button. *)
Record Item := mkItem {
  linkText : string;
  href : string;
  dataSite : string
}.

Record OptionsPage := mkOptionsPage {
  protectedSites : list string;
  items : list Item;            (* the children of #protectedSitesList *)
  emptyMessageShown : bool
}.

Definition siteItem (site : string) : Item :=
  mkItem site
         (if JS.startsWith site "http" then site else "https://" +:+ site)
         site.

Definition renderSitesList (sites : list string) : OptionsPage :=
  match sites with
  | [] => mkOptionsPage sites [] true
  | _ => mkOptionsPage sites (List.map siteItem sites) false
  end.

(** The page once [chrome.storage.sync.get] has answered. *)
Definition load (st : StorageService.ChromeStorage) : OptionsPage :=
  renderSitesList (default [] (StorageService.syncProtectedSites st)).

(** The click listener on a remove button whose [data-site] is
    [siteToRemove], followed to the end of the callback of
    [chrome.storage.sync.set], which renders the list again. *)
Definition removeClick (siteToRemove : string)
    (s : OptionsPage * StorageService.ChromeStorage)
    : OptionsPage * StorageService.ChromeStorage :=
  match siteToRemove with
  | EmptyString => s
  | _ =>
      let sites :=
        List.filter (fun site => negb (String.eqb site siteToRemove))
                    (protectedSites (fst s)) in
      (renderSitesList sites, Popup.writeSites sites (snd s))
  end.

End Options.

(* ===================================================================== *)
(** ** services/summarizer.ts: what initialization asks of the host *)
(* ===================================================================== *)

Module SummarizerSpec.
Import Eff Runtime.

(** The options performInitialization passes to [Summarizer.create]. *)
Definition optionsOf (config : Summarizer.SummarizerConfig) : Summarizer.CreateOptions :=
  Summarizer.mkCreateOptions
    (default Summarizer.KeyPoints (Summarizer.cfgType config))
    (default Summarizer.Markdown (Summarizer.cfgFormat config))
    (default Summarizer.MediumLength (Summarizer.cfgLength config))
    (Summarizer.sharedContext config).

(** The host lets a summarizer be created and made ready: the API is
    there, it does not report 'unavailable', and [create] and the
    summarizer's [ready] both fulfil. *)
Definition hostProvides (host : Host) (config : Summarizer.SummarizerConfig)
    (h : Summarizer.Handle) : Prop :=
  Summarizer.present (api host) = true
  /\ (exists a, Summarizer.availability (api host) = Ok a /\ a <> "unavailable")
  /\ Summarizer.create (api host) (optionsOf config) = Ok h
  /\ Summarizer.ready h = Ok tt.

(** Two worlds that differ at most in the service and the console. *)
Definition sameBesidesService (w w' : World) : Prop :=
  storage w' = storage w /\ tabState w' = tabState w
  /\ summarizationStatus w' = summarizationStatus w /\ icons w' = icons w.

(** The steps of performInitialization on the worker's state: the
    summarizer is kept, the service is marked initialized, a failure is
    logged and thrown again. *)
Definition withSummarizer (h : Summarizer.Handle) (w : World) : World :=
  setService (fun s => Summarizer.mkService (Some h) (Summarizer.isInitialized s)
                                            (Summarizer.initializationPromise s)) w.

Definition markInitialized (w : World) : World :=
  setService (fun s => Summarizer.mkService (Summarizer.summarizer s) true
                                            (Summarizer.initializationPromise s)) w.

Definition failedInit (e : string) (w : World) : Eff.result unit * World :=
  (Throw e, addLog (LogError "Failed to initialize summarizer:" e) w).

(** A summarizer that is created but never becomes ready. *)
Definition stuckHandle : Summarizer.Handle :=
  Summarizer.mkHandle (Throw "model download failed") (fun _ _ => Ok "unused").

Definition stuckApi : Summarizer.Api :=
  Summarizer.mkApi true (Ok "downloadable") (fun _ => Ok stuckHandle).

End SummarizerSpec.

(* ===================================================================== *)
(** ** background.ts: the two ways generateTabSummary ends *)
(* ===================================================================== *)

Module WorkerSpec.
Import Eff Runtime.




(** A worker that has stored the record of tab 7 and nothing else. *)
Definition worldWithTab : World :=
  mkWorld (StorageService.saveTabData
             (StorageService.mkTabData 7 "https://bank.example.com/transfer"
                "Transfer" false None 1000 StorageService.ProtNone)
             StorageService.emptyStorage)
          Summarizer.newService [] ∅ ∅ ∅.

(** Every URL is an https URL. *)
Definition httpsOnly (u : string) : option string := Some "https:".

End WorkerSpec.

(* ===================================================================== *)
(** ** popup.ts: what the popup shows *)
(* ===================================================================== *)

Module PopupDisplay.
Import Popup.


(** A storage in which AI features have been switched off. *)
Definition aiOffStorage : StorageService.ChromeStorage :=
  StorageService.setAIFeaturesEnabled false StorageService.emptyStorage.



End PopupDisplay.

(* ===================================================================== *)
(** ** content.ts: reading a run of events *)
(* ===================================================================== *)

Module ContentEventsSpec.
Import Content ContentEvents.

(** The effect puts the completion feedback on display. *)
Definition isFeedback (e : Effect) : bool :=
  match e with
  | ShowCompletionFeedback _ => true
  | SendMessage _ => false
  end.

(** The event is an [input] event that types text. *)
Definition typing (e : PageEvent) : bool :=
  match e with
  | InputEvent t => typesText t
  | _ => false
  end.

Definition closesFeedback (e : PageEvent) : bool :=
  match e with
  | FeedbackClosed => true
  | _ => false
  end.

End ContentEventsSpec.

(* ===================================================================== *)
(** * Properties *)
(* ===================================================================== *)

(** ** Lists and strings *)

Section ListFacts.
Context {A : Type}.

Lemma filter_nonempty_existsb (f : A -> bool) (l : list A) :
  (0 <? length (List.filter f l))%nat = existsb f l.
Proof.
  induction l as [|x l IH]; simpl; [reflexivity|].
  destruct (f x); simpl; [reflexivity | exact IH].
Qed.

Lemma head_filter_existsb (f : A -> bool) (l : list A) :
  Content.truthy (head (List.filter f l)) = existsb f l.
Proof.
  induction l as [|x l IH]; simpl; [reflexivity|].
  destruct (f x); simpl; [reflexivity | exact IH].
Qed.

Lemma existsb_orb (f g : A -> bool) (l : list A) :
  existsb (fun x => f x || g x) l = existsb f l || existsb g l.
Proof.
  induction l as [|x l IH]; simpl; [reflexivity|].
  rewrite IH. destruct (f x), (g x), (existsb f l); reflexivity.
Qed.

Lemma filter_all_false (f : A -> bool) (l : list A) :
  (forall x, In x l -> f x = false) -> List.filter f l = [].
Proof.
  induction l as [|x l IH]; intros H; simpl; [reflexivity|].
  rewrite (H x (or_introl eq_refl)). apply IH.
  intros y Hy. apply H. right. exact Hy.
Qed.
End ListFacts.

Lemma includes_In (l : list string) (x : string) :
  JS.includes l x = true <-> In x l.
Proof.
  unfold JS.includes. rewrite existsb_exists. split.
  - intros (y & Hy & E). apply String.eqb_eq in E. subst. exact Hy.
  - intros H. exists x. split; [exact H | apply String.eqb_refl].
Qed.

Lemma includes_false_not_In (l : list string) (x : string) :
  JS.includes l x = false <-> ~ In x l.
Proof.
  rewrite <- includes_In. destruct (JS.includes l x); split; intros H;
    try reflexivity; try discriminate; try (intros E; discriminate).
  exfalso. apply H. reflexivity.
Qed.

(* ===================================================================== *)
(** ** content.ts *)
(* ===================================================================== *)

Module ContentProofs.
Import Content ContentSpec.

(** *** The beforeunload warning *)

Lemma formUnsaved_true (st : PageState) :
  formUnsaved st = true <->
  exists f, currentFormData st = Some f /\ hasUnsavedChanges f = true.
Proof.
  unfold formUnsaved. destruct (currentFormData st) as [f|]; split.
  - intros H. exists f. split; [reflexivity | exact H].
  - intros (g & E & H). injection E as ->. exact H.
  - discriminate.
  - intros (g & E & _). discriminate.
Qed.

Lemma beforeunload_guard (st : PageState) :
  warns (beforeunload st)
  = isSiteProtected st && (pageUnsaved st || formUnsaved st).
Proof.
  unfold beforeunload.
  destruct (isSiteProtected st && (pageUnsaved st || formUnsaved st));
    reflexivity.
Qed.

Lemma beforeunload_silent (st : PageState) :
  warns (beforeunload st) = false ->
  beforeunload st = mkBeforeUnload false None None.
Proof.
  rewrite beforeunload_guard. unfold beforeunload. intros ->. reflexivity.
Qed.

(** C1. The beforeunload listener warns (prevents the default and returns
    a message, which is also the event's returnValue) exactly when the
    site is protected and the page-level flag or the tracked form's flag
    says there are unsaved changes; otherwise it does nothing, and in
    particular it does nothing on an unprotected site whatever was
    typed. *)
Theorem beforeunload_warns_iff (st : PageState) :
  (warns (beforeunload st) = true <->
     isSiteProtected st = true /\
     (pageUnsaved st = true \/
      exists f, currentFormData st = Some f /\ hasUnsavedChanges f = true))
  /\ (warns (beforeunload st) = true ->
        defaultPrevented (beforeunload st) = true /\
        exists m, returned (beforeunload st) = Some m /\
                  returnValue (beforeunload st) = Some m)
  /\ (warns (beforeunload st) = false ->
        beforeunload st = mkBeforeUnload false None None)
  /\ (isSiteProtected st = false ->
        beforeunload st = mkBeforeUnload false None None).
Proof.
  split; [|split; [|split]].
  - rewrite beforeunload_guard, andb_true_iff, orb_true_iff, formUnsaved_true.
    reflexivity.
  - rewrite beforeunload_guard. unfold beforeunload. intros ->.
    split; [reflexivity|]. eexists. split; reflexivity.
  - apply beforeunload_silent.
  - intros H. apply beforeunload_silent.
    rewrite beforeunload_guard, H. reflexivity.
Qed.

(** The flag the listener tests is set by checkProtectionStatus, and
    only by a response that says the site is protected. *)
Lemma checkProtectionStatus_flag (response : option bool + string) :
  isSiteProtected (checkProtectionStatus response initialPage) = true <->
  response = inl (Some true).
Proof.
  destruct response as [[[|]|]|e]; simpl; split; intros H;
    try reflexivity; try discriminate.
Qed.

Example beforeunload_unprotected_form :
  beforeunload
    (mkPageState true false
       (Some (mkFormDataInfo "form_0" [] (JS.of_nat 50) 0 true)) None false)
  = mkBeforeUnload false None None.
Proof. reflexivity. Qed.

Example beforeunload_protected_form :
  beforeunload
    (mkPageState false true
       (Some (mkFormDataInfo "form_0" [] (JS.of_nat 50) 0 true)) None false)
  = mkBeforeUnload true (Some (FormProgressWarning (JS.of_nat 50)))
                   (Some (FormProgressWarning (JS.of_nat 50))).
Proof. reflexivity. Qed.


(** *** Form completion *)

Lemma completion_no_required (fs : list FormField) :
  (forall f, In f fs -> required f = false) ->
  PrimFloat.is_nan (completion fs) = true.
Proof.
  intros H. unfold completion.
  rewrite (filter_all_false required fs H). reflexivity.
Qed.

Lemma handleFieldChange_changed (shown : bool) (now : Z) (formData : FormDataInfo)
    (i : nat) (fieldData : FormField) (v : string) :
  fields formData !! i = Some fieldData ->
  value fieldData <> v ->
  fst (handleFieldChange shown now formData i v)
  = mkFormDataInfo (formId formData)
      (<[i := setValue fieldData v]> (fields formData))
      (completion (<[i := setValue fieldData v]> (fields formData)))
      now true.
Proof.
  intros Hi Hv. unfold handleFieldChange. rewrite Hi.
  destruct (String.eqb_spec (value fieldData) v) as [E|_]; [contradiction|].
  reflexivity.
Qed.

(** C2. Typing into a form that has no required field makes
    handleFieldChange divide zero by zero: the edit is recorded, and the
    completion percentage it stores is NaN. *)
Theorem completion_without_required_fields_is_NaN :
  let formData := fst (handleFieldChange false 1000 commentForm 0 "hello") in
  fields formData = [mkFormField "comment" "text" "hello" false true]
  /\ hasUnsavedChanges formData = true
  /\ PrimFloat.is_nan (completionPercentage formData) = true
  /\ PrimFloat.eqb (completionPercentage formData) (completionPercentage formData)
     = false.
Proof. repeat split. Qed.

(** The same for every form without required fields. *)
Lemma handleFieldChange_no_required (shown : bool) (now : Z)
    (formData : FormDataInfo) (i : nat) (fieldData : FormField) (v : string) :
  fields formData !! i = Some fieldData ->
  value fieldData <> v ->
  (forall f, In f (fields formData) -> required f = false) ->
  PrimFloat.is_nan
    (completionPercentage (fst (handleFieldChange shown now formData i v))) = true.
Proof.
  intros Hi Hv Hreq. rewrite (handleFieldChange_changed _ _ _ _ _ _ Hi Hv).
  cbn [completionPercentage]. apply completion_no_required.
  intros f Hf. apply list_elem_of_In, list_elem_of_lookup in Hf.
  destruct Hf as [j Hj].
  destruct (decide (i = j)) as [->|Hne].
  - rewrite list_lookup_insert_eq in Hj
      by (apply lookup_lt_is_Some; eexists; exact Hi).
    injection Hj as <-. cbn [setValue required].
    apply Hreq. apply list_elem_of_In, list_elem_of_lookup. eauto.
  - rewrite list_lookup_insert_ne in Hj by exact Hne.
    apply Hreq. apply list_elem_of_In, list_elem_of_lookup. eauto.
Qed.

(** With required fields the percentage is the rounded share of those
    that are filled in; white space does not count as filled in. *)
Example completion_two_of_three :
  completion [mkFormField "a" "text" "x" true true;
              mkFormField "b" "text" "  " true true;
              mkFormField "c" "email" "y@z" true true;
              mkFormField "d" "text" "" false false]
  = JS.of_nat 67.
Proof. reflexivity. Qed.

(** The quotient is rounded to a double before it is scaled: 23 of 40
    required fields give 57, although 100 * 23 / 40 is 57.5. *)
Example completion_23_of_40 :
  completion (repeat (mkFormField "a" "text" "x" true true) 23
              ++ repeat (mkFormField "b" "text" "" true false) 17)
  = JS.of_nat 57.
Proof. vm_compute. reflexivity. Qed.


(** *** Content analysis *)

(** The two article tests of the source, taken together, are the test for
    an article-like element. *)
Lemma articleLike_split (e : Element) :
  matches articleLike e
  = matches [Tag "article"; AttrEq "role" "main"; Tag "main"] e
    || matches [Tag "article"; Class "post"; Class "entry"] e.
Proof.
  unfold matches, articleLike. cbn [existsb].
  destruct (matches1 e (Tag "article")), (matches1 e (AttrEq "role" "main")),
    (matches1 e (Tag "main")), (matches1 e (Class "post")),
    (matches1 e (Class "entry")); reflexivity.
Qed.

Lemma hasElement_articleLike (d : Document) :
  hasElement d articleLike
  = (0 <? length (querySelectorAll d [Tag "article"; AttrEq "role" "main"; Tag "main"]))%nat
    || truthy (querySelector d [Tag "article"; Class "post"; Class "entry"]).
Proof.
  unfold hasElement, querySelector, querySelectorAll.
  rewrite filter_nonempty_existsb, head_filter_existsb, <- existsb_orb.
  induction (elements d) as [|e l IH]; [reflexivity|].
  cbn [existsb]. rewrite IH, articleLike_split. reflexivity.
Qed.

Lemma filter_filter_andb {A} (f g : A -> bool) (l : list A) :
  List.filter g (List.filter f l) = List.filter (fun x => f x && g x) l.
Proof.
  induction l as [|x l IH]; [reflexivity|]. simpl.
  destruct (f x); simpl; [destruct (g x)|]; rewrite ?IH; reflexivity.
Qed.

(** C3. performContentAnalysis classifies a page as a form when it has a
    form element, else as an article when it has an article-like element,
    else as a document when it has an editor-like element, else as
    general; for a form, complexity is graded on the number of forms
    (above 2, above 1) and the risk level on the number of required
    fields (above 5, above 2). *)
Theorem performContentAnalysis_classification (d : Document) :
  contentType (performContentAnalysis d) = classifySpec d
  /\ (contentType (performContentAnalysis d) = CTForm ->
        complexity (performContentAnalysis d) = graded (formCount d) 2 1
        /\ riskLevel (performContentAnalysis d)
           = graded (requiredFieldCount d) 5 2).
Proof.
  unfold performContentAnalysis, classifySpec.
  rewrite (hasElement_articleLike d).
  unfold hasElement at 1. rewrite <- filter_nonempty_existsb.
  fold (querySelectorAll d formElement). unfold formElement.
  destruct (0 <? length (querySelectorAll d [Tag "form"]))%nat eqn:Hforms.
  - split; [reflexivity|]. intros _. cbn [complexity riskLevel].
    unfold graded, formCount, requiredFieldCount, querySelectorAll, formElement.
    rewrite filter_filter_andb. split; reflexivity.
  - destruct ((0 <? length
                 (querySelectorAll d [Tag "article"; AttrEq "role" "main"; Tag "main"]))%nat
              || truthy (querySelector d [Tag "article"; Class "post"; Class "entry"])).
    + split; [reflexivity | discriminate].
    + unfold hasElement, editorLike, querySelector, querySelectorAll.
      rewrite head_filter_existsb.
      destruct (existsb _ (elements d)); split; try reflexivity; discriminate.
Qed.

Example analysis_signupPage :
  performContentAnalysis signupPage
  = mkContentAnalysis CTForm Low 6 ["email"; "password"; "bio"] Medium.
Proof. reflexivity. Qed.

Example analysis_blogPage :
  performContentAnalysis blogPage = mkContentAnalysis CTArticle Medium 5000 [] Low.
Proof. reflexivity. Qed.

End ContentProofs.

(* ===================================================================== *)
(** ** services/storage.ts *)
(* ===================================================================== *)

Module StorageProofs.
Import StorageService StorageSpec.

(** *** Keys *)

Lemma tabKey_inj (a b : Z) : tabKey a = tabKey b -> a = b.
Proof.
  unfold tabKey. intros H. apply (inj (String.app "tab_")) in H.
  apply (inj pretty) in H. exact H.
Qed.

Lemma tabKey_prefix (a : Z) : JS.startsWith (tabKey a) "tab_" = true.
Proof. unfold tabKey, JS.startsWith. simpl. destruct (pretty a); reflexivity. Qed.

(** *** Settings *)

(** C7. When no settings record has been saved, getSettings returns the
    default record (no protected sites, AI features and auto-summarize on,
    summary types key-points / teaser / tldr / key-points, 5 summaries per
    tab, 7 days of retention), and isAIFeaturesEnabled, getProtectedSites
    and isAutoSummarizeEnabled answer from it. *)
Theorem getSettings_defaults (st : ChromeStorage) :
  syncSettings st = None ->
  getSettings st
  = mkSettings [] true true
      (mkSummaryTypes Summarizer.KeyPoints Summarizer.Teaser
                      Summarizer.Tldr Summarizer.KeyPoints)
      5 7
  /\ isAIFeaturesEnabled st = true
  /\ getProtectedSites st = []
  /\ isAutoSummarizeEnabled st = true.
Proof.
  intros H.
  unfold isAIFeaturesEnabled, getProtectedSites, isAutoSummarizeEnabled, getSettings.
  rewrite H. repeat split.
Qed.

Lemma getSettings_defaults_empty :
  syncSettings emptyStorage = None
  /\ getSettings emptyStorage = getDefaultSettings
  /\ isAIFeaturesEnabled emptyStorage = true
  /\ getProtectedSites emptyStorage = [].
Proof.
  split; [reflexivity|].
  destruct (getSettings_defaults emptyStorage eq_refl) as (H1 & H2 & H3 & _).
  repeat split; assumption.
Defined.

Lemma getSettings_saved (st : ChromeStorage) (s : ExtensionSettings) :
  syncSettings st = Some s -> getSettings st = s.
Proof. unfold getSettings. intros ->. reflexivity. Qed.


(** *** Tab records *)

Lemma keyedByTabId_empty : keyedByTabId emptyStorage.
Proof. intros k t H. cbn in H. rewrite lookup_empty in H. discriminate. Qed.

Lemma keyedByTabId_save (t : TabData) (st : ChromeStorage) :
  keyedByTabId st -> keyedByTabId (saveTabData t st).
Proof.
  intros Hst k u Hk Hp. cbn in Hk.
  destruct (decide (tabKey (tabId t) = k)) as [<-|Hne].
  - rewrite lookup_insert_eq in Hk. injection Hk as <-. reflexivity.
  - rewrite lookup_insert_ne in Hk by exact Hne. exact (Hst k u Hk Hp).
Qed.

Lemma keyedByTabId_remove (id : Z) (st : ChromeStorage) :
  keyedByTabId st -> keyedByTabId (removeTabData id st).
Proof.
  intros Hst k u Hk Hp. cbn in Hk.
  apply lookup_delete_Some in Hk. destruct Hk as [_ Hk]. exact (Hst k u Hk Hp).
Qed.

Lemma keyedByTabId_updateTabSummary (id : Z) (s : Summarizer.TabSummary)
    (now : Z) (st : ChromeStorage) :
  keyedByTabId st -> keyedByTabId (updateTabSummary id s now st).
Proof.
  intros Hst. unfold updateTabSummary.
  destruct (getTabData id st); [apply keyedByTabId_save|]; exact Hst.
Qed.

Lemma keyedByTabId_saveSettings (p : PartialSettings) (st : ChromeStorage) :
  keyedByTabId st -> keyedByTabId (saveSettings p st).
Proof. intros Hst k u Hk Hp. exact (Hst k u Hk Hp). Qed.

Lemma keyedByTabId_removeAll (l : list TabData) (st : ChromeStorage) :
  keyedByTabId st -> keyedByTabId (removeAll l st).
Proof.
  revert st. induction l as [|t l IH]; intros st Hst; [exact Hst|].
  cbn. apply IH, keyedByTabId_remove, Hst.
Qed.

Lemma keyedByTabId_cleanup (now : Z) (st : ChromeStorage) :
  keyedByTabId st -> keyedByTabId (cleanupOldSummaries now st).
Proof. apply keyedByTabId_removeAll. Qed.

(** Every storage the extension can bring about keeps its tab records
    under their own keys. *)
Lemma built_keyedByTabId (st : ChromeStorage) : built st -> keyedByTabId st.
Proof.
  induction 1 as [ | t st _ IH | id st _ IH | id s now st _ IH | p st _ IH
                 | site st _ IH | site st _ IH | b st _ IH | now st _ IH
                 | sites st _ IH | s st _ IH ].
  - apply keyedByTabId_empty.
  - apply keyedByTabId_save, IH.
  - apply keyedByTabId_remove, IH.
  - apply keyedByTabId_updateTabSummary, IH.
  - apply keyedByTabId_saveSettings, IH.
  - unfold addProtectedSite.
    destruct (negb (JS.includes (getProtectedSites st) site));
      [apply keyedByTabId_saveSettings|]; exact IH.
  - apply keyedByTabId_saveSettings, IH.
  - apply keyedByTabId_saveSettings, IH.
  - apply keyedByTabId_cleanup, IH.
  - exact IH.
  - exact IH.
Qed.

(** A stored record is found under its tab's identifier. *)
Lemma getTabData_tabId (id : Z) (t : TabData) (st : ChromeStorage) :
  keyedByTabId st -> getTabData id st = Some t -> tabId t = id.
Proof.
  intros Hst H. unfold getTabData in H.
  symmetry. apply tabKey_inj. exact (Hst _ _ H (tabKey_prefix id)).
Qed.

Lemma getTabData_save_eq (t : TabData) (st : ChromeStorage) :
  getTabData (tabId t) (saveTabData t st) = Some t.
Proof. unfold getTabData, saveTabData. cbn. apply lookup_insert_eq. Qed.

Lemma getTabData_save_ne (t : TabData) (other : Z) (st : ChromeStorage) :
  other <> tabId t ->
  getTabData other (saveTabData t st) = getTabData other st.
Proof.
  intros Hne. unfold getTabData, saveTabData. cbn.
  apply lookup_insert_ne. intros E. apply Hne. symmetry. exact (tabKey_inj _ _ E).
Qed.

Lemma saveTabData_twice (t1 t2 : TabData) (st : ChromeStorage) :
  tabId t2 = tabId t1 ->
  saveTabData t2 (saveTabData t1 st) = saveTabData t2 st.
Proof.
  intros E. unfold saveTabData, setLocal. cbn. rewrite E, insert_insert_eq.
  reflexivity.
Qed.

(** The records getAllTabData lists are the stored ones under [tab_]
    keys. *)
Lemma elem_of_getAllTabData (t : TabData) (st : ChromeStorage) :
  t ∈ getAllTabData st <->
  exists k, local st !! k = Some t /\ JS.startsWith k "tab_" = true.
Proof.
  unfold getAllTabData. rewrite list_elem_of_In, in_map_iff. split.
  - intros ([k u] & E & Hin). cbn in E. subst u.
    apply filter_In in Hin. destruct Hin as [Hin Hp]. cbn in Hp.
    apply list_elem_of_In, elem_of_map_to_list in Hin. eauto.
  - intros (k & Hk & Hp). exists (k, t). split; [reflexivity|].
    apply filter_In. split; [|exact Hp].
    apply list_elem_of_In, elem_of_map_to_list. exact Hk.
Qed.

Lemma NoDup_tabIds_of_entries (l : list (string * TabData)) :
  NoDup (l.*1) ->
  (forall k t, (k, t) ∈ l -> JS.startsWith k "tab_" = true -> k = tabKey (tabId t)) ->
  NoDup (List.map tabId
           (List.map snd (List.filter (fun kv => JS.startsWith (fst kv) "tab_") l))).
Proof.
  induction l as [|[k t] l IH]; intros Hnd Hkey; cbn -[JS.startsWith];
    [constructor|].
  cbn in Hnd. apply NoDup_cons in Hnd. destruct Hnd as [Hk Hnd].
  assert (IH' := IH Hnd (fun k' t' H => Hkey k' t' (list_elem_of_further _ _ _ H))).
  destruct (JS.startsWith k "tab_") eqn:Hp; [|exact IH'].
  cbn. apply NoDup_cons. split; [|exact IH'].
  intros Hin. apply Hk.
  apply list_elem_of_In, in_map_iff in Hin. destruct Hin as (u & Eu & Hin).
  apply in_map_iff in Hin. destruct Hin as ([k' u'] & E & Hin). cbn in E. subst u'.
  apply filter_In in Hin. destruct Hin as [Hin Hp']. cbn in Hp'.
  apply list_elem_of_In in Hin.
  assert (k' = k) as ->.
  { rewrite (Hkey k' u (list_elem_of_further _ _ _ Hin) Hp').
    rewrite (Hkey k t (list_elem_of_here _ _) Hp). rewrite Eu. reflexivity. }
  apply list_elem_of_fmap. exists (k, u). split; [reflexivity | exact Hin].
Qed.

Lemma getAllTabData_unique (st : ChromeStorage) :
  keyedByTabId st -> NoDup (List.map tabId (getAllTabData st)).
Proof.
  intros Hst. unfold getAllTabData. apply NoDup_tabIds_of_entries.
  - apply NoDup_fst_map_to_list.
  - intros k t Hin Hp. apply elem_of_map_to_list in Hin. exact (Hst k t Hin Hp).
Qed.

(** C9. Tab records are keyed by tab identifier: after saveTabData t the
    record read back for t's tab is t, the record of every other tab is
    what it was, saving again for the same tab replaces the record (the
    storage is the one a single save would give), and getAllTabData lists
    no two records of one tab. *)
Theorem saveTabData_keyed (t : TabData) (st : ChromeStorage) :
  keyedByTabId st ->
  getTabData (tabId t) (saveTabData t st) = Some t
  /\ (forall other, other <> tabId t ->
        getTabData other (saveTabData t st) = getTabData other st)
  /\ (forall t2, tabId t2 = tabId t ->
        saveTabData t2 (saveTabData t st) = saveTabData t2 st
        /\ getTabData (tabId t) (saveTabData t2 (saveTabData t st)) = Some t2
        /\ forall u, u ∈ getAllTabData (saveTabData t2 (saveTabData t st)) ->
                     tabId u = tabId t -> u = t2)
  /\ t ∈ getAllTabData (saveTabData t st)
  /\ NoDup (List.map tabId (getAllTabData (saveTabData t st)))
  /\ keyedByTabId (saveTabData t st).
Proof.
  intros Hst. split; [apply getTabData_save_eq|].
  split; [intros other Hne; apply getTabData_save_ne; exact Hne|].
  split.
  { intros t2 E. split; [apply saveTabData_twice; exact E|].
    rewrite (saveTabData_twice _ _ _ E), <- E.
    split; [apply getTabData_save_eq|].
    intros u Hu Eu. apply elem_of_getAllTabData in Hu.
    destruct Hu as (k & Hk & Hp).
    pose proof (keyedByTabId_save t2 st Hst k u Hk Hp) as Ek.
    rewrite Eu in Ek. subst k.
    pose proof (getTabData_save_eq t2 st) as H2. unfold getTabData in H2.
    rewrite H2 in Hk. injection Hk as ->. reflexivity. }
  split.
  { apply elem_of_getAllTabData. exists (tabKey (tabId t)).
    split; [apply getTabData_save_eq | apply tabKey_prefix]. }
  split; [apply getAllTabData_unique, keyedByTabId_save; exact Hst|].
  apply keyedByTabId_save. exact Hst.
Qed.


Lemma saveTabData_keyed_example :
  keyedByTabId (saveTabData (exampleTab 3 1000 true) emptyStorage)
  /\ getTabData 7 (saveTabData (exampleTab 7 2000 false)
                     (saveTabData (exampleTab 3 1000 true) emptyStorage))
     = Some (exampleTab 7 2000 false).
Proof.
  split.
  - apply keyedByTabId_save, keyedByTabId_empty.
  - exact (proj1 (saveTabData_keyed (exampleTab 7 2000 false)
                    (saveTabData (exampleTab 3 1000 true) emptyStorage)
                    (keyedByTabId_save _ _ keyedByTabId_empty))).
Defined.

(** *** Cleanup *)

Lemma removeAll_sync (l : list TabData) (st : ChromeStorage) :
  syncSettings (removeAll l st) = syncSettings st
  /\ syncProtectedSites (removeAll l st) = syncProtectedSites st.
Proof.
  revert st. induction l as [|t l IH]; intros st; [split; reflexivity|].
  cbn. destruct (IH (removeTabData (tabId t) st)) as [H1 H2].
  split; [exact H1 | exact H2].
Qed.

Lemma removeAll_lookup_None (l : list TabData) (st : ChromeStorage) (k : string) :
  local st !! k = None -> local (removeAll l st) !! k = None.
Proof.
  revert st. induction l as [|u l IH]; intros st Hk; [exact Hk|].
  cbn. apply IH. cbn. apply lookup_delete_None. right. exact Hk.
Qed.

Lemma removeAll_lookup_removed (l : list TabData) (st : ChromeStorage) (t : TabData) :
  t ∈ l -> local (removeAll l st) !! tabKey (tabId t) = None.
Proof.
  revert st. induction l as [|u l IH]; intros st Hin.
  - apply elem_of_nil in Hin. contradiction.
  - cbn. apply elem_of_cons in Hin. destruct Hin as [->|Hin].
    + apply removeAll_lookup_None. cbn. apply lookup_delete_eq.
    + apply IH. exact Hin.
Qed.

Lemma removeAll_lookup_kept (l : list TabData) (st : ChromeStorage) (k : string) :
  (forall t, t ∈ l -> k <> tabKey (tabId t)) ->
  local (removeAll l st) !! k = local st !! k.
Proof.
  revert st. induction l as [|u l IH]; intros st Hk; [reflexivity|].
  cbn. rewrite IH by (intros t Ht; apply Hk; right; exact Ht).
  cbn. apply lookup_delete_ne. intros E. symmetry in E.
  exact (Hk u (list_elem_of_here _ _) E).
Qed.

Lemma elem_of_stale (c : Z) (t : TabData) (st : ChromeStorage) :
  t ∈ List.filter (isStale c) (getAllTabData st) <->
  t ∈ getAllTabData st /\ isStale c t = true.
Proof. rewrite !list_elem_of_In. apply filter_In. Qed.

Lemma cleanup_lookup (now : Z) (st : ChromeStorage) (k : string) :
  keyedByTabId st ->
  local (cleanupOldSummaries now st) !! k
  = match local st !! k with
    | Some t =>
        if JS.startsWith k "tab_" && isStale (cutoff now st) t then None else Some t
    | None => None
    end.
Proof.
  intros Hst. unfold cleanupOldSummaries. fold (cutoff now st).
  fold (removeAll (List.filter (isStale (cutoff now st)) (getAllTabData st)) st).
  set (c := cutoff now st).
  assert (Hother : forall t,
             local st !! k = Some t ->
             JS.startsWith k "tab_" && isStale c t = false ->
             forall u, u ∈ List.filter (isStale c) (getAllTabData st) ->
                       k <> tabKey (tabId u)).
  { intros t Hk Hno u Hu E. apply elem_of_stale in Hu. destruct Hu as [Hu Hs].
    apply elem_of_getAllTabData in Hu. destruct Hu as (k' & Hk' & Hp').
    pose proof (Hst k' u Hk' Hp') as Ek'. rewrite <- E in Ek'. subst k'.
    rewrite Hk in Hk'. injection Hk' as ->.
    rewrite Hp', Hs in Hno. discriminate. }
  destruct (local st !! k) as [t|] eqn:Hk.
  - destruct (JS.startsWith k "tab_" && isStale c t) eqn:Hc.
    + apply andb_true_iff in Hc. destruct Hc as [Hp Hs].
      rewrite (Hst k t Hk Hp). apply removeAll_lookup_removed.
      apply elem_of_stale. split; [|exact Hs].
      apply elem_of_getAllTabData. eauto.
    + rewrite removeAll_lookup_kept; [exact Hk|]. exact (Hother t eq_refl Hc).
  - apply removeAll_lookup_None. exact Hk.
Qed.

Lemma updateTabSummary_absent (id : Z) (s : Summarizer.TabSummary) (now : Z)
    (st : ChromeStorage) :
  getTabData id st = None -> updateTabSummary id s now st = st.
Proof. unfold updateTabSummary. intros ->. reflexivity. Qed.

(** C10. cleanupOldSummaries removes exactly the tab records that were
    last updated before now minus the retention period and have no
    unsaved changes: every other key of the store, the settings and the
    protected sites keep their values, so a record with unsaved changes
    survives at any age.  updateTabSummary for a tab without a stored
    record leaves the storage as it is. *)
Theorem cleanupOldSummaries_exact (now : Z) (st : ChromeStorage) :
  keyedByTabId st ->
  (forall k,
     local (cleanupOldSummaries now st) !! k
     = match local st !! k with
       | Some t =>
           if JS.startsWith k "tab_"
              && ((lastUpdated t <? cutoff now st)%Z && negb (hasUnsavedChanges t))
           then None else Some t
       | None => None
       end)
  /\ (forall id t,
        getTabData id st = Some t ->
        getTabData id (cleanupOldSummaries now st)
        = if (lastUpdated t <? cutoff now st)%Z && negb (hasUnsavedChanges t)
          then None else Some t)
  /\ (forall id t,
        getTabData id st = Some t -> hasUnsavedChanges t = true ->
        getTabData id (cleanupOldSummaries now st) = Some t)
  /\ syncSettings (cleanupOldSummaries now st) = syncSettings st
  /\ syncProtectedSites (cleanupOldSummaries now st) = syncProtectedSites st
  /\ (forall id summary now',
        getTabData id st = None -> updateTabSummary id summary now' st = st).
Proof.
  intros Hst.
  assert (Hget : forall id t,
             getTabData id st = Some t ->
             getTabData id (cleanupOldSummaries now st)
             = if (lastUpdated t <? cutoff now st)%Z && negb (hasUnsavedChanges t)
               then None else Some t).
  { intros id t H. unfold getTabData in *.
    rewrite (cleanup_lookup now st _ Hst), H, tabKey_prefix. reflexivity. }
  split; [intros k; apply cleanup_lookup; exact Hst|].
  split; [exact Hget|].
  split.
  { intros id t H Hu. rewrite (Hget id t H), Hu, andb_false_r. reflexivity. }
  split; [apply (removeAll_sync _ st)|].
  split; [apply (removeAll_sync _ st)|].
  intros id summary now'. apply updateTabSummary_absent.
Qed.


Lemma cleanupOldSummaries_exact_example :
  keyedByTabId threeTabs
  /\ getTabData 1 (cleanupOldSummaries 1000000000 threeTabs) = None
  /\ getTabData 2 (cleanupOldSummaries 1000000000 threeTabs)
     = Some (exampleTab 2 1000 true)
  /\ getTabData 3 (cleanupOldSummaries 1000000000 threeTabs)
     = Some (exampleTab 3 500000000 false).
Proof.
  assert (H : keyedByTabId threeTabs).
  { unfold threeTabs. repeat apply keyedByTabId_save. apply keyedByTabId_empty. }
  destruct (cleanupOldSummaries_exact 1000000000 threeTabs H)
    as (_ & Hget & Hkeep & _).
  split; [exact H|]. split; [exact (Hget 1 _ eq_refl)|].
  split; [exact (Hkeep 2 _ eq_refl eq_refl) | exact (Hget 3 _ eq_refl)].
Defined.

Example updateTabSummary_unknown_tab :
  updateTabSummary 7 exampleSummary 9000 threeTabs = threeTabs.
Proof. reflexivity. Qed.

(** *** Protected sites kept in the settings record *)

Lemma getProtectedSites_saveSettings (sites : list string) (st : ChromeStorage) :
  getProtectedSites (saveSettings (onlySites sites) st) = sites.
Proof. reflexivity. Qed.

Lemma addProtectedSite_present (site : string) (st : ChromeStorage) :
  site ∈ getProtectedSites st -> addProtectedSite site st = st.
Proof.
  intros H. unfold addProtectedSite.
  apply list_elem_of_In, includes_In in H. rewrite H. reflexivity.
Qed.

Lemma addProtectedSite_absent (site : string) (st : ChromeStorage) :
  site ∉ getProtectedSites st ->
  getProtectedSites (addProtectedSite site st) = getProtectedSites st ++ [site].
Proof.
  intros H. unfold addProtectedSite.
  rewrite list_elem_of_In in H. apply includes_false_not_In in H. rewrite H.
  reflexivity.
Qed.

Lemma NoDup_snoc (l : list string) (x : string) :
  NoDup l -> x ∉ l -> NoDup (l ++ [x]).
Proof.
  intros Hl Hx. apply NoDup_app. split; [exact Hl|]. split.
  - intros y Hy Hy'. apply list_elem_of_singleton in Hy'. subst y. exact (Hx Hy).
  - apply NoDup_singleton.
Qed.

Lemma addProtectedSite_NoDup (site : string) (st : ChromeStorage) :
  NoDup (getProtectedSites st) ->
  NoDup (getProtectedSites (addProtectedSite site st)).
Proof.
  intros Hnd. destruct (decide (site ∈ getProtectedSites st)) as [Hin|Hout].
  - rewrite addProtectedSite_present by exact Hin. exact Hnd.
  - rewrite addProtectedSite_absent by exact Hout. apply NoDup_snoc; assumption.
Qed.

Lemma elem_of_without (l : list string) (site x : string) :
  x ∈ List.filter (fun s => negb (String.eqb s site)) l <-> x ∈ l /\ x <> site.
Proof.
  rewrite !list_elem_of_In, filter_In, negb_true_iff.
  split; intros [H1 H2]; (split; [exact H1|]).
  - intros ->. rewrite String.eqb_refl in H2. discriminate.
  - apply String.eqb_neq. exact H2.
Qed.

Lemma NoDup_without (l : list string) (site : string) :
  NoDup l -> NoDup (List.filter (fun s => negb (String.eqb s site)) l).
Proof.
  induction 1 as [|x l Hx Hl IH]; cbn; [constructor|].
  destruct (negb (String.eqb x site)); [|exact IH].
  constructor; [|exact IH]. intros Hin. apply elem_of_without in Hin.
  apply Hx, Hin.
Qed.

Lemma removeProtectedSite_sites (site : string) (st : ChromeStorage) :
  getProtectedSites (removeProtectedSite site st)
  = List.filter (fun s => negb (String.eqb s site)) (getProtectedSites st).
Proof. reflexivity. Qed.

Lemma removeProtectedSite_elem (site x : string) (st : ChromeStorage) :
  x ∈ getProtectedSites (removeProtectedSite site st) <->
  x ∈ getProtectedSites st /\ x <> site.
Proof. rewrite removeProtectedSite_sites. apply elem_of_without. Qed.

Lemma removeProtectedSite_NoDup (site : string) (st : ChromeStorage) :
  NoDup (getProtectedSites st) ->
  NoDup (getProtectedSites (removeProtectedSite site st)).
Proof. rewrite removeProtectedSite_sites. apply NoDup_without. Qed.

Lemma setAIFeaturesEnabled_sites (b : bool) (st : ChromeStorage) :
  getProtectedSites (setAIFeaturesEnabled b st) = getProtectedSites st.
Proof. reflexivity. Qed.

End StorageProofs.

(* ===================================================================== *)
(** ** background.ts and services/summarizer.ts *)
(* ===================================================================== *)

(** *** The service and the worker, case by case *)

Module ServiceFacts.
Import Eff Runtime SummarizerSpec WorkerSpec.

(** performInitialization, case by case. *)
Lemma performInitialization_cases (host : Host)
    (config : Summarizer.SummarizerConfig) (w : World) :
  SummarizerService.performInitialization host config w
  = if negb (Summarizer.present (api host))
    then failedInit "Summarizer API is not supported in this browser" w
    else match Summarizer.availability (api host) with
         | Throw e => failedInit e w
         | Ok a =>
             if String.eqb a "unavailable"
             then failedInit "Summarizer API is not available" w
             else match Summarizer.create (api host) (optionsOf config) with
                  | Throw e => failedInit e w
                  | Ok h =>
                      match Summarizer.ready h with
                      | Throw e => failedInit e (withSummarizer h w)
                      | Ok _ =>
                          (Ok tt,
                           addLog (Log "Summarizer initialized successfully")
                                  (markInitialized (withSummarizer h w)))
                      end
                  end
         end.
Proof.
  unfold SummarizerService.performInitialization, try_catch, bind, await, throw,
    ret, modify, consoleLog, consoleError, failedInit.
  fold (optionsOf config).
  destruct (Summarizer.present (api host)); cbn [negb]; [|reflexivity].
  destruct (Summarizer.availability (api host)) as [a|e]; [|reflexivity].
  destruct (String.eqb a "unavailable"); [reflexivity|].
  destruct (Summarizer.create (api host) (optionsOf config)) as [h|e];
    [|reflexivity].
  destruct (Summarizer.ready h) as [[]|e]; reflexivity.
Qed.

Lemma initialize_cases (host : Host) (config : Summarizer.SummarizerConfig)
    (w : World) :
  SummarizerService.initialize host config w
  = if Summarizer.isInitialized (service w) then (Ok tt, w)
    else match Summarizer.initializationPromise (service w) with
         | Some promise => (promise, w)
         | None =>
             (fst (SummarizerService.performInitialization host config w),
              setService (fun s =>
                Summarizer.mkService (Summarizer.summarizer s)
                                     (Summarizer.isInitialized s)
                                     (Some (fst (SummarizerService.performInitialization
                                                   host config w))))
                (snd (SummarizerService.performInitialization host config w)))
         end.
Proof.
  unfold SummarizerService.initialize.
  destruct (Summarizer.isInitialized (service w)); [reflexivity|].
  destruct (Summarizer.initializationPromise (service w)); [reflexivity|].
  destruct (SummarizerService.performInitialization host config w). reflexivity.
Qed.


End ServiceFacts.

Module BackgroundProofs.
Import Eff Runtime BackgroundSpec SummarizerSpec WorkerSpec ServiceFacts.

(** *** Running computations *)

Lemma bind_inv_Ok {S A B} (m : M S A) (k : A -> M S B) (s s' : S) (b : B) :
  bind m k s = (Ok b, s') ->
  exists a s1, m s = (Ok a, s1) /\ k a s1 = (Ok b, s').
Proof.
  unfold bind. destruct (m s) as [[a|e] s1]; intros H; [eauto | discriminate].
Qed.

(** *** GET_PROTECTION_STATUS *)

(** C5. To a GET_PROTECTION_STATUS message from a tab the background
    script answers, leaving its state as it is, with isProtected true
    exactly when the hostname is in the stored protectedSites list; an
    absent key counts as the empty list, so that the answer is false. *)
Theorem protection_status_response (host : Host) (w : World) (tabId : Z)
    (hostname : string) :
  tabId <> 0 ->
  exists isProtected,
    Background.onMessage host (Background.GET_PROTECTION_STATUS hostname)
                         (Some tabId) w
    = (Ok (Some (Background.ProtectionStatus isProtected)), w)
    /\ (isProtected = true <->
        hostname ∈ default [] (StorageService.syncProtectedSites (storage w)))
    /\ (StorageService.syncProtectedSites (storage w) = None ->
        isProtected = false).
Proof.
  intros Hid.
  exists (JS.includes (Background.storedProtectedSites w) hostname).
  split; [|split].
  - unfold Background.onMessage. destruct tabId; [contradiction | |]; reflexivity.
  - rewrite includes_In, list_elem_of_In. reflexivity.
  - unfold Background.storedProtectedSites. intros ->. reflexivity.
Qed.

Lemma protection_status_response_example :
  7 <> 0
  /\ Background.onMessage (hostWith noApi)
       (Background.GET_PROTECTION_STATUS "bank.example.com") (Some 7)
       (worldWithSites (Some ["mail.example.com"; "bank.example.com"]))
     = (Ok (Some (Background.ProtectionStatus true)),
        worldWithSites (Some ["mail.example.com"; "bank.example.com"])).
Proof.
  split; [discriminate|].
  destruct (protection_status_response (hostWith noApi)
              (worldWithSites (Some ["mail.example.com"; "bank.example.com"]))
              7 "bank.example.com" ltac:(discriminate)) as (b & E & Hb & _).
  assert (b = true) as ->.
  { apply Hb. cbn. apply list_elem_of_In. cbn. auto. }
  exact E.
Defined.

Example protection_status_no_key :
  Background.onMessage (hostWith noApi)
    (Background.GET_PROTECTION_STATUS "bank.example.com") (Some 7)
    (worldWithSites None)
  = (Ok (Some (Background.ProtectionStatus false)), worldWithSites None).
Proof. reflexivity. Qed.

(** A message that comes from no tab is not answered. *)
Lemma onMessage_no_tab (host : Host) (m : Background.Message) (w : World) :
  Background.onMessage host m None w = (Ok None, w).
Proof. reflexivity. Qed.


(** *** shouldSummarizeTab *)

(** C8. shouldSummarizeTab answers false, without looking further, when
    AI features are disabled, the Summarizer API is missing, the tab is
    already being summarized or the content has fewer than 200 characters.
    Past these gates it answers true for a protected hostname, and for any
    other hostname exactly when auto-summarize is on and the lower-cased
    URL contains blog, article, news or docs. *)
Theorem shouldSummarizeTab_gates (host : Host) (w : World) (tabId : Z)
    (url content : string) :
  (StorageService.isAIFeaturesEnabled (storage w) = false
   \/ Summarizer.present (api host) = false
   \/ busy w tabId = true
   \/ (String.length content < 200)%nat ->
   Background.shouldSummarizeTab host tabId url content w = (Ok false, w))
  /\ (StorageService.isAIFeaturesEnabled (storage w) = true ->
      Summarizer.present (api host) = true ->
      busy w tabId = false ->
      (200 <= String.length content)%nat ->
      forall hostname, hostnameOf host url = Some hostname ->
        Background.shouldSummarizeTab host tabId url content w
        = (Ok (JS.includes (StorageService.getProtectedSites (storage w)) hostname
               || (StorageService.isAutoSummarizeEnabled (storage w)
                   && readingUrl url)), w)).
Proof.
  unfold Background.shouldSummarizeTab, SummarizerService.isSupported, busy,
    readingUrl, bind, get, ret.
  split.
  - intros H.
    destruct (StorageService.isAIFeaturesEnabled (storage w)); [|reflexivity].
    destruct (Summarizer.present (api host)); [|reflexivity].
    cbn [negb].
    destruct (match summarizationStatus w !! tabId with
              | Some s => isProcessing s
              | None => false
              end); [reflexivity|].
    destruct (Nat.ltb_spec (String.length content) 200) as [Hlt|Hge];
      [reflexivity|].
    destruct H as [H|[H|[H|H]]]; try discriminate. lia.
  - intros -> -> -> Hlen hostname ->. cbn [negb].
    destruct (Nat.ltb_spec (String.length content) 200) as [Hlt|Hge]; [lia|].
    destruct (JS.includes (StorageService.getProtectedSites (storage w)) hostname);
      [reflexivity|].
    destruct (StorageService.isAutoSummarizeEnabled (storage w)); [|reflexivity].
    cbn [negb orb andb].
    destruct (JS.str_includes (JS.toLowerCase url) "blog"
              || JS.str_includes (JS.toLowerCase url) "article"
              || JS.str_includes (JS.toLowerCase url) "news"
              || JS.str_includes (JS.toLowerCase url) "docs"); reflexivity.
Qed.

(** The hostname is looked up only past the gates: there, a string that is
    not a URL makes the call throw. *)
Lemma shouldSummarizeTab_bad_url (host : Host) (w : World) (tabId : Z)
    (url content : string) :
  StorageService.isAIFeaturesEnabled (storage w) = true ->
  Summarizer.present (api host) = true ->
  busy w tabId = false ->
  (200 <= String.length content)%nat ->
  hostnameOf host url = None ->
  Background.shouldSummarizeTab host tabId url content w = (Throw "Invalid URL", w).
Proof.
  unfold Background.shouldSummarizeTab, SummarizerService.isSupported, busy,
    bind, get, ret, throw.
  intros -> -> -> Hlen ->. cbn [negb].
  destruct (Nat.ltb_spec (String.length content) 200) as [Hlt|Hge]; [lia|].
  reflexivity.
Qed.

Example shouldSummarizeTab_blog :
  Background.shouldSummarizeTab (hostWith workingApi) 7
    "https://blog.example.com/post/1"
    (String.concat "" (repeat "0123456789" 20)) newWorld
  = (Ok true, newWorld).
Proof. reflexivity. Qed.

Example shouldSummarizeTab_short :
  Background.shouldSummarizeTab (hostWith workingApi) 7
    "https://blog.example.com/post/1" "too short" newWorld
  = (Ok false, newWorld).
Proof. reflexivity. Qed.

Example shouldSummarizeTab_other_site :
  Background.shouldSummarizeTab (hostWith workingApi) 7
    "https://bank.example.com/transfer"
    (String.concat "" (repeat "0123456789" 20)) newWorld
  = (Ok false, newWorld).
Proof. reflexivity. Qed.


(** *** Errors of the summarizer *)

Lemma summarize_uninitialized (text : string) (context : option string)
    (w : World) :
  Summarizer.isInitialized (service w) = false
  \/ Summarizer.summarizer (service w) = None ->
  SummarizerService.summarize text context w
  = (Throw "Summarizer not initialized", w).
Proof.
  unfold SummarizerService.summarize, bind, get, throw.
  intros [H|H]; rewrite H; [reflexivity|].
  destruct (Summarizer.isInitialized (service w)); reflexivity.
Qed.

Lemma summarize_initialized (text : string) (context : option string)
    (w : World) (h : Summarizer.Handle) :
  Summarizer.isInitialized (service w) = true ->
  Summarizer.summarizer (service w) = Some h ->
  SummarizerService.summarize text context w
  = match Summarizer.summarizeWith h text context with
    | Ok summary => (Ok summary, w)
    | Throw e => (Throw e, addLog (LogError "Failed to generate summary:" e) w)
    end.
Proof.
  unfold SummarizerService.summarize, bind, get, try_catch, await, ret,
    consoleError, modify, throw.
  intros -> ->. destruct (Summarizer.summarizeWith h text context); reflexivity.
Qed.

Lemma performInitialization_failure (host : Host)
    (config : Summarizer.SummarizerConfig) (w w' : World) (e : string) :
  SummarizerService.performInitialization host config w = (Throw e, w') ->
  last (console w') = Some (LogError "Failed to initialize summarizer:" e).
Proof.
  unfold SummarizerService.performInitialization, try_catch.
  match goal with |- context [let (_, _) := ?body w in _] =>
    destruct (body w) as [[u|e1] w1] end; [discriminate|].
  unfold bind, consoleError, modify, throw. cbn.
  intros H. injection H as <- <-. cbn. apply last_snoc.
Qed.

Lemma initialize_fresh (host : Host) (config : Summarizer.SummarizerConfig)
    (w : World) :
  Summarizer.isInitialized (service w) = false ->
  Summarizer.initializationPromise (service w) = None ->
  fst (SummarizerService.initialize host config w)
  = fst (SummarizerService.performInitialization host config w).
Proof.
  unfold SummarizerService.initialize. intros -> ->.
  destruct (SummarizerService.performInitialization host config w). reflexivity.
Qed.

(** The worker's generateTabSummary always completes. *)
Lemma generateTabSummary_total (host : Host) (tabId : Z)
    (url title content : string) (w : World) :
  fst (Background.generateTabSummary host tabId url title content w) = Ok tt.
Proof.
  unfold Background.generateTabSummary, try_catch.
  match goal with |- context [let (_, _) := ?body w in _] =>
    destruct (body w) as [[[]|e1] w1] end; reflexivity.
Qed.

(** What it leaves last on the console tells how it went. *)
Lemma generateTabSummary_logged (host : Host) (tabId : Z)
    (url title content : string) (w : World) :
  let w' := snd (Background.generateTabSummary host tabId url title content w) in
  last (console w')
  = Some (Log ("Generated summary for tab " +:+ pretty tabId +:+ ": " +:+ title))
  \/ exists e,
       last (console w')
       = Some (LogError ("Failed to generate summary for tab: " +:+ pretty tabId) e).
Proof.
  unfold Background.generateTabSummary, try_catch.
  match goal with |- context [let (_, _) := ?body w in _] =>
    destruct (body w) as [[[]|e1] w1] eqn:Hbody end.
  - left.
    apply bind_inv_Ok in Hbody. destruct Hbody as (? & s1 & _ & Hbody).
    apply bind_inv_Ok in Hbody. destruct Hbody as (? & s2 & _ & Hbody).
    apply bind_inv_Ok in Hbody. destruct Hbody as (summary & s3 & _ & Hbody).
    apply bind_inv_Ok in Hbody. destruct Hbody as (? & s4 & _ & Hbody).
    apply bind_inv_Ok in Hbody. destruct Hbody as (? & s5 & Hlog & Hbody).
    unfold consoleLog, modify in Hlog, Hbody.
    injection Hlog as _ <-. injection Hbody as <-. cbn. apply last_snoc.
  - right. exists e1. cbn. apply last_snoc.
Qed.




(** In a browser without the API the worker logs both errors and goes on. *)
Example generateTabSummary_without_api :
  Background.generateTabSummary (hostWith noApi) 7
    "https://bank.example.com/transfer" "Transfer" "Transfer money" newWorld
  = (Ok tt,
     mkWorld StorageService.emptyStorage
       (Summarizer.mkService None false
          (Some (Throw "Summarizer API is not supported in this browser")))
       [LogError "Failed to initialize summarizer:"
                 "Summarizer API is not supported in this browser";
        LogError "Failed to generate summary for tab: 7"
                 "Summarizer API is not supported in this browser"]
       ∅ {[ 7 := mkStatus false 5000 1 ]} ∅).
Proof. vm_compute. reflexivity. Qed.

End BackgroundProofs.

(* ===================================================================== *)
(** ** popup.ts *)
(* ===================================================================== *)

Module PopupProofs.
Import Popup PopupSpec.

Lemma protect_button_shown (p : Popup) :
  existsb (RecAction_eqb ProtectSite) (recommendations (generateRecommendations p))
  = negb (JS.includes (protectedSites p) (currentHostname p)).
Proof.
  unfold generateRecommendations. cbn [recommendations].
  rewrite existsb_app.
  destruct (JS.includes (protectedSites p) (currentHostname p)); cbn.
  - destruct (settings p) as [s|]; [|reflexivity].
    destruct (StorageService.aiFeaturesEnabled s); reflexivity.
  - reflexivity.
Qed.

(** The toggle button keeps the list free of duplicates and writes the
    list it keeps. *)
Lemma toggleClick_NoDup (s : State) :
  NoDup (protectedSites (popup s)) ->
  NoDup (protectedSites (popup (toggleClick s)))
  /\ storedSites (toggleClick s) = Some (protectedSites (popup (toggleClick s))).
Proof.
  intros Hnd. unfold toggleClick, storedSites. cbn. split; [|reflexivity].
  destruct (JS.includes (protectedSites (popup s)) (currentHostname (popup s))) eqn:E.
  - apply StorageProofs.NoDup_without. exact Hnd.
  - apply StorageProofs.NoDup_snoc; [exact Hnd|].
    rewrite list_elem_of_In. apply includes_false_not_In. exact E.
Qed.

(** The recommendation button appends without looking. *)
Lemma recommendationClick_appends (s : State) :
  protectedSites (popup (recommendationClick ProtectSite s))
  = protectedSites (popup s) ++ [currentHostname (popup s)]
  /\ storedSites (recommendationClick ProtectSite s)
     = Some (protectedSites (popup s) ++ [currentHostname (popup s)]).
Proof. split; reflexivity. Qed.

Lemma recommendationClick_duplicates (s : State) :
  currentHostname (popup s) ∈ protectedSites (popup s) ->
  ~ NoDup (protectedSites (popup (recommendationClick ProtectSite s))).
Proof.
  intros Hin Hnd. cbn in Hnd. apply NoDup_app in Hnd.
  destruct Hnd as (_ & Hdisj & _).
  apply (Hdisj _ Hin). apply list_elem_of_here.
Qed.

Lemma openPopup_settled (hostname : string) (st : StorageService.ChromeStorage) :
  NoDup (default [] (StorageService.syncProtectedSites st)) ->
  settled (openPopup hostname st).
Proof.
  intros Hnd. unfold settled, openPopup. cbn [pending popup].
  split; [reflexivity|]. split; [exact Hnd|].
  rewrite protect_button_shown. cbn. intros H. apply negb_true_iff in H.
  rewrite list_elem_of_In. apply includes_false_not_In. exact H.
Qed.

Lemma resume_settled (t : Continuation) (p : Popup) (st : StorageService.ChromeStorage) :
  t <> AfterSettingWrite ->
  NoDup (protectedSites p) ->
  settled (mkState (resume t p) st []).
Proof.
  intros Ht Hnd. unfold settled. cbn [pending popup].
  split; [reflexivity|].
  destruct t; [| | |contradiction]; cbn [resume]; (split; [exact Hnd|]);
    rewrite protect_button_shown; cbn; intros H; apply negb_true_iff in H;
    rewrite list_elem_of_In; apply includes_false_not_In; exact H.
Qed.

(** A change of a settings checkbox touches neither the list nor what is
    on display. *)
Lemma settingChange_keeps (e : Event) (s s' : State) :
  e = ChangeAIToggle \/ e = ChangeAutoSummarizeToggle ->
  pending s = [] ->
  undisturbed e s = Some s' ->
  pending s' = []
  /\ protectedSites (popup s') = protectedSites (popup s)
  /\ currentHostname (popup s') = currentHostname (popup s)
  /\ recommendations (popup s') = recommendations (popup s)
  /\ toggleShowsUnprotect (popup s') = toggleShowsUnprotect (popup s)
  /\ storedSites s' = storedSites s.
Proof.
  intros [-> | ->] Hp; unfold undisturbed; cbn [step];
    unfold aiToggleChange, autoSummarizeToggleChange, storedSites;
    destruct (settings (popup s)); cbn; rewrite Hp; cbn;
    intros H; injection H as <-; repeat split.
Qed.

Lemma undisturbed_one_write (e : Event) (s s1 : State) (t : Continuation) :
  step e s = Some s1 -> pending s1 = [t] ->
  undisturbed e s = Some (mkState (resume t (popup s1)) (storage s1) []).
Proof. unfold undisturbed. intros -> Hp. rewrite Hp. cbn. rewrite Hp. reflexivity. Qed.

Lemma undisturbed_no_write (e : Event) (s s1 : State) :
  step e s = Some s1 -> pending s1 = [] -> undisturbed e s = Some s1.
Proof. unfold undisturbed. intros -> ->. reflexivity. Qed.

(** As long as every click finds the previous listener finished, the list
    in memory and the list written stay free of duplicates. *)
Lemma undisturbed_settled (e : Event) (s s' : State) :
  settled s -> undisturbed e s = Some s' ->
  settled s'
  /\ (storedSites s' = storedSites s
      \/ storedSites s' = Some (protectedSites (popup s'))).
Proof.
  intros (Hp & Hnd & Hbtn) Hrun. destruct e as [|a| | |].
  4,5: match type of Hrun with undisturbed ?e _ = _ =>
         destruct (settingChange_keeps e s s' ltac:(auto) Hp Hrun)
           as (K1 & K2 & K3 & K4 & _ & K6)
       end;
       (split; [|left; exact K6]); unfold settled; rewrite K1, K2, K3, K4;
       (split; [reflexivity|]); split; assumption.
  - destruct (toggleClick_NoDup s Hnd) as [Hnd' Hst'].
    rewrite (undisturbed_one_write ClickToggle s (toggleClick s) AfterToggleWrite)
      in Hrun; [|reflexivity|cbn; rewrite Hp; reflexivity].
    apply (inj Some) in Hrun; subst s'. split; [apply (resume_settled AfterToggleWrite (popup (toggleClick s))); [discriminate | exact Hnd']|].
    right. exact Hst'.
  - destruct (existsb (RecAction_eqb a) (recommendations (popup s))) eqn:Ha.
    2:{ unfold undisturbed in Hrun. cbn [step] in Hrun. rewrite Ha in Hrun.
        discriminate. }
    assert (Hstep : step (ClickRecommendation a) s = Some (recommendationClick a s))
      by (cbn [step]; rewrite Ha; reflexivity).
    destruct a.
    + rewrite (undisturbed_one_write _ s _ AfterProtectWrite Hstep) in Hrun
        by (cbn; rewrite Hp; reflexivity).
      apply (inj Some) in Hrun; subst s'. split; [|right; reflexivity].
      apply (resume_settled AfterProtectWrite (popup (recommendationClick ProtectSite s)));
        [discriminate|].
      cbn. apply StorageProofs.NoDup_snoc; [exact Hnd|].
      apply Hbtn. exact Ha.
    + destruct (settings (popup s)) as [old|] eqn:Hset.
      * rewrite (undisturbed_one_write _ s _ AfterEnableAIWrite Hstep) in Hrun
          by (cbn; rewrite Hset, Hp; reflexivity).
        apply (inj Some) in Hrun; subst s'. split; [|left; cbn; rewrite Hset; reflexivity].
        apply (resume_settled AfterEnableAIWrite (popup (recommendationClick EnableAI s)));
          [discriminate|].
        cbn. rewrite Hset. exact Hnd.
      * rewrite (undisturbed_no_write _ s _ Hstep) in Hrun
          by (cbn; rewrite Hset, Hp; reflexivity).
        apply (inj Some) in Hrun; subst s'. cbn [recommendationClick]. rewrite Hset.
        split; [|left; reflexivity].
        rewrite Hp. apply (resume_settled AfterEnableAIWrite); [discriminate | exact Hnd].
  - unfold undisturbed in Hrun. cbn [step] in Hrun. rewrite Hp in Hrun.
    discriminate.
Qed.

Lemma runUndisturbed_NoDup (es : list Event) (s s' : State) :
  settled s ->
  (forall l, storedSites s = Some l -> NoDup l) ->
  runUndisturbed es s = Some s' ->
  settled s' /\ (forall l, storedSites s' = Some l -> NoDup l).
Proof.
  revert s. induction es as [|e es IH]; intros s Hs Hst; cbn.
  - intros H. injection H as <-. split; assumption.
  - destruct (undisturbed e s) as [s1|] eqn:E; [|discriminate].
    destruct (undisturbed_settled e s s1 Hs E) as [Hs1 Hst1].
    apply IH; [exact Hs1|].
    intros l Hl. destruct Hst1 as [Hsame|Hnew].
    + apply Hst. rewrite <- Hsame. exact Hl.
    + rewrite Hnew in Hl. injection Hl as <-. apply Hs1.
Qed.

(** A popup opened on a stored list without duplicates keeps it so through
    any clicks that each find the previous listener finished. *)
Lemma openPopup_undisturbed_NoDup (hostname : string)
    (st : StorageService.ChromeStorage) (es : list Event) (s' : State) :
  NoDup (default [] (StorageService.syncProtectedSites st)) ->
  runUndisturbed es (openPopup hostname st) = Some s' ->
  NoDup (protectedSites (popup s'))
  /\ forall l, storedSites s' = Some l -> NoDup l.
Proof.
  intros Hnd Hrun.
  destruct (runUndisturbed_NoDup es (openPopup hostname st) s') as [Hs Hl].
  - apply openPopup_settled. exact Hnd.
  - unfold storedSites, openPopup. cbn. intros l E. rewrite E in Hnd. exact Hnd.
  - exact Hrun.
  - split; [apply Hs | exact Hl].
Qed.

(** C4. The stored list does not stay a set.  On a site that is not yet
    protected the popup shows the toggle button and a 'Protect Site'
    recommendation.  A click on the toggle adds the hostname and starts
    the storage write; until that write resolves the recommendation is
    still on display, and a click on it appends the hostname again and
    writes the list with the hostname twice. *)
Theorem recommendation_click_stores_duplicate :
  match run [ClickToggle; ClickRecommendation ProtectSite]
            (openPopup "example.com" StorageService.emptyStorage) with
  | Some s =>
      protectedSites (popup s) = ["example.com"; "example.com"]
      /\ storedSites s = Some ["example.com"; "example.com"]
      /\ pending s = [AfterToggleWrite; AfterProtectWrite]
  | None => False
  end.
Proof. cbn. repeat split. Qed.

(** The same two clicks, each after the other's listener has finished:
    the second button is gone. *)
Example recommendation_click_after_toggle :
  run [ClickToggle; WriteResolved; ClickRecommendation ProtectSite]
      (openPopup "example.com" StorageService.emptyStorage)
  = None.
Proof. reflexivity. Qed.

End PopupProofs.

(* ===================================================================== *)
(** ** services/storage.ts: further properties *)
(* ===================================================================== *)

Module StorageMore.
Import StorageService StorageSpec StorageProofs.

Lemma storage_eq (a b : ChromeStorage) :
  local a = local b -> syncSettings a = syncSettings b ->
  syncProtectedSites a = syncProtectedSites b -> a = b.
Proof. destruct a, b. cbn. intros -> -> ->. reflexivity. Qed.

Lemma without_snoc_absent (l : list string) (site : string) :
  site ∉ l ->
  List.filter (fun s => negb (String.eqb s site)) (l ++ [site]) = l.
Proof.
  intros Hout. rewrite List.filter_app. cbn. rewrite String.eqb_refl. cbn.
  rewrite app_nil_r. induction l as [|x l IH]; [reflexivity|]. cbn.
  apply not_elem_of_cons in Hout. destruct Hout as [Hne Hout].
  destruct (String.eqb_spec x site) as [->|_]; [contradiction|].
  cbn. rewrite (IH Hout). reflexivity.
Qed.

Lemma addProtectedSite_frame (site : string) (st : ChromeStorage) :
  local (addProtectedSite site st) = local st
  /\ syncProtectedSites (addProtectedSite site st) = syncProtectedSites st.
Proof.
  unfold addProtectedSite.
  destruct (negb (JS.includes (getProtectedSites st) site)); split; reflexivity.
Qed.

(** X1. addProtectedSite makes the site a member of the protected sites
    of the settings and changes the membership of no other site; it keeps
    a list without duplicates free of them, adding twice is adding once,
    and neither the tab records nor the popup's protectedSites key are
    touched. *)
Theorem addProtectedSite_membership (site : string) (st : ChromeStorage) :
  (forall x, x ∈ getProtectedSites (addProtectedSite site st) <->
             x ∈ getProtectedSites st \/ x = site)
  /\ (NoDup (getProtectedSites st) ->
      NoDup (getProtectedSites (addProtectedSite site st)))
  /\ addProtectedSite site (addProtectedSite site st) = addProtectedSite site st
  /\ local (addProtectedSite site st) = local st
  /\ syncProtectedSites (addProtectedSite site st) = syncProtectedSites st.
Proof.
  assert (Hmem : forall x, x ∈ getProtectedSites (addProtectedSite site st) <->
                           x ∈ getProtectedSites st \/ x = site).
  { intros x. destruct (decide (site ∈ getProtectedSites st)) as [Hin|Hout].
    - rewrite addProtectedSite_present by exact Hin. split; [auto|].
      intros [H| ->]; assumption.
    - rewrite addProtectedSite_absent by exact Hout.
      rewrite elem_of_app, list_elem_of_singleton. reflexivity. }
  split; [exact Hmem|]. split; [apply addProtectedSite_NoDup|].
  split; [apply addProtectedSite_present, Hmem; right; reflexivity|].
  apply addProtectedSite_frame.
Qed.

(** X2. removeProtectedSite removes the site and nothing else: another
    site is a member afterwards exactly when it was before, the site
    itself is not, a list without duplicates stays so, and removing a site
    that was just added to a list that did not have it gives the list
    back. *)
Theorem removeProtectedSite_membership (site : string) (st : ChromeStorage) :
  (forall x, x ∈ getProtectedSites (removeProtectedSite site st) <->
             x ∈ getProtectedSites st /\ x <> site)
  /\ (site ∉ getProtectedSites (removeProtectedSite site st))
  /\ (NoDup (getProtectedSites st) ->
      NoDup (getProtectedSites (removeProtectedSite site st)))
  /\ (site ∉ getProtectedSites st ->
      getProtectedSites (removeProtectedSite site (addProtectedSite site st))
      = getProtectedSites st)
  /\ local (removeProtectedSite site st) = local st
  /\ syncProtectedSites (removeProtectedSite site st) = syncProtectedSites st.
Proof.
  split; [intros x; apply removeProtectedSite_elem|].
  split; [intros H; apply removeProtectedSite_elem in H; destruct H as [_ H];
          apply H; reflexivity|].
  split; [apply removeProtectedSite_NoDup|].
  split; [|split; reflexivity].
  intros Hout. rewrite removeProtectedSite_sites.
  rewrite addProtectedSite_absent by exact Hout.
  apply without_snoc_absent. exact Hout.
Qed.

(** X3. setAIFeaturesEnabled sets the flag that isAIFeaturesEnabled reads
    and leaves every other setting, the tab records and the popup's
    protectedSites key as they were; the last value set wins. *)
Theorem setAIFeaturesEnabled_only_flag (b b' : bool) (st : ChromeStorage) :
  isAIFeaturesEnabled (setAIFeaturesEnabled b st) = b
  /\ getProtectedSites (setAIFeaturesEnabled b st) = getProtectedSites st
  /\ isAutoSummarizeEnabled (setAIFeaturesEnabled b st) = isAutoSummarizeEnabled st
  /\ summaryTypes (getSettings (setAIFeaturesEnabled b st)) = summaryTypes (getSettings st)
  /\ maxSummariesPerTab (getSettings (setAIFeaturesEnabled b st))
     = maxSummariesPerTab (getSettings st)
  /\ summaryRetentionDays (getSettings (setAIFeaturesEnabled b st))
     = summaryRetentionDays (getSettings st)
  /\ local (setAIFeaturesEnabled b st) = local st
  /\ syncProtectedSites (setAIFeaturesEnabled b st) = syncProtectedSites st
  /\ setAIFeaturesEnabled b' (setAIFeaturesEnabled b st) = setAIFeaturesEnabled b' st.
Proof. repeat split. Qed.

(** X4. removeTabData deletes the record of its tab and no other: the tab
    has no record afterwards, every other tab keeps its own, removing
    after saving is removing, and removing where there is no record
    changes nothing. *)
Theorem removeTabData_only_its_tab (id : Z) (st : ChromeStorage) :
  getTabData id (removeTabData id st) = None
  /\ (forall other, other <> id ->
        getTabData other (removeTabData id st) = getTabData other st)
  /\ (forall t, tabId t = id ->
        removeTabData id (saveTabData t st) = removeTabData id st)
  /\ (getTabData id st = None -> removeTabData id st = st)
  /\ syncSettings (removeTabData id st) = syncSettings st
  /\ syncProtectedSites (removeTabData id st) = syncProtectedSites st.
Proof.
  split; [apply lookup_delete_eq|].
  split.
  { intros other Hne. unfold getTabData, removeTabData. cbn.
    apply lookup_delete_ne. intros E. apply Hne. symmetry. exact (tabKey_inj _ _ E). }
  split.
  { intros t <-. apply storage_eq; try reflexivity. cbn.
    apply delete_insert_eq. }
  split; [|split; reflexivity].
  intros H. apply storage_eq; try reflexivity. cbn.
  apply delete_id. exact H.
Qed.


Lemma updateTabSummary_found (id : Z) (s : Summarizer.TabSummary) (now : Z)
    (t : TabData) (st : ChromeStorage) :
  keyedByTabId st ->
  getTabData id st = Some t ->
  getTabData id (updateTabSummary id s now st)
  = Some (mkTabData id (url t) (title t) (hasUnsavedChanges t) (Some s) now
                    (protectionLevel t)).
Proof.
  intros Hst Ht. pose proof (getTabData_tabId id t st Hst Ht) as Eid.
  unfold updateTabSummary. rewrite Ht.
  pose proof (getTabData_save_eq (withSummary t s now) st) as H.
  unfold withSummary in *. cbn [tabId] in H. rewrite Eid in *. exact H.
Qed.

(** X5. updateTabSummary on a tab that has a record attaches the summary
    to it and stamps it with the time of the update, keeping the record's
    tab, URL, title, unsaved flag and protection level; the records of
    other tabs and the sync area are not touched. *)
Theorem updateTabSummary_existing (id : Z) (s : Summarizer.TabSummary) (now : Z)
    (t : TabData) (st : ChromeStorage) :
  keyedByTabId st ->
  getTabData id st = Some t ->
  getTabData id (updateTabSummary id s now st)
  = Some (mkTabData id (url t) (title t) (hasUnsavedChanges t) (Some s) now
                    (protectionLevel t))
  /\ (forall other, other <> id ->
        getTabData other (updateTabSummary id s now st) = getTabData other st)
  /\ syncSettings (updateTabSummary id s now st) = syncSettings st
  /\ syncProtectedSites (updateTabSummary id s now st) = syncProtectedSites st.
Proof.
  intros Hst Ht. split; [apply updateTabSummary_found; assumption|].
  pose proof (getTabData_tabId id t st Hst Ht) as Eid.
  unfold updateTabSummary. rewrite Ht.
  split; [|split; reflexivity].
  intros other Hne. apply getTabData_save_ne. cbn. rewrite Eid. exact Hne.
Qed.

Lemma updateTabSummary_existing_example :
  keyedByTabId threeTabs
  /\ getTabData 2 threeTabs = Some (exampleTab 2 1000 true)
  /\ getTabData 2 (updateTabSummary 2 exampleSummary 9000 threeTabs)
     = Some (mkTabData 2 "https://example.com/form" "Example" true
                       (Some exampleSummary) 9000 ProtNone).
Proof.
  assert (H : keyedByTabId threeTabs).
  { unfold threeTabs. repeat apply keyedByTabId_save. apply keyedByTabId_empty. }
  split; [exact H|]. split; [reflexivity|].
  exact (proj1 (updateTabSummary_existing 2 exampleSummary 9000 _ threeTabs
                  H eq_refl)).
Defined.

(** X6. getAllTabData lists exactly the records getTabData finds: a
    record is in the listing if and only if it is the one stored for its
    own tab. *)
Theorem getAllTabData_agrees_with_getTabData (t : TabData) (st : ChromeStorage) :
  keyedByTabId st ->
  (t ∈ getAllTabData st <-> getTabData (tabId t) st = Some t).
Proof.
  intros Hst. rewrite elem_of_getAllTabData. unfold getTabData. split.
  - intros (k & Hk & Hp). rewrite <- (Hst k t Hk Hp). exact Hk.
  - intros H. exists (tabKey (tabId t)). split; [exact H | apply tabKey_prefix].
Qed.

Lemma getAllTabData_agrees_example :
  keyedByTabId threeTabs
  /\ (exampleTab 3 500000000 false ∈ getAllTabData threeTabs <->
      getTabData 3 threeTabs = Some (exampleTab 3 500000000 false)).
Proof.
  assert (H : keyedByTabId threeTabs).
  { unfold threeTabs. repeat apply keyedByTabId_save. apply keyedByTabId_empty. }
  split; [exact H|].
  exact (getAllTabData_agrees_with_getTabData (exampleTab 3 500000000 false)
           threeTabs H).
Defined.

Lemma cleanup_sync (now : Z) (st : ChromeStorage) :
  syncSettings (cleanupOldSummaries now st) = syncSettings st
  /\ syncProtectedSites (cleanupOldSummaries now st) = syncProtectedSites st.
Proof. apply (removeAll_sync _ st). Qed.

Lemma cutoff_cleanup (now now' : Z) (st : ChromeStorage) :
  cutoff now' (cleanupOldSummaries now st) = cutoff now' st.
Proof.
  unfold cutoff, getSettings.
  rewrite (proj1 (cleanup_sync now st)). reflexivity.
Qed.

(** X7. A later cleanup subsumes an earlier one: cleaning up at [now1]
    and then at [now2], no earlier than [now1], leaves the storage that
    cleaning up at [now2] alone leaves.  In particular cleaning up twice
    at the same time is cleaning up once. *)
Theorem cleanupOldSummaries_subsumed (now1 now2 : Z) (st : ChromeStorage) :
  keyedByTabId st ->
  (now1 <= now2)%Z ->
  cleanupOldSummaries now2 (cleanupOldSummaries now1 st)
  = cleanupOldSummaries now2 st.
Proof.
  intros Hst Hle. apply storage_eq.
  - apply map_eq. intros k.
    rewrite (cleanup_lookup now2 _ k (keyedByTabId_cleanup now1 st Hst)).
    rewrite (cleanup_lookup now1 st k Hst), (cleanup_lookup now2 st k Hst).
    rewrite cutoff_cleanup.
    destruct (local st !! k) as [t|]; [|reflexivity].
    destruct (JS.startsWith k "tab_"); cbn [andb]; [|reflexivity].
    unfold isStale, cutoff.
    destruct (hasUnsavedChanges t) eqn:Hu; cbn [negb].
    { rewrite !andb_false_r. cbv beta iota. rewrite Hu, andb_false_r. reflexivity. }
    rewrite !andb_true_r.
    destruct (Z.ltb_spec (lastUpdated t)
                (now1 - summaryRetentionDays (getSettings st) * 24 * 60 * 60 * 1000))
      as [H1|H1]; cbv beta iota.
    + destruct (Z.ltb_spec (lastUpdated t)
                  (now2 - summaryRetentionDays (getSettings st) * 24 * 60 * 60 * 1000));
        [reflexivity | lia].
    + rewrite Hu. cbn [negb]. rewrite andb_true_r. reflexivity.
  - rewrite !(proj1 (cleanup_sync _ _)). reflexivity.
  - rewrite !(proj2 (cleanup_sync _ _)). reflexivity.
Qed.

Lemma cleanupOldSummaries_subsumed_example :
  keyedByTabId threeTabs
  /\ (1000000000 <= 2000000000)%Z
  /\ cleanupOldSummaries 2000000000 (cleanupOldSummaries 1000000000 threeTabs)
     = cleanupOldSummaries 2000000000 threeTabs.
Proof.
  assert (H : keyedByTabId threeTabs).
  { unfold threeTabs. repeat apply keyedByTabId_save. apply keyedByTabId_empty. }
  split; [exact H|]. split; [lia|].
  exact (cleanupOldSummaries_subsumed 1000000000 2000000000 threeTabs H
           ltac:(lia)).
Defined.


(** *** Statistics *)

Lemma tab_entries_length_perm (l l' : list (string * TabData)) :
  l ≡ₚ l' ->
  length (List.filter (fun kv => JS.startsWith (fst kv) "tab_") l)
  = length (List.filter (fun kv => JS.startsWith (fst kv) "tab_") l').
Proof.
  induction 1 as [|x l l' _ IH|x y l|l l' l'' _ IH1 _ IH2]; cbn -[JS.startsWith].
  - reflexivity.
  - destruct (JS.startsWith (fst x) "tab_"); cbn; rewrite IH; reflexivity.
  - destruct (JS.startsWith (fst x) "tab_"), (JS.startsWith (fst y) "tab_");
      reflexivity.
  - rewrite IH1. exact IH2.
Qed.

Lemma getAllTabData_length (st : ChromeStorage) :
  length (getAllTabData st)
  = length (List.filter (fun kv => JS.startsWith (fst kv) "tab_")
                        (map_to_list (local st))).
Proof. unfold getAllTabData. apply length_map. Qed.

Lemma getAllTabData_length_save (t : TabData) (st : ChromeStorage) :
  length (getAllTabData (saveTabData t st))
  = match getTabData (tabId t) st with
    | Some _ => length (getAllTabData st)
    | None => S (length (getAllTabData st))
    end.
Proof.
  rewrite !getAllTabData_length. unfold getTabData, saveTabData. cbn [local setLocal].
  destruct (local st !! tabKey (tabId t)) as [u|] eqn:Hk.
  - rewrite <- (insert_delete_eq (local st)).
    rewrite (tab_entries_length_perm _ _
               (map_to_list_insert _ _ t (lookup_delete_eq (local st) _))).
    rewrite <- (tab_entries_length_perm _ _ (map_to_list_delete _ _ u Hk)).
    cbn -[JS.startsWith]. rewrite !tabKey_prefix. reflexivity.
  - rewrite (tab_entries_length_perm _ _ (map_to_list_insert _ _ t Hk)).
    cbn -[JS.startsWith]. rewrite tabKey_prefix. reflexivity.
Qed.

(** X8. In the statistics the tabs with a summary and the tabs with
    unsaved changes are counted among the stored tabs and never exceed
    their number; the protected sites counted are those of the settings;
    saving the record of a tab that had none raises the number of tabs by
    one, and saving over an existing record leaves it. *)
Theorem getStorageStats_counts (stringifiedLength : list TabData -> nat)
    (st : ChromeStorage) (t : TabData) :
  let stats := StorageStats.getStorageStats stringifiedLength in
  (StorageStats.tabsWithSummaries (stats st) <= StorageStats.totalTabs (stats st))%nat
  /\ (StorageStats.tabsWithUnsavedChanges (stats st)
      <= StorageStats.totalTabs (stats st))%nat
  /\ StorageStats.protectedSites (stats st) = length (getProtectedSites st)
  /\ StorageStats.totalTabs (stats emptyStorage) = 0%nat
  /\ StorageStats.totalTabs (stats (saveTabData t st))
     = match getTabData (tabId t) st with
       | Some _ => StorageStats.totalTabs (stats st)
       | None => S (StorageStats.totalTabs (stats st))
       end.
Proof.
  cbn zeta. unfold StorageStats.getStorageStats. cbn [StorageStats.totalTabs
    StorageStats.tabsWithSummaries StorageStats.tabsWithUnsavedChanges
    StorageStats.protectedSites].
  split; [apply List.filter_length_le|]. split; [apply List.filter_length_le|].
  split; [reflexivity|]. split; [reflexivity|].
  apply getAllTabData_length_save.
Qed.

End StorageMore.

(* ===================================================================== *)
(** ** services/summarizer.ts: further properties *)
(* ===================================================================== *)

Module SummarizerMore.
Import Eff Runtime BackgroundSpec SummarizerSpec ServiceFacts.




(** X10. performInitialization succeeds exactly when the host has the
    API, does not report it unavailable, creates a summarizer and that
    summarizer becomes ready; the service then holds that summarizer and
    is initialized.  When it fails the service is not marked initialized,
    the error is the last entry of the console, and nothing but the
    service and the console has changed either way. *)
Theorem performInitialization_outcome (host : Host)
    (config : Summarizer.SummarizerConfig) (w : World) :
  let r := SummarizerService.performInitialization host config w in
  (fst r = Ok tt <-> exists h, hostProvides host config h)
  /\ (forall h, hostProvides host config h ->
        Summarizer.summarizer (service (snd r)) = Some h
        /\ Summarizer.isInitialized (service (snd r)) = true)
  /\ (forall e, fst r = Throw e ->
        Summarizer.isInitialized (service (snd r)) = Summarizer.isInitialized (service w)
        /\ last (console (snd r))
           = Some (LogError "Failed to initialize summarizer:" e))
  /\ sameBesidesService w (snd r).
Proof.
  cbn zeta. rewrite performInitialization_cases. unfold hostProvides, failedInit.
  destruct (Summarizer.present (api host)); cbn [negb].
  2:{ repeat split; try discriminate.
      - intros (h & Hp & _). discriminate.
      - destruct H as (Hp & _). discriminate.
      - destruct H as (Hp & _). discriminate.
      - injection H as <-. cbn. apply last_snoc. }
  destruct (Summarizer.availability (api host)) as [a|e0].
  2:{ repeat split; try discriminate.
      - intros (h & _ & (a & Ha & _) & _). discriminate.
      - destruct H as (_ & (a & Ha & _) & _). discriminate.
      - destruct H as (_ & (a & Ha & _) & _). discriminate.
      - injection H as <-. cbn. apply last_snoc. }
  destruct (String.eqb_spec a "unavailable") as [->|Hne].
  { repeat split; try discriminate.
    - intros (h & _ & (a & Ha & Hna) & _). injection Ha as <-. contradiction.
    - destruct H as (_ & (a & Ha & Hna) & _). injection Ha as <-. contradiction.
    - destruct H as (_ & (a & Ha & Hna) & _). injection Ha as <-. contradiction.
    - injection H as <-. cbn. apply last_snoc. }
  destruct (Summarizer.create (api host) (optionsOf config)) as [h|e0].
  2:{ repeat split; try discriminate.
      - intros (h & _ & _ & Hc & _). discriminate.
      - destruct H as (_ & _ & Hc & _). discriminate.
      - destruct H as (_ & _ & Hc & _). discriminate.
      - injection H as <-. cbn. apply last_snoc. }
  destruct (Summarizer.ready h) as [[]|e0] eqn:Hr.
  - repeat split; try discriminate.
    + intros _. exists h. repeat split; eauto.
    + destruct H as (_ & _ & Hc & _). injection Hc as <-. reflexivity.
  - repeat split; try discriminate.
    + intros (h' & _ & _ & Hc & Hr'). injection Hc as <-. rewrite Hr in Hr'.
      discriminate.
    + destruct H as (_ & _ & Hc & _). injection Hc as <-. reflexivity.
    + destruct H as (_ & _ & Hc & Hr'). injection Hc as <-. rewrite Hr in Hr'.
      discriminate.
    + injection H as <-. cbn. apply last_snoc.
Qed.

(** A summarizer that is created but does not become ready is kept by the
    service, which stays uninitialized. *)
Example performInitialization_not_ready :
  let w := snd (SummarizerService.performInitialization (hostWith stuckApi)
                  Summarizer.emptyConfig newWorld) in
  Summarizer.summarizer (service w) = Some stuckHandle
  /\ Summarizer.isInitialized (service w) = false
  /\ console w = [LogError "Failed to initialize summarizer:" "model download failed"].
Proof. repeat split. Qed.


Lemma performInitialization_initialized (host : Host)
    (config : Summarizer.SummarizerConfig) (w : World) :
  Summarizer.isInitialized (service w) = false ->
  Summarizer.isInitialized
    (service (snd (SummarizerService.performInitialization host config w))) = true ->
  fst (SummarizerService.performInitialization host config w) = Ok tt.
Proof.
  intros Hw. rewrite performInitialization_cases. unfold failedInit.
  destruct (negb (Summarizer.present (api host)));
    [cbn; rewrite Hw; discriminate|].
  destruct (Summarizer.availability (api host)) as [a|e];
    [|cbn; rewrite Hw; discriminate].
  destruct (String.eqb a "unavailable"); [cbn; rewrite Hw; discriminate|].
  destruct (Summarizer.create (api host) (optionsOf config)) as [h|e];
    [|cbn; rewrite Hw; discriminate].
  destruct (Summarizer.ready h) as [[]|e]; [reflexivity|].
  cbn. rewrite Hw. discriminate.
Qed.

Lemma performInitialization_promise (host : Host)
    (config : Summarizer.SummarizerConfig) (w : World) :
  Summarizer.initializationPromise
    (service (snd (SummarizerService.performInitialization host config w)))
  = Summarizer.initializationPromise (service w).
Proof.
  rewrite performInitialization_cases. unfold failedInit.
  destruct (negb (Summarizer.present (api host))); [reflexivity|].
  destruct (Summarizer.availability (api host)) as [a|e]; [|reflexivity].
  destruct (String.eqb a "unavailable"); [reflexivity|].
  destruct (Summarizer.create (api host) (optionsOf config)) as [h|e];
    [|reflexivity].
  destruct (Summarizer.ready h) as [[]|e]; reflexivity.
Qed.

(** X9. initialize asks the host once.  Whatever its first outcome, a
    success or a failure, every later call returns that same outcome
    without touching the state, whichever configuration it is given and
    whatever the host would answer by then: a failed initialization is not
    tried again, and a later configuration is ignored. *)
Theorem initialize_once (host host' : Host)
    (config config' : Summarizer.SummarizerConfig) (w : World) :
  SummarizerService.initialize host' config'
    (snd (SummarizerService.initialize host config w))
  = SummarizerService.initialize host config w.
Proof.
  rewrite (initialize_cases host config w).
  destruct (Summarizer.isInitialized (service w)) eqn:Hi.
  { cbn [snd]. rewrite initialize_cases, Hi. reflexivity. }
  destruct (Summarizer.initializationPromise (service w)) as [p|] eqn:Hp.
  { cbn [snd]. rewrite initialize_cases, Hi, Hp. reflexivity. }
  cbn [snd]. rewrite initialize_cases. cbn [service setService Summarizer.isInitialized
    Summarizer.initializationPromise].
  destruct (Summarizer.isInitialized
              (service (snd (SummarizerService.performInitialization host config w))))
    eqn:Hi'; [|reflexivity].
  rewrite (performInitialization_initialized host config w Hi Hi'). reflexivity.
Qed.

(** X11. dispose forgets the summarizer and the cached outcome: summarize
    then throws 'Summarizer not initialized', and the next initialize
    goes to the host again and returns what performInitialization
    returns. *)
Theorem dispose_resets (host : Host) (config : Summarizer.SummarizerConfig)
    (text : string) (context : option string) (w : World) :
  let w' := snd (SummarizerService.dispose w) in
  service w' = Summarizer.newService
  /\ sameBesidesService w w'
  /\ console w' = console w
  /\ SummarizerService.summarize text context w'
     = (Throw "Summarizer not initialized", w')
  /\ fst (SummarizerService.initialize host config w')
     = fst (SummarizerService.performInitialization host config w').
Proof.
  cbn zeta. split; [reflexivity|]. split; [repeat split|].
  split; [reflexivity|]. split.
  - apply BackgroundProofs.summarize_uninitialized. left. reflexivity.
  - apply BackgroundProofs.initialize_fresh; reflexivity.
Qed.

(** X12. determineSummaryType never chooses 'headline'.  Content that
    mentions a form, an input or a textarea gets 'key-points' whatever the
    URL; otherwise 'teaser' and 'tldr' are chosen only for URLs that name
    a blog, an article or news, respectively docs, drive or office. *)
Theorem determineSummaryType_choice (content url : string) :
  let formLike := JS.str_includes content "<form" || JS.str_includes content "input"
                  || JS.str_includes content "textarea" in
  let lower := JS.toLowerCase url in
  let reading := JS.str_includes lower "blog" || JS.str_includes lower "article"
                 || JS.str_includes lower "news" in
  let office := JS.str_includes lower "docs" || JS.str_includes lower "drive"
                || JS.str_includes lower "office" in
  SummarizerService.determineSummaryType content url <> Summarizer.Headline
  /\ (formLike = true ->
      SummarizerService.determineSummaryType content url = Summarizer.KeyPoints)
  /\ (SummarizerService.determineSummaryType content url = Summarizer.Teaser <->
      formLike = false /\ reading = true)
  /\ (SummarizerService.determineSummaryType content url = Summarizer.Tldr <->
      formLike = false /\ reading = false /\ office = true).
Proof.
  cbn zeta. unfold SummarizerService.determineSummaryType.
  destruct (JS.str_includes content "<form" || JS.str_includes content "input"
            || JS.str_includes content "textarea").
  { repeat split; try discriminate; intros [H _]; discriminate. }
  destruct (JS.str_includes (JS.toLowerCase url) "blog"
            || JS.str_includes (JS.toLowerCase url) "article"
            || JS.str_includes (JS.toLowerCase url) "news").
  { repeat split; try discriminate. intros (_ & H & _). discriminate. }
  destruct (JS.str_includes (JS.toLowerCase url) "docs"
            || JS.str_includes (JS.toLowerCase url) "drive"
            || JS.str_includes (JS.toLowerCase url) "office").
  - repeat split; try discriminate. intros (_ & H). discriminate.
  - repeat split; try discriminate.
    + intros (_ & H). discriminate.
    + intros (_ & _ & H). discriminate.
Qed.








Lemma service_generateTabSummary_initialized (host : Host) (tabId : Z)
    (url title content : string) (w : World) (h : Summarizer.Handle) :
  Summarizer.summarizer (service w) = Some h ->
  Summarizer.isInitialized (service w) = true ->
  SummarizerService.generateTabSummary host tabId url title content w
  = match Summarizer.summarizeWith h content
            (Some ("This is content from: " +:+ title)) with
    | Ok text =>
        (Ok (Summarizer.mkTabSummary tabId url title text
               (SummarizerService.determineSummaryType content url)
               Summarizer.Short (now host)), w)
    | Throw e =>
        (Throw e, addLog (LogError "Failed to generate summary:" e) w)
    end.
Proof.
  intros Hs Hi. unfold SummarizerService.generateTabSummary.
  unfold bind at 1, get at 1. rewrite Hs. unfold bind at 1.
  rewrite initialize_cases, Hi. unfold bind, ret.
  rewrite (BackgroundProofs.summarize_initialized _ _ w h Hi Hs).
  destruct (Summarizer.summarizeWith h content _); reflexivity.
Qed.

(** X13. The service's generateTabSummary does not initialize a service
    on its own.  On a service without a summarizer that is not
    initialized it throws 'Summarizer not initialized' and changes
    nothing; on an initialized service it hands the content to the
    summarizer it holds, with the title as context, and returns a short
    summary of the type determineSummaryType chose, stamped with the
    current time, or logs and rethrows the summarizer's error. *)
Theorem service_generateTabSummary_outcome (host : Host) (tabId : Z)
    (url title content : string) (w : World) :
  (Summarizer.summarizer (service w) = None ->
   Summarizer.isInitialized (service w) = false ->
   SummarizerService.generateTabSummary host tabId url title content w
   = (Throw "Summarizer not initialized", w))
  /\ (forall h,
        Summarizer.summarizer (service w) = Some h ->
        Summarizer.isInitialized (service w) = true ->
        SummarizerService.generateTabSummary host tabId url title content w
        = match Summarizer.summarizeWith h content
                  (Some ("This is content from: " +:+ title)) with
          | Ok text =>
              (Ok (Summarizer.mkTabSummary tabId url title text
                     (SummarizerService.determineSummaryType content url)
                     Summarizer.Short (now host)), w)
          | Throw e =>
              (Throw e, addLog (LogError "Failed to generate summary:" e) w)
          end).
Proof.
  split.
  - intros Hs Hi. unfold SummarizerService.generateTabSummary, bind, get, ret.
    rewrite Hs. cbn beta iota.
    rewrite BackgroundProofs.summarize_uninitialized by (left; exact Hi).
    reflexivity.
  - intros h. apply service_generateTabSummary_initialized.
Qed.

End SummarizerMore.

(* ===================================================================== *)
(** ** background.ts: further properties *)
(* ===================================================================== *)

Module WorkerMore.
Import Eff Runtime BackgroundSpec SummarizerSpec WorkerSpec ServiceFacts SummarizerMore.













(** *** The icon *)

Lemma updateIcon_cases (host : Host) (tabId : Z) (w : World) :
  (tabState w !! tabId = Some true /\ snd (Background.updateIcon host tabId w) = w)
  \/ (tabState w !! tabId <> Some true
      /\ snd (Background.updateIcon host tabId w)
         = setIcons (insert tabId IconDefault) w)
  \/ (tabState w !! tabId = Some true
      /\ (exists tab url hostname,
            tabs host !! tabId = Some tab /\ tabUrl tab = Some url
            /\ hostnameOf host url = Some hostname
            /\ hostname ∈ Background.storedProtectedSites w)
      /\ snd (Background.updateIcon host tabId w)
         = setIcons (insert tabId IconWarning) w).
Proof.
  unfold Background.updateIcon, bind, get, modify, throw, ret.
  destruct (tabState w !! tabId) as [[|]|] eqn:Hs.
  2,3: right; left; split; [congruence | reflexivity].
  destruct (tabs host !! tabId) as [tab|] eqn:Htab; [|left; split; reflexivity].
  destruct (tabUrl tab) as [[|c u]|] eqn:Hu; try (left; split; reflexivity).
  destruct (hostnameOf host (String c u)) as [hostname|] eqn:Hh;
    [|left; split; reflexivity].
  destruct (JS.includes (Background.storedProtectedSites w) hostname) eqn:Hin;
    [|left; split; reflexivity].
  right; right. split; [reflexivity|]. split; [|reflexivity].
  exists tab, (String c u), hostname. repeat split; try assumption.
  apply list_elem_of_In, includes_In. exact Hin.
Qed.

(** X17. updateIcon changes nothing but the icon of its own tab.  A tab
    without unsaved changes gets the default icon; the warning icon is set
    only for a tab with unsaved changes whose hostname is in the stored
    protectedSites list, so a warning icon after the call was either
    there before or is backed by both. *)
Theorem updateIcon_warning_only_when_protected (host : Host) (tabId : Z) (w : World) :
  let w' := snd (Background.updateIcon host tabId w) in
  (tabState w !! tabId <> Some true -> icons w' !! tabId = Some IconDefault)
  /\ (icons w' !! tabId = Some IconWarning ->
      icons w !! tabId = Some IconWarning
      \/ (tabState w !! tabId = Some true
          /\ exists tab url hostname,
               tabs host !! tabId = Some tab /\ tabUrl tab = Some url
               /\ hostnameOf host url = Some hostname
               /\ hostname ∈ Background.storedProtectedSites w))
  /\ (forall other, other <> tabId -> icons w' !! other = icons w !! other)
  /\ storage w' = storage w /\ tabState w' = tabState w
  /\ summarizationStatus w' = summarizationStatus w
  /\ service w' = service w /\ console w' = console w.
Proof.
  cbn zeta.
  destruct (updateIcon_cases host tabId w) as [[Hs E]|[[Hs E]|(Hs & Hex & E)]];
    rewrite E; clear E.
  - split; [contradiction|]. repeat split; auto.
  - split; [intros _; cbn; apply lookup_insert_eq|].
    split; [cbn; rewrite lookup_insert_eq; discriminate|].
    split; [intros other Hne; cbn; apply lookup_insert_ne; congruence|].
    repeat split.
  - split; [contradiction|].
    split; [intros _; right; split; assumption|].
    split; [intros other Hne; cbn; apply lookup_insert_ne; congruence|].
    repeat split.
Qed.


Lemma updateIcon_frame (host : Host) (tabId : Z) (w : World) :
  storage (snd (Background.updateIcon host tabId w)) = storage w
  /\ tabState (snd (Background.updateIcon host tabId w)) = tabState w
  /\ summarizationStatus (snd (Background.updateIcon host tabId w))
     = summarizationStatus w.
Proof.
  destruct (updateIcon_cases host tabId w) as [[_ E]|[[_ E]|(_ & _ & E)]];
    rewrite E; repeat split.
Qed.

Lemma updateIcon_default (host : Host) (tabId : Z) (w : World) :
  tabState w !! tabId = Some false ->
  icons (snd (Background.updateIcon host tabId w)) !! tabId = Some IconDefault.
Proof.
  intros Hs.
  destruct (updateIcon_cases host tabId w) as [[H _]|[[_ E]|(H & _)]];
    try congruence.
  rewrite E. cbn. apply lookup_insert_eq.
Qed.

(** *** The message listener *)

Lemma extractTabContent_total (host : Host) (tabId : Z) (w : World) :
  isOk (fst (Background.extractTabContent host tabId w)) = true.
Proof.
  unfold Background.extractTabContent, try_catch, bind, await, ret.
  destruct (pageText host tabId); reflexivity.
Qed.

Lemma onMessage_total (host : Host) (m : Background.Message) (sender : option Z)
    (w : World) :
  isOk (fst (Background.onMessage host m sender w)) = true.
Proof.
  unfold Background.onMessage.
  destruct sender as [[|tabId|tabId]|]; try reflexivity;
    destruct m as [| |hostname| | | |[a|]|action]; try reflexivity.
  all: try (destruct (Content.contentType a), (Content.riskLevel a); reflexivity).
  all: destruct (tabs host !! _) as [[[[|c u]|] [[|d t]|]]|]; try reflexivity.
  all: unfold bind;
    match goal with |- context [Background.extractTabContent ?h ?i ?w0] =>
      pose proof (extractTabContent_total h i w0) as Hx;
      destruct (Background.extractTabContent h i w0) as [[[|c' s']|e] w1]
    end; try discriminate; reflexivity.
Qed.

(** X16. The message listener never throws, whatever the message, the
    sender and the state.  A message that comes from no tab changes
    nothing and is not answered.  From a tab, UNSAVED_CHANGES_DETECTED
    records the tab as having unsaved changes and CHANGES_SAVED records it
    as saved and gives it the default icon; neither is answered and
    neither touches the storage. *)
Theorem onMessage_never_throws (host : Host) (m : Background.Message)
    (sender : option Z) (w : World) :
  isOk (fst (Background.onMessage host m sender w)) = true
  /\ (sender = None \/ sender = Some 0 ->
      Background.onMessage host m sender w = (Ok None, w))
  /\ (forall tabId, sender = Some tabId -> tabId <> 0 ->
        let r := Background.onMessage host m sender w in
        (m = Background.UNSAVED_CHANGES_DETECTED ->
           fst r = Ok None /\ tabState (snd r) !! tabId = Some true
           /\ storage (snd r) = storage w)
        /\ (m = Background.CHANGES_SAVED ->
              fst r = Ok None /\ tabState (snd r) !! tabId = Some false
              /\ icons (snd r) !! tabId = Some IconDefault
              /\ storage (snd r) = storage w)).
Proof.
  split; [apply onMessage_total|]. split.
  { intros [->| ->]; reflexivity. }
  intros tabId -> Hne. cbn zeta. split; intros ->.
  - assert (E : Background.onMessage host Background.UNSAVED_CHANGES_DETECTED
                  (Some tabId) w
                = (Ok None, snd (Background.updateIcon host tabId
                                   (setTabState (insert tabId true) w)))).
    { destruct tabId; [contradiction| |]; reflexivity. }
    rewrite E. cbn [fst snd].
    destruct (updateIcon_frame host tabId (setTabState (insert tabId true) w))
      as (F1 & F2 & _).
    rewrite F1, F2. split; [reflexivity|]. split; [apply lookup_insert_eq|reflexivity].
  - assert (E : Background.onMessage host Background.CHANGES_SAVED (Some tabId) w
                = (Ok None, snd (Background.updateIcon host tabId
                                   (setTabState (insert tabId false) w)))).
    { destruct tabId; [contradiction| |]; reflexivity. }
    rewrite E. cbn [fst snd].
    destruct (updateIcon_frame host tabId (setTabState (insert tabId false) w))
      as (F1 & F2 & _).
    rewrite F1, F2. split; [reflexivity|]. split; [apply lookup_insert_eq|].
    split; [|reflexivity].
    apply updateIcon_default. cbn. apply lookup_insert_eq.
Qed.

(** *** Tab and lifecycle listeners *)

(** X18. When a tab is closed the worker forgets it: its unsaved flag,
    its summarization status and its stored record are gone, and what is
    kept for any other tab stays as it was. *)
Theorem onRemoved_forgets_tab (tabId : Z) (w : World) :
  let r := BackgroundEvents.onRemoved tabId w in
  fst r = Ok tt
  /\ tabState (snd r) !! tabId = None
  /\ summarizationStatus (snd r) !! tabId = None
  /\ StorageService.getTabData tabId (storage (snd r)) = None
  /\ (forall other, other <> tabId ->
        tabState (snd r) !! other = tabState w !! other
        /\ summarizationStatus (snd r) !! other = summarizationStatus w !! other
        /\ StorageService.getTabData other (storage (snd r))
           = StorageService.getTabData other (storage w))
  /\ StorageService.syncSettings (storage (snd r))
     = StorageService.syncSettings (storage w)
  /\ StorageService.syncProtectedSites (storage (snd r))
     = StorageService.syncProtectedSites (storage w).
Proof.
  cbn zeta. unfold BackgroundEvents.onRemoved, bind, modify. cbn [fst snd].
  split; [reflexivity|].
  split; [cbn; apply lookup_delete_eq|].
  split; [cbn; apply lookup_delete_eq|].
  split; [cbn; apply lookup_delete_eq|].
  split; [|split; reflexivity].
  intros other Hne.
  split; [cbn; apply lookup_delete_ne; congruence|].
  split; [cbn; apply lookup_delete_ne; congruence|].
  unfold StorageService.getTabData. cbn. apply lookup_delete_ne.
  intros E. apply Hne. symmetry. exact (StorageProofs.tabKey_inj _ _ E).
Qed.


Lemma shouldSummarizeTab_state (host : Host) (tabId : Z) (url content : string)
    (w : World) :
  snd (Background.shouldSummarizeTab host tabId url content w) = w.
Proof.
  unfold Background.shouldSummarizeTab, SummarizerService.isSupported, bind, get,
    ret, throw.
  destruct (negb (StorageService.isAIFeaturesEnabled (storage w))); [reflexivity|].
  destruct (negb (Summarizer.present (api host))); [reflexivity|].
  destruct (match summarizationStatus w !! tabId with
            | Some s => isProcessing s
            | None => false
            end); [reflexivity|].
  destruct (String.length content <? 200)%nat; [reflexivity|].
  destruct (hostnameOf host url); [|reflexivity].
  destruct (JS.includes _ _); [reflexivity|].
  destruct (negb _); [reflexivity|].
  destruct (_ || _); reflexivity.
Qed.

(** X19. handleTabUpdate does nothing unless the load is complete and the
    tab has a URL and a title, and nothing for chrome: and
    chrome-extension: pages.  Otherwise, when the page has text and
    shouldSummarizeTab answers, it stores a fresh record for the tab,
    with the unsaved flag the worker holds, the current time and no
    summary, in place of whatever was stored for the tab, and schedules a
    summary exactly when the answer was yes. *)
Theorem handleTabUpdate_stores_fresh_record (host : Host)
    (protocolOf : string -> option string) (tabId : Z) (status : option string)
    (tab : TabInfo) (w : World) :
  let run := BackgroundEvents.handleTabUpdate host protocolOf tabId status tab w in
  (status <> Some "complete" -> run = (Ok None, w))
  /\ (tabUrl tab = None \/ tabUrl tab = Some "" \/ tabTitle tab = None
      \/ tabTitle tab = Some "" -> run = (Ok None, w))
  /\ (forall url,
        tabUrl tab = Some url ->
        protocolOf url = Some "chrome:" \/ protocolOf url = Some "chrome-extension:" ->
        run = (Ok None, w))
  /\ (forall url title protocol content should,
        status = Some "complete" ->
        tabUrl tab = Some url -> url <> "" ->
        tabTitle tab = Some title -> title <> "" ->
        protocolOf url = Some protocol ->
        protocol <> "chrome:" -> protocol <> "chrome-extension:" ->
        pageText host tabId = Ok content -> content <> "" ->
        fst (Background.shouldSummarizeTab host tabId url content w) = Ok should ->
        run = (Ok (if should
                   then Some (BackgroundEvents.mkScheduled tabId url title content)
                   else None),
               setStorage
                 (StorageService.saveTabData
                    (StorageService.mkTabData tabId url title
                       (default false (tabState w !! tabId)) None (now host)
                       StorageService.ProtNone)) w)).
Proof.
  cbn zeta. unfold BackgroundEvents.handleTabUpdate.
  split; [|split; [|split]].
  - intros Hs. destruct (tabUrl tab) as [[|c u]|]; try reflexivity.
    destruct (tabTitle tab) as [[|d t]|]; try reflexivity.
    destruct status as [s|]; [|reflexivity].
    destruct (String.eqb_spec s "complete") as [->|_]; [contradiction|reflexivity].
  - intros [->|[->|[->| ->]]]; try reflexivity;
      destruct (tabUrl tab) as [[|c u]|]; reflexivity.
  - intros url -> Hp. destruct url as [|c u]; [reflexivity|].
    destruct (tabTitle tab) as [[|d t]|]; try reflexivity.
    destruct status as [s|]; [|reflexivity].
    destruct (negb (String.eqb s "complete")); [reflexivity|].
    destruct Hp as [-> | ->]; reflexivity.
  - intros url title protocol content should -> -> Hu -> Ht Hp Hp1 Hp2 Hc Hne Hs.
    destruct url as [|c u]; [contradiction|].
    destruct title as [|d t]; [contradiction|].
    cbn zeta. rewrite String.eqb_refl, Hp. cbn [negb].
    destruct (String.eqb_spec protocol "chrome:"); [contradiction|].
    destruct (String.eqb_spec protocol "chrome-extension:"); [contradiction|].
    cbn [orb]. unfold bind at 1.
    unfold Background.extractTabContent, try_catch, bind at 1, await, ret.
    rewrite Hc. destruct content as [|c' s']; [contradiction|].
    unfold bind at 1.
    pose proof (shouldSummarizeTab_state host tabId (String c u) (String c' s') w) as Hw.
    destruct (Background.shouldSummarizeTab host tabId (String c u) (String c' s') w)
      as [[b|e] w1]; cbn [fst snd] in *; [|discriminate].
    injection Hs as ->. subst w1. reflexivity.
Qed.

(** On a page with little text nothing is scheduled; the stored record is
    replaced by one without a summary. *)
Example handleTabUpdate_short_page :
  BackgroundEvents.handleTabUpdate (hostWith workingApi) httpsOnly 7
    (Some "complete")
    (mkTabInfo (Some "https://bank.example.com/transfer") (Some "Transfer"))
    worldWithTab
  = (Ok None,
     setStorage
       (StorageService.saveTabData
          (StorageService.mkTabData 7 "https://bank.example.com/transfer"
             "Transfer" false None 5000 StorageService.ProtNone))
       worldWithTab).
Proof. reflexivity. Qed.


(** X21. On installation the settings record is overwritten with the
    defaults, whatever was saved before; on any other occasion the
    listener changes nothing.  The tab records and the protectedSites key
    are left alone in both cases. *)
Theorem onInstalled_resets_settings (reason : string) (w : World) :
  let r := BackgroundEvents.onInstalled reason w in
  fst r = Ok tt
  /\ (reason = "install" ->
      StorageService.getSettings (storage (snd r)) = StorageService.getDefaultSettings)
  /\ (reason <> "install" -> snd r = w)
  /\ StorageService.local (storage (snd r)) = StorageService.local (storage w)
  /\ StorageService.syncProtectedSites (storage (snd r))
     = StorageService.syncProtectedSites (storage w).
Proof.
  cbn zeta. unfold BackgroundEvents.onInstalled.
  destruct (String.eqb_spec reason "install") as [->|Hne].
  - repeat split. intros H. contradiction.
  - repeat split. intros H. contradiction.
Qed.

End WorkerMore.

(* ===================================================================== *)
(** ** popup.ts: further properties *)
(* ===================================================================== *)

Module PopupMore.
Import Popup PopupSpec PopupDisplay.

(** X22. A click on the toggle button flips the membership of the
    current hostname in the popup's list and of no other site, and writes
    the resulting list under the protectedSites key; the tab records and
    the settings record are not written. *)
Theorem toggleClick_flips_current_site (s : State) :
  let s' := toggleClick s in
  (currentHostname (popup s) ∈ protectedSites (popup s') <->
   currentHostname (popup s) ∉ protectedSites (popup s))
  /\ (forall x, x <> currentHostname (popup s) ->
        (x ∈ protectedSites (popup s') <-> x ∈ protectedSites (popup s)))
  /\ storedSites s' = Some (protectedSites (popup s'))
  /\ currentHostname (popup s') = currentHostname (popup s)
  /\ StorageService.local (storage s') = StorageService.local (storage s)
  /\ StorageService.syncSettings (storage s') = StorageService.syncSettings (storage s).
Proof.
  cbn zeta. unfold toggleClick, storedSites. cbn.
  destruct (JS.includes (protectedSites (popup s)) (currentHostname (popup s)))
    eqn:E.
  - apply includes_In, list_elem_of_In in E.
    split; [|split; [|repeat split]].
    + rewrite StorageProofs.elem_of_without. split; [intros [_ H]; contradiction|].
      intros H. contradiction.
    + intros x Hne. rewrite StorageProofs.elem_of_without. tauto.
  - apply includes_false_not_In in E. rewrite <- list_elem_of_In in E.
    split; [|split; [|repeat split]].
    + rewrite elem_of_app, list_elem_of_singleton. tauto.
    + intros x Hne. rewrite elem_of_app, list_elem_of_singleton. tauto.
Qed.

Lemma shouldSummarizeTab_reads_settings (host : Runtime.Host) (tabId : Z)
    (url content : string) (w w' : Runtime.World) :
  StorageService.syncSettings (Runtime.storage w')
  = StorageService.syncSettings (Runtime.storage w) ->
  Runtime.summarizationStatus w' = Runtime.summarizationStatus w ->
  fst (Background.shouldSummarizeTab host tabId url content w')
  = fst (Background.shouldSummarizeTab host tabId url content w).
Proof.
  intros Hs Hst.
  unfold Background.shouldSummarizeTab, SummarizerService.isSupported, Eff.bind,
    Eff.get, Eff.ret, Eff.throw, StorageService.isAIFeaturesEnabled,
    StorageService.getProtectedSites, StorageService.isAutoSummarizeEnabled,
    StorageService.getSettings.
  rewrite Hs, Hst.
  destruct (negb _); [reflexivity|].
  destruct (negb (Summarizer.present (Runtime.api host))); [reflexivity|].
  destruct (match Runtime.summarizationStatus w !! tabId with
            | Some s => Runtime.isProcessing s
            | None => false
            end); [reflexivity|].
  destruct (String.length content <? 200)%nat; [reflexivity|].
  destruct (Runtime.hostnameOf host url); [|reflexivity].
  destruct (JS.includes _ _); [reflexivity|].
  destruct (negb _); [reflexivity|].
  destruct (_ || _); reflexivity.
Qed.

(** X23. The two lists of protected sites are separate.  What the popup
    and the options page write (the protectedSites key) is what
    GET_PROTECTION_STATUS answers from, and it does not change the list in
    the settings record that shouldSummarizeTab reads; what
    addProtectedSite and removeProtectedSite write (the settings record)
    does not change the answer to GET_PROTECTION_STATUS. *)
Theorem protected_lists_are_separate (host : Runtime.Host) (w : Runtime.World) :
  (forall sites tabId url content,
     fst (Background.shouldSummarizeTab host tabId url content
            (Runtime.setStorage (writeSites sites) w))
     = fst (Background.shouldSummarizeTab host tabId url content w))
  /\ (forall s,
        StorageService.getProtectedSites (storage (toggleClick s))
        = StorageService.getProtectedSites (storage s)
        /\ StorageService.getProtectedSites (storage (recommendationClick ProtectSite s))
           = StorageService.getProtectedSites (storage s))
  /\ (forall site hostname sender,
        fst (Background.onMessage host (Background.GET_PROTECTION_STATUS hostname)
               sender (Runtime.setStorage (StorageService.addProtectedSite site) w))
        = fst (Background.onMessage host (Background.GET_PROTECTION_STATUS hostname)
                 sender w)
        /\ fst (Background.onMessage host (Background.GET_PROTECTION_STATUS hostname)
                  sender (Runtime.setStorage (StorageService.removeProtectedSite site) w))
           = fst (Background.onMessage host (Background.GET_PROTECTION_STATUS hostname)
                    sender w))
  /\ (forall sites hostname tabId, tabId <> 0 ->
        fst (Background.onMessage host (Background.GET_PROTECTION_STATUS hostname)
               (Some tabId) (Runtime.setStorage (writeSites sites) w))
        = Eff.Ok (Some (Background.ProtectionStatus (JS.includes sites hostname)))).
Proof.
  split; [|split; [|split]].
  - intros sites tabId url content.
    apply shouldSummarizeTab_reads_settings; reflexivity.
  - intros s. split; reflexivity.
  - intros site hostname sender.
    destruct sender as [[|p|p]|]; try (split; reflexivity).
    all: unfold Background.onMessage, Eff.bind, Eff.get, Eff.ret,
           Background.storedProtectedSites; cbn [fst Runtime.storage Runtime.setStorage].
    all: rewrite (proj2 (StorageMore.addProtectedSite_frame site (Runtime.storage w))).
    all: split; reflexivity.
  - intros sites hostname tabId Hne. destruct tabId; [contradiction| |]; reflexivity.
Qed.








(** Switching AI off at the checkbox stores the flag, and no 'Enable AI'
    recommendation appears. *)
Example ai_checkbox_leaves_recommendations :
  match runUndisturbed [ChangeAIToggle]
          (openPopup "example.com" StorageService.emptyStorage) with
  | Some s =>
      StorageService.isAIFeaturesEnabled (storage s) = false
      /\ aiToggleChecked (popup s) = false
      /\ recommendations (popup s) = [ProtectSite]
      /\ recommendations (generateRecommendations (popup s)) = [ProtectSite; EnableAI]
  | None => False
  end.
Proof. cbn. repeat split. Qed.

(** While a write is pending the display is behind: the site is in the
    list, the button still offers to protect it. *)
Example popup_display_behind_during_write :
  match run [ClickToggle] (openPopup "example.com" StorageService.emptyStorage) with
  | Some s =>
      JS.includes (protectedSites (popup s)) (currentHostname (popup s)) = true
      /\ toggleShowsUnprotect (popup s) = false
      /\ recommendations (popup s) = [ProtectSite]
  | None => False
  end.
Proof. cbn. repeat split. Qed.

(** Enabling AI from the recommendation stores the changed settings and
    takes the recommendation away. *)
Example enableAI_recommendation :
  match runUndisturbed [ClickRecommendation EnableAI]
          (openPopup "example.com" aiOffStorage) with
  | Some s =>
      StorageService.isAIFeaturesEnabled (storage s) = true
      /\ recommendations (popup s) = [ProtectSite]
      /\ aiToggleChecked (popup s) = true
  | None => False
  end.
Proof. cbn. repeat split. Qed.

End PopupMore.

(* ===================================================================== *)
(** ** content.ts: further properties *)
(* ===================================================================== *)

Module ContentMore.
Import Content ContentSpec ContentEvents ContentEventsSpec.

(** *** The flags along a run of events *)

Lemma setForm_flags (p : Page) (k : nat) (f : FormDataInfo) :
  pageUnsaved (vars (setForm p k f)) = pageUnsaved (vars p)
  /\ isSiteProtected (vars (setForm p k f)) = isSiteProtected (vars p)
  /\ warningShown (vars (setForm p k f)) = warningShown (vars p).
Proof. destruct k; repeat split. Qed.

Lemma fieldListener_flags (now : Z) (k i : nat) (v : string) (p : Page) :
  pageUnsaved (vars (fst (fieldListener now k i v p))) = pageUnsaved (vars p)
  /\ isSiteProtected (vars (fst (fieldListener now k i v p))) = isSiteProtected (vars p)
  /\ warningShown (vars (fst (fieldListener now k i v p))) = warningShown (vars p).
Proof.
  unfold fieldListener. destruct (getForm p k) as [f|]; [|repeat split].
  destruct (handleFieldChange (warningShown (vars p)) now f i v) as [f' effects].
  apply setForm_flags.
Qed.

Lemma trackingListeners_flags (t : InputTarget) (p : Page) :
  pageUnsaved (vars (fst (trackingListeners t p))) = pageUnsaved (vars p) || typesText t
  /\ isSiteProtected (vars (fst (trackingListeners t p))) = isSiteProtected (vars p)
  /\ warningShown (vars (fst (trackingListeners t p))) = warningShown (vars p).
Proof.
  unfold trackingListeners, typesText.
  destruct (editables t), (String.eqb (targetTag t) "INPUT"),
    (String.eqb (targetTag t) "TEXTAREA"); cbn;
    rewrite ?orb_true_r, ?orb_false_r; repeat split.
Qed.

Lemma pageStep_flags (now : Z) (e : PageEvent) (p : Page) :
  pageUnsaved (vars (fst (pageStep now e p))) = pageUnsaved (vars p) || typing e
  /\ isSiteProtected (vars (fst (pageStep now e p))) = isSiteProtected (vars p)
  /\ warningShown (vars (fst (pageStep now e p)))
     = warningShown (vars p) || closesFeedback e.
Proof.
  destruct e as [t|k i v|k|]; cbn [pageStep typing closesFeedback].
  - assert (H1 : forall q : Page * list Effect,
               pageUnsaved (vars (fst q)) = pageUnsaved (vars p) ->
               isSiteProtected (vars (fst q)) = isSiteProtected (vars p) ->
               warningShown (vars (fst q)) = warningShown (vars p) ->
               let r := (let '(p1, e1) := q in
                         let '(p2, e2) := trackingListeners t p1 in (p2, e1 ++ e2)) in
               pageUnsaved (vars (fst r)) = pageUnsaved (vars p) || typesText t
               /\ isSiteProtected (vars (fst r)) = isSiteProtected (vars p)
               /\ warningShown (vars (fst r)) = warningShown (vars p) || false).
    { intros [p1 e1] A B C. cbn [fst] in *. cbn zeta.
      pose proof (trackingListeners_flags t p1) as (T1 & T2 & T3).
      destruct (trackingListeners t p1) as [p2 e2]. cbn [fst] in *.
      rewrite T1, T2, T3, A, B, C, orb_false_r. repeat split. }
    destruct (tracked t) as [[k i]|].
    + destruct (fieldListener_flags now k i (targetValue t) p) as (F1 & F2 & F3).
      apply (H1 (fieldListener now k i (targetValue t) p)); assumption.
    + apply (H1 (p, [])); reflexivity.
  - rewrite !orb_false_r. apply fieldListener_flags.
  - rewrite !orb_false_r. destruct (getForm p k) as [f|]; [|repeat split].
    cbn. apply setForm_flags.
  - rewrite orb_false_r, orb_true_r. repeat split.
Qed.

Lemma pageRun_app (es1 es2 : list (Z * PageEvent)) (p : Page) :
  fst (pageRun (es1 ++ es2) p) = fst (pageRun es2 (fst (pageRun es1 p))).
Proof.
  revert p. induction es1 as [|[now e] es1 IH]; intros p; [reflexivity|].
  cbn [app pageRun]. destruct (pageStep now e p) as [p1 e1].
  specialize (IH p1).
  destruct (pageRun (es1 ++ es2) p1) as [p2 e2].
  destruct (pageRun es1 p1) as [p3 e3]. cbn [fst] in *. exact IH.
Qed.

Lemma pageRun_flags (es : list (Z * PageEvent)) (p : Page) :
  pageUnsaved (vars (fst (pageRun es p)))
  = pageUnsaved (vars p) || existsb (fun ne => typing (snd ne)) es
  /\ isSiteProtected (vars (fst (pageRun es p))) = isSiteProtected (vars p)
  /\ warningShown (vars (fst (pageRun es p)))
     = warningShown (vars p) || existsb (fun ne => closesFeedback (snd ne)) es.
Proof.
  revert p. induction es as [|[now e] es IH]; intros p.
  - cbn. rewrite !orb_false_r. repeat split.
  - cbn [pageRun existsb snd].
    pose proof (pageStep_flags now e p) as (S1 & S2 & S3).
    destruct (pageStep now e p) as [p1 e1]. cbn [fst] in *.
    specialize (IH p1). destruct (pageRun es p1) as [p2 e2]. cbn [fst] in *.
    destruct IH as (I1 & I2 & I3).
    rewrite I1, I2, I3, S1, S2, S3, !orb_assoc. repeat split.
Qed.

(** X25. The page-level unsaved flag is set by typing into an input, a
    textarea or an editable element and is never cleared, and the
    protection flag does not change while the page lives.  So on a
    protected page, once text has been typed, leaving the page raises the
    warning whatever happened since, a submitted form included. *)
Theorem typed_text_keeps_warning (es1 es2 : list (Z * PageEvent)) (now : Z)
    (t : InputTarget) (p : Page) :
  typesText t = true ->
  isSiteProtected (vars p) = true ->
  warns (beforeunload (vars (fst (pageRun (es1 ++ (now, InputEvent t) :: es2) p))))
  = true.
Proof.
  intros Ht Hp. rewrite ContentProofs.beforeunload_guard.
  destruct (pageRun_flags (es1 ++ (now, InputEvent t) :: es2) p) as (R1 & R2 & _).
  rewrite R1, R2, Hp, existsb_app. cbn [existsb snd typing]. rewrite Ht.
  rewrite !orb_true_r. reflexivity.
Qed.

Lemma typed_text_keeps_warning_example :
  typesText typeEmail = true
  /\ isSiteProtected (vars contactPage) = true
  /\ warns (beforeunload
              (vars (fst (pageRun ([] ++ (10, InputEvent typeEmail)
                                     :: [(20, SubmitEvent 0)]) contactPage))))
     = true.
Proof.
  split; [reflexivity|]. split; [reflexivity|].
  exact (typed_text_keeps_warning [] [(20, SubmitEvent 0)] 10 typeEmail contactPage
           eq_refl eq_refl).
Defined.

(** X26. Submitting the first form clears that form's flag only: right
    after the submit the page warns on leaving exactly when it is
    protected and text has been typed somewhere since it was loaded.  A
    user who only chose from select boxes and submitted leaves without a
    warning. *)
Theorem submit_silences_unless_typed (now : Z) (p : Page) :
  warns (beforeunload (vars (fst (pageStep now (SubmitEvent 0) p))))
  = isSiteProtected (vars p) && pageUnsaved (vars p).
Proof.
  rewrite ContentProofs.beforeunload_guard. cbn [pageStep getForm].
  destruct (currentFormData (vars p)) as [f|] eqn:Hf.
  - cbn. rewrite orb_false_r. reflexivity.
  - cbn. unfold formUnsaved. rewrite Hf, orb_false_r. reflexivity.
Qed.

Example select_then_submit :
  let p := fst (pageRun [(10, InputEvent pickTopic); (20, SubmitEvent 0)] contactPage) in
  warns (beforeunload (vars (fst (pageRun [(10, InputEvent pickTopic)] contactPage))))
  = true
  /\ warns (beforeunload (vars p)) = false.
Proof. split; reflexivity. Qed.


(** *** handleFieldChange *)

Lemma map_insert_same {A B} (g : A -> B) (l : list A) (i : nat) (x y : A) :
  l !! i = Some x -> g y = g x -> List.map g (<[i := y]> l) = List.map g l.
Proof.
  revert i. induction l as [|a l IH]; intros [|i] Hi Hg; try discriminate.
  - injection Hi as ->. cbn. rewrite Hg. reflexivity.
  - change (g a :: List.map g (<[i := y]> l) = g a :: List.map g l).
    rewrite (IH i Hi Hg). reflexivity.
Qed.

Lemma handleFieldChange_cases (shown : bool) (now : Z) (f : FormDataInfo)
    (i : nat) (v : string) :
  handleFieldChange shown now f i v = (f, [])
  \/ exists fd,
       fields f !! i = Some fd /\ value fd <> v
       /\ handleFieldChange shown now f i v
          = (mkFormDataInfo (formId f) (<[i := setValue fd v]> (fields f))
               (completion (<[i := setValue fd v]> (fields f))) now true,
             SendMessage UNSAVED_CHANGES_DETECTED
             :: (if PrimFloat.leb (JS.of_nat 80)
                      (completion (<[i := setValue fd v]> (fields f)))
                    && negb shown
                 then [ShowCompletionFeedback
                         (completion (<[i := setValue fd v]> (fields f)))]
                 else [])).
Proof.
  unfold handleFieldChange. destruct (fields f !! i) as [fd|] eqn:Hi; [|left; reflexivity].
  destruct (String.eqb_spec (value fd) v) as [E|Hne]; [left; reflexivity|].
  right. exists fd. repeat split. exact Hne.
Qed.

(** X27. handleFieldChange touches one field only: the names, types and
    required marks of the form's fields and the values of the other
    fields are as before, so the set of required fields never changes.
    The same value arriving again (an input event followed by the change
    event) changes nothing and sends nothing.  Whatever it does, the first
    thing it sends is the unsaved-changes message, and it shows the
    completion feedback only while the user has not closed one. *)
Theorem handleFieldChange_one_field (shown : bool) (now : Z) (f : FormDataInfo)
    (i : nat) (v : string) :
  let r := handleFieldChange shown now f i v in
  List.map name (fields (fst r)) = List.map name (fields f)
  /\ List.map required (fields (fst r)) = List.map required (fields f)
  /\ List.map type (fields (fst r)) = List.map type (fields f)
  /\ (forall j, j <> i -> fields (fst r) !! j = fields f !! j)
  /\ formId (fst r) = formId f
  /\ (forall shown' now', handleFieldChange shown' now' (fst r) i v = (fst r, []))
  /\ (snd r = [] \/ head (snd r) = Some (SendMessage UNSAVED_CHANGES_DETECTED))
  /\ (shown = true -> existsb isFeedback (snd r) = false).
Proof.
  cbn zeta.
  destruct (handleFieldChange_cases shown now f i v) as [E|(fd & Hi & Hne & E)];
    rewrite E; cbn [fst snd].
  - repeat split; auto.
    intros shown' now'.
    destruct (handleFieldChange_cases shown' now' f i v) as [E'|(fd & Hi & Hne & _)];
      [exact E'|].
    exfalso. revert E. unfold handleFieldChange. rewrite Hi.
    destruct (String.eqb_spec (value fd) v); [contradiction | discriminate].
  - cbn [fields formId].
    split; [apply (map_insert_same name _ _ fd); [exact Hi | reflexivity]|].
    split; [apply (map_insert_same required _ _ fd); [exact Hi | reflexivity]|].
    split; [apply (map_insert_same type _ _ fd); [exact Hi | reflexivity]|].
    split; [intros j Hj; apply list_lookup_insert_ne; congruence|].
    split; [reflexivity|].
    split.
    { intros shown' now'. unfold handleFieldChange. cbn [fields].
      rewrite list_lookup_insert_eq
        by (apply lookup_lt_is_Some; eexists; exact Hi).
      cbn [setValue value]. rewrite String.eqb_refl. reflexivity. }
    split; [right; reflexivity|].
    intros ->. rewrite andb_false_r. reflexivity.
Qed.

(** *** performContentAnalysis *)

Lemma or_string_nonempty (a : option string) (b : string) :
  b <> "" -> JS.or_string a b <> "".
Proof. intros Hb. destruct a as [[|c s]|]; cbn; [exact Hb | discriminate | exact Hb]. Qed.

Lemma fieldLabel_nonempty (e : Element) : fieldLabel e <> "".
Proof.
  unfold fieldLabel. apply or_string_nonempty, or_string_nonempty. discriminate.
Qed.

(** X28. performContentAnalysis names at most five key fields and none of
    them by the empty string (a field without a name or an id is called
    'unnamed'); only a page with a form has key fields.  The estimated
    time is never negative and is at least one minute for a form. *)
Theorem performContentAnalysis_bounds (d : Document) :
  let a := performContentAnalysis d in
  (length (keyFields a) <= 5)%nat
  /\ (forall k, k ∈ keyFields a -> k <> "")
  /\ (contentType a <> CTForm -> keyFields a = [])
  /\ (0 <= estimatedTime a)%Z
  /\ (contentType a = CTForm -> (1 <= estimatedTime a)%Z).
Proof.
  cbn zeta. unfold performContentAnalysis.
  destruct (0 <? length (querySelectorAll d [Tag "form"]))%nat.
  - cbn [keyFields contentType estimatedTime].
    split; [rewrite length_take; lia|].
    split.
    { intros k Hk. apply subseteq_take in Hk.
      apply list_elem_of_In, in_map_iff in Hk. destruct Hk as (e & <- & _).
      apply fieldLabel_nonempty. }
    split; [intros H; contradiction|]. split; [lia | intros _; lia].
  - destruct ((0 <? length _)%nat || truthy _).
    + cbn. repeat split; try lia; try discriminate.
      intros k Hk. apply elem_of_nil in Hk. contradiction.
    + destruct (truthy _); cbn; repeat split; try lia; try discriminate;
        intros k Hk; apply elem_of_nil in Hk; contradiction.
Qed.

(** *** Feedback *)

Lemma messages_no_feedback (m : Action) (n : nat) :
  existsb isFeedback (repeat (SendMessage m) n) = false.
Proof. induction n as [|n IH]; [reflexivity | exact IH]. Qed.

Lemma fieldListener_effects (now : Z) (k i : nat) (v : string) (p : Page) :
  warningShown (vars p) = true ->
  existsb isFeedback (snd (fieldListener now k i v p)) = false.
Proof.
  intros Hw. unfold fieldListener. destruct (getForm p k) as [f|]; [|reflexivity].
  rewrite Hw.
  destruct (handleFieldChange_cases true now f i v) as [E|(fd & _ & _ & E)];
    rewrite E; [reflexivity|].
  cbn. rewrite andb_false_r. reflexivity.
Qed.

Lemma pageStep_effects (now : Z) (e : PageEvent) (p : Page) :
  warningShown (vars p) = true ->
  existsb isFeedback (snd (pageStep now e p)) = false.
Proof.
  intros Hw. destruct e as [t|k i v|k|]; cbn [pageStep].
  - assert (H1 : forall q : Page * list Effect,
               existsb isFeedback (snd q) = false ->
               existsb isFeedback
                 (snd (let '(p1, e1) := q in
                       let '(p2, e2) := trackingListeners t p1 in (p2, e1 ++ e2)))
               = false).
    { intros [p1 e1] Hq. cbn [snd] in Hq. unfold trackingListeners.
      pose proof (messages_no_feedback UNSAVED_CHANGES_DETECTED (editables t)) as Hm.
      destruct (editables t), (_ || _); cbn [snd]; rewrite !existsb_app, Hq, ?Hm;
        reflexivity. }
    destruct (tracked t) as [[k i]|].
    + apply (H1 (fieldListener now k i (targetValue t) p)).
      apply fieldListener_effects. exact Hw.
    + apply (H1 (p, [])). reflexivity.
  - apply fieldListener_effects. exact Hw.
  - destruct (getForm p k); reflexivity.
  - reflexivity.
Qed.

Lemma pageRun_effects (es : list (Z * PageEvent)) (p : Page) :
  warningShown (vars p) = true ->
  existsb isFeedback (snd (pageRun es p)) = false.
Proof.
  revert p. induction es as [|[now e] es IH]; intros p Hw; [reflexivity|].
  cbn [pageRun].
  pose proof (pageStep_effects now e p Hw) as He.
  pose proof (pageStep_flags now e p) as (_ & _ & S3).
  destruct (pageStep now e p) as [p1 e1]. cbn [fst snd] in *.
  assert (Hw1 : warningShown (vars p1) = true) by (rewrite S3, Hw; reflexivity).
  specialize (IH p1 Hw1). destruct (pageRun es p1) as [p2 e2]. cbn [snd] in *.
  rewrite existsb_app, He, IH. reflexivity.
Qed.

(** X29. Once the user has closed the completion feedback it stays
    closed: whatever happens on the page afterwards, no completion
    feedback is shown again, and the auto-save suggestion is not shown
    either. *)
Theorem feedback_closed_for_good (now : Z) (es : list (Z * PageEvent)) (p : Page) :
  let closed := fst (pageStep now FeedbackClosed p) in
  existsb isFeedback (snd (pageRun es closed)) = false
  /\ showAutoSaveSuggestion (vars (fst (pageRun es closed))) = false.
Proof.
  cbn zeta. split.
  - apply pageRun_effects. reflexivity.
  - unfold showAutoSaveSuggestion.
    destruct (pageRun_flags es (fst (pageStep now FeedbackClosed p))) as (_ & _ & R3).
    rewrite R3. reflexivity.
Qed.

End ContentMore.

(* ===================================================================== *)
(** ** options.ts *)
(* ===================================================================== *)

Module OptionsMore.
Import Options.

Lemma siteItem_href (site : string) : JS.startsWith (href (siteItem site)) "http" = true.
Proof.
  unfold siteItem. cbn [href].
  destruct (JS.startsWith site "http") eqn:E; [exact E | reflexivity].
Qed.

Lemma renderSitesList_shows (sites : list string) :
  protectedSites (renderSitesList sites) = sites
  /\ List.map dataSite (items (renderSitesList sites)) = sites
  /\ List.map linkText (items (renderSitesList sites)) = sites
  /\ (emptyMessageShown (renderSitesList sites) = true <-> sites = [])
  /\ (forall it, In it (items (renderSitesList sites)) ->
        JS.startsWith (href it) "http" = true).
Proof.
  destruct sites as [|s sites].
  - cbn. repeat split; auto.
  - unfold renderSitesList. cbn [protectedSites items emptyMessageShown].
    split; [reflexivity|].
    split; [rewrite List.map_map; cbn [siteItem dataSite]; apply List.map_id|].
    split; [rewrite List.map_map; cbn [siteItem linkText]; apply List.map_id|].
    split; [split; discriminate|].
    intros it Hin. apply in_map_iff in Hin. destruct Hin as (x & <- & _).
    apply siteItem_href.
Qed.

(** X30. A click on a site's remove button on the options page takes
    exactly that site off the list (every copy of it, nothing else),
    writes the new list under the protectedSites key and touches nothing
    else in storage; the page then shows what a reload would show: one
    item per listed site, each with a link that starts with http, and the
    empty message exactly when the list is empty.  A button whose
    data-site is empty does nothing, so an empty entry cannot be removed
    from this page. *)
Theorem removeClick_removes_site (site : string) (page : OptionsPage)
    (st : StorageService.ChromeStorage) :
  (site = "" -> removeClick site (page, st) = (page, st))
  /\ (site <> "" ->
      let r := removeClick site (page, st) in
      (forall x, In x (protectedSites (fst r))
                 <-> In x (protectedSites page) /\ x <> site)
      /\ StorageService.syncProtectedSites (snd r) = Some (protectedSites (fst r))
      /\ StorageService.local (snd r) = StorageService.local st
      /\ StorageService.syncSettings (snd r) = StorageService.syncSettings st
      /\ load (snd r) = fst r
      /\ List.map dataSite (items (fst r)) = protectedSites (fst r)
      /\ (emptyMessageShown (fst r) = true <-> protectedSites (fst r) = [])
      /\ (forall it, In it (items (fst r)) -> JS.startsWith (href it) "http" = true)).
Proof.
  split.
  - intros ->. reflexivity.
  - intros Hne. cbn zeta.
    assert (E : removeClick site (page, st)
                = (renderSitesList
                     (List.filter (fun x => negb (String.eqb x site))
                                  (protectedSites page)),
                   Popup.writeSites
                     (List.filter (fun x => negb (String.eqb x site))
                                  (protectedSites page)) st)).
    { destruct site; [contradiction | reflexivity]. }
    rewrite E. cbn [fst snd].
    destruct (renderSitesList_shows
                (List.filter (fun x => negb (String.eqb x site))
                             (protectedSites page)))
      as (R1 & R2 & _ & R4 & R5).
    rewrite R1.
    split.
    { intros x. rewrite filter_In, negb_true_iff.
      destruct (String.eqb_spec x site); split; intros [H1 H2];
        (split; [exact H1|]); congruence. }
    split; [reflexivity|]. split; [reflexivity|]. split; [reflexivity|].
    split; [reflexivity|].
    split; [exact R2|]. split; [exact R4 | exact R5].
Qed.

(** The page as loaded lists the stored sites in their order, and none
    when the key is missing. *)
Example load_missing_key (st : StorageService.ChromeStorage) :
  StorageService.syncProtectedSites st = None ->
  load st = mkOptionsPage [] [] true.
Proof. intros H. unfold load. rewrite H. reflexivity. Qed.

End OptionsMore.
